(** * PQAI request layer: a shallow embedding of [core/api.py]

    The request classes of [core/api.py] are embedded as Rocq functions over
    a model of the Python values they handle.  External collaborators
    (vectoriser, vector index, index selector, reranker, snippet extractor,
    patent store, peer extensions) are fields of a record [World]; every
    call to one of them is recorded in a call log, so that statements of the
    form "the vector search is invoked" can be read off the log. *)

From stdpp Require Import gmap strings list sorting.
From Stdlib Require Import ZArith Ascii String Lia.

Local Open Scope string_scope.
Local Open Scope list_scope.
Local Open Scope Z_scope.

(** ** Python values and builtins *)

Module Py.

(** Values a request parameter can hold.  A [str] is a sequence of code
    points; the model covers the code points below 256, one [ascii] each. *)
Inductive pyval : Type :=
| PNone
| PBool (b : bool)
| PInt (z : Z)
| PStr (s : string).

#[global] Instance pyval_eq_dec : EqDecision pyval.
Proof. solve_decision. Defined.

(** Exceptions.  The three classes defined in [core/api.py] carry their
    [message]; [ExternalError] stands for any exception class raised by a
    collaborator that the module does not define itself. *)
Inductive exn : Type :=
| BadRequestError (msg : string)
| ServerError (msg : string)
| NotAllowedError (msg : string)
| ValueError
| TypeError
| KeyError (key : string)
| AttributeError
| IndexError
| ExternalError (name : string).

#[global] Instance exn_eq_dec : EqDecision exn.
Proof. solve_decision. Defined.

(** Default messages of the exception constructors. *)
Definition BadRequestError_default : string := "Invalid request.".
Definition ServerError_default : string := "Server error while handling request.".
Definition NotAllowedError_default : string := "Request disallowed.".

(** [bool(v)] *)
Definition truthy (v : pyval) : bool :=
  match v with
  | PNone => false
  | PBool b => b
  | PInt z => negb (z =? 0)
  | PStr s => negb (String.eqb s "")
  end.

Definition code (c : ascii) : Z := Z.of_nat (nat_of_ascii c).

(** [c.isspace()], the characters [str.strip()] removes. *)
Definition is_space (c : ascii) : bool :=
  let n := code c in
  ((9 <=? n) && (n <=? 13)) || ((28 <=? n) && (n <=? 32))
  || (n =? 133) || (n =? 160).

Fixpoint lstrip (s : string) : string :=
  match s with
  | EmptyString => EmptyString
  | String c s' => if is_space c then lstrip s' else s
  end.

Fixpoint rstrip (s : string) : string :=
  match s with
  | EmptyString => EmptyString
  | String c s' =>
      let r := rstrip s' in
      if is_space c && String.eqb r "" then EmptyString else String c r
  end.

(** [s.strip()] *)
Definition strip (s : string) : string := rstrip (lstrip s).

(** [c.lower()] on one code point. *)
Definition lower_char (c : ascii) : ascii :=
  let n := code c in
  if ((65 <=? n) && (n <=? 90))
     || ((192 <=? n) && (n <=? 222) && negb (n =? 215))
  then ascii_of_nat (nat_of_ascii c + 32) else c.

(** [s.lower()] *)
Fixpoint lower (s : string) : string :=
  match s with
  | EmptyString => EmptyString
  | String c s' => String (lower_char c) (lower s')
  end.

(** Whitespace [int(str)] skips at both ends: the ASCII set of the C
    locale and the non-ASCII spaces.  The separators 28..31 are not in it. *)
Definition is_int_space (c : ascii) : bool :=
  let n := code c in
  ((9 <=? n) && (n <=? 13)) || (n =? 32) || (n =? 133) || (n =? 160).

Fixpoint int_lstrip (s : string) : string :=
  match s with
  | EmptyString => EmptyString
  | String c s' => if is_int_space c then int_lstrip s' else s
  end.

Fixpoint int_rstrip (s : string) : string :=
  match s with
  | EmptyString => EmptyString
  | String c s' =>
      let r := int_rstrip s' in
      if is_int_space c && String.eqb r "" then EmptyString else String c r
  end.

Definition digit_of (c : ascii) : option Z :=
  let n := code c in
  if (48 <=? n) && (n <=? 57) then Some (n - 48) else None.

(** Decimal digits, single underscores allowed between two digits. *)
Fixpoint parse_digits (s : string) (acc : Z) (after_digit : bool) : option Z :=
  match s with
  | EmptyString => if after_digit then Some acc else None
  | String c s' =>
      if Ascii.eqb c "_"%char
      then (if after_digit then parse_digits s' acc false else None)
      else match digit_of c with
           | Some d => parse_digits s' (10 * acc + d) true
           | None => None
           end
  end.

(** [int(s)] for a [str] in base 10; [None] is [ValueError].  (The cap on
    the number of digits that recent interpreters apply is a setting of the
    interpreter, not of the program, and is left out.) *)
Definition int_of_str (s : string) : option Z :=
  match int_rstrip (int_lstrip s) with
  | String "+"%char r => parse_digits r 0 false
  | String "-"%char r => Z.opp <$> parse_digits r 0 false
  | t => parse_digits t 0 false
  end.

(** [int(v)] *)
Definition int (v : pyval) : exn + Z :=
  match v with
  | PNone => inl TypeError
  | PBool b => inr (if b then 1 else 0)
  | PInt z => inr z
  | PStr s => match int_of_str s with
              | Some z => inr z
              | None => inl ValueError
              end
  end.

(** [l[i]] with Python's negative indices; [None] is [IndexError]. *)
Definition index {A} (l : list A) (i : Z) : option A :=
  let len := Z.of_nat (List.length l) in
  if (0 <=? i) && (i <? len) then l !! Z.to_nat i
  else if (i <? 0) && (0 <=? len + i) then l !! Z.to_nat (len + i)
  else None.

(** [l[:n]] *)
Definition slice_to {A} (l : list A) (n : Z) : list A :=
  if 0 <=? n then take (Z.to_nat n) l
  else take (Z.to_nat (Z.of_nat (List.length l) + n)) l.

End Py.
Import Py.

(** ** Effects: exceptions, divergence and the log of collaborator calls *)

(** One entry per call that leaves [core/api.py]. *)
Inductive call : Type :=
| CallVectorize (text : string)
| CallVectorSearch (m : Z)
| CallIndexGet (idx : pyval)
| CallIndexAvailable
| CallSelectIndexes (query : string) (k : Z)
| CallRerank
| CallSnippet
| CallMapping
| CallResult
| CallCombiner (k : Z)
| CallRemote
| CallPatent (pn : pyval)
| CallDocument (id : pyval)
| CallDataset (n : Z)
| CallUtils.

(** How a Python call ends: it returns, it raises, or it never ends (the
    model ran out of fuel). *)
Inductive outcome (A : Type) : Type :=
| Ret (a : A)
| Raise (e : exn)
| Diverge.
Arguments Ret {A} a.
Arguments Raise {A} e.
Arguments Diverge {A}.

Definition M (A : Type) : Type := list call -> list call * outcome A.

Definition ret {A} (a : A) : M A := fun log => (log, Ret a).
Definition raise {A} (e : exn) : M A := fun log => (log, Raise e).
Definition diverge {A} : M A := fun log => (log, Diverge).

Definition bind {A B} (m : M A) (k : A -> M B) : M B :=
  fun log =>
    match m log with
    | (log', Ret a) => k a log'
    | (log', Raise e) => (log', Raise e)
    | (log', Diverge) => (log', Diverge)
    end.

Notation "x <- m ;; k" := (bind m (fun x => k))
  (at level 100, m at next level, right associativity).
Notation "m ;;; k" := (bind m (fun _ => k))
  (at level 100, right associativity).

(** A computation without effects that may raise. *)
Definition lift {A} (r : exn + A) : M A :=
  match r with
  | inl e => raise e
  | inr a => ret a
  end.

(** A call to a collaborator: logged, then it returns or raises. *)
Definition called {A} (c : call) (r : exn + A) : M A :=
  fun log => lift r (log ++ [c]).

(** [try: m except: raise e] -- the bare [except:] catches every
    exception; a computation that never ends is not caught. *)
Definition try_except_raise {A} (m : M A) (e : exn) : M A :=
  fun log =>
    match m log with
    | (log', Raise _) => (log', Raise e)
    | r => r
    end.

(** [[f(x) for x in l]], and [for x in l: f(x)], left to right. *)
Fixpoint mapM {A B} (f : A -> M B) (l : list A) : M (list B) :=
  match l with
  | [] => ret []
  | x :: l' => y <- f x ;; ys <- mapM f l' ;; ret (y :: ys)
  end.

Definition is_search (c : call) : bool :=
  match c with
  | CallVectorSearch _ => true
  | _ => false
  end.

(** Number of search rounds a log records. *)
Definition search_rounds (log : list call) : nat :=
  List.length (List.filter is_search log).

(** ** The collaborators *)

Record World : Type := {
  (** data owned by the collaborators *)
  Indexes : Type;
  Vector : Type;
  Result : Type;
  Json : Type;
  (** [config.config] *)
  reranker_active : bool;
  index_selection_disabled : bool;
  allow_outgoing_extension_requests : bool;
  allow_incoming_extension_requests : bool;
  (** [SentBERTVectorizer().embed] *)
  vectorize_text : string -> exn + Vector;
  (** [IndexesDirectory(indexes_dir)]: [.get(id)] and [list(.available())] *)
  available_indexes_get : pyval -> exn + Indexes;
  available_indexes_available : exn + Indexes;
  (** [SublassesBasedIndexSelector(available_indexes).select] *)
  select_indexes : string -> Z -> exn + Indexes;
  (** [VectorIndexSearcher().search] *)
  vector_search : Vector -> Indexes -> Z -> exn + list Result;
  (** [SnippetExtractor.extract_snippet], [SnippetExtractor.map] *)
  extract_snippet : pyval -> Json -> exn + Json;
  generate_mapping : pyval -> Json -> exn + Json;
  (** [ConceptMatchRanker().rank] *)
  reranker_rank : pyval -> list Json -> exn + list Z;
  (** attributes and methods of a search result *)
  result_abstract : Result -> exn + Json;
  result_full_text : Result -> exn + Json;
  result_set_snippet : Result -> Json -> Result;
  result_set_mapping : Result -> Json -> Result;
  result_json : Result -> exn + Json;
  (** [SearchResult(r['id'], r['index'], r['score'])] *)
  SearchResult_of_json : Json -> exn + Result;
  (** [Combiner(query, abstracts).get_combinations(n)] *)
  get_combinations : pyval -> list Json -> Z -> exn + list (Z * Z);
  (** [remote.search_extensions], [remote.merge] *)
  remote_search_extensions : option (gmap string pyval) -> exn + list Json;
  remote_merge : list Json -> list Json -> exn + list Json;
  (** [utils.is_patent_number], [utils.remove_claim_number] *)
  is_patent_number : pyval -> exn + bool;
  remove_claim_number : pyval -> exn + pyval;
  (** [Patent(pn)] and its fields *)
  patent_first_claim : pyval -> exn + pyval;
  patent_filing_date : pyval -> exn + pyval;
  patent_id : pyval -> exn + pyval;
  patent_title : pyval -> exn + pyval;
  patent_abstract : pyval -> exn + pyval;
  (** [Document(id)], [.json()], [.full_text] *)
  Document : pyval -> exn + pyval;
  document_json : pyval -> exn + Json;
  document_full_text : pyval -> exn + Json;
  (** [PoC()[n]] and the keys ['anc'], ['pos'], ['negs'] of a sample *)
  poc_dataset : Z -> exn + Json;
  sample_anc : Json -> exn + pyval;
  sample_pos : Json -> exn + pyval;
  sample_negs : Json -> exn + list pyval;
  (** what the date and type filters read off a result *)
  result_publication_date : Result -> pyval;
  result_doctype : Result -> pyval;
  date_le : pyval -> pyval -> bool;
}.

(** ** Filters ([core.filters]) *)

Module Filters.

(** Modelled from the spec: the classes [PublicationDateFilter],
    [DocTypeFilter] and [FilterArray] of [core.filters] are not part of the
    sources at hand.  A filter is "a pure predicate over an ordered
    sequence of results, parameterized at construction". *)
Inductive Filter : Type :=
| PublicationDateFilter (after before : pyval)
| DocTypeFilter (doctype : pyval).

(** Modelled from the spec: [FilterArray], "an ordered sequence of
    independent predicates"; [add] appends. *)
Definition FilterArray : Type := list Filter.

Definition add (fs : FilterArray) (f : Filter) : FilterArray := fs ++ [f].

(** Modelled from the spec: "date-range (inclusive after/before bound;
    either bound may be absent meaning unbounded) and document-type (exact
    match against a provided type string)". *)
Definition passes (W : World) (f : Filter) (r : Result W) : bool :=
  match f with
  | PublicationDateFilter after before =>
      (match after with
       | PNone => true
       | _ => date_le W after (result_publication_date W r)
       end)
      && (match before with
          | PNone => true
          | _ => date_le W (result_publication_date W r) before
          end)
  | DocTypeFilter doctype => bool_decide (result_doctype W r = doctype)
  end.

(** Modelled from the spec: [FilterArray.apply], "a left-fold
    intersection"; "each filter only removes"; "empty pipeline is the
    identity". *)
Definition apply (W : World) (fs : FilterArray) (rs : list (Result W))
  : list (Result W) :=
  fold_left (fun acc f => List.filter (passes W f) acc) fs rs.

End Filters.

(** ** Request data: a [dict], or [None] when the caller passed none *)

Abbreviation dict := (gmap string pyval).

Definition newline : string := String "010" EmptyString.

(** [key in data] *)
Definition py_in (data : option dict) (key : string) : M bool :=
  match data with
  | None => raise TypeError
  | Some d => ret (bool_decide (is_Some (d !! key)))
  end.

(** [data.get(key, default)] *)
Definition py_get (data : option dict) (key : string) (dflt : pyval) : M pyval :=
  match data with
  | None => raise AttributeError
  | Some d => ret (default dflt (d !! key))
  end.

(** [data[key]] *)
Definition py_getitem (data : option dict) (key : string) : M pyval :=
  match data with
  | None => raise TypeError
  | Some d => match d !! key with
              | Some v => ret v
              | None => raise (KeyError key)
              end
  end.

(** [data.copy()] *)
Definition py_copy (data : option dict) : M dict :=
  match data with
  | None => raise AttributeError
  | Some d => ret d
  end.

(** ** [class APIRequest] *)

Module APIRequest.

(** [__init__]: keeps the data and validates it. *)
Definition __init__ (req_data : option dict) (_validation_fn : M unit)
  : M (option dict) :=
  _validation_fn ;;; ret req_data.

(** [serve]: serving, then formatting; whatever either raises is replaced
    by [ServerError()]. *)
Definition serve {A B} (_serving_fn : M A) (_formatting_fn : A -> M B) : M B :=
  try_except_raise
    (response <- _serving_fn ;; _formatting_fn response)
    (ServerError ServerError_default).

End APIRequest.

(** ** [class FilterExtractor] *)

Module FilterExtractor.
Import Filters.

Definition _get_date_filter (data : option dict) : M (option Filter) :=
  after <- py_get data "after" PNone ;;
  before <- py_get data "before" PNone ;;
  if truthy after || truthy before
  then
    let after := if negb (truthy after) then PNone else after in
    let before := if negb (truthy before) then PNone else before in
    ret (Some (PublicationDateFilter after before))
  else ret None.

Definition _get_doctype_filter (data : option dict) : M (option Filter) :=
  doctype <- py_get data "type" PNone ;;
  if truthy doctype then ret (Some (DocTypeFilter doctype)) else ret None.

(** [if date_filter:] and [if doctype_filter:] tell a filter object from
    [None]; a filter object counts as true. *)
Definition extract (data : option dict) : M FilterArray :=
  let filters : FilterArray := [] in
  date_filter <- _get_date_filter data ;;
  doctype_filter <- _get_doctype_filter data ;;
  let filters :=
    match date_filter with Some f => add filters f | None => filters end in
  let filters :=
    match doctype_filter with Some f => add filters f | None => filters end in
  ret filters.

End FilterExtractor.

(** ** [class SearchRequest] *)

Module SearchRequest.

Record t (W : World) : Type := Build {
  _data : option dict;
  _query : pyval;
  _latent_query : pyval;
  _n_results : Z;
  _full_query : string;
  _indexes : Indexes W;
  _need_snippets : bool;
  _need_mappings : bool;
  _filters : Filters.FilterArray;
  MAX_RES_LIMIT : Z;
}.
Arguments Build {W}.
Arguments _data {W}.
Arguments _query {W}.
Arguments _latent_query {W}.
Arguments _n_results {W}.
Arguments _full_query {W}.
Arguments _indexes {W}.
Arguments _need_snippets {W}.
Arguments _need_mappings {W}.
Arguments _filters {W}.
Arguments MAX_RES_LIMIT {W}.

Definition _validation_fn (data : option dict) : M unit :=
  has_q <- py_in data "q" ;;
  if negb has_q
  then raise (BadRequestError "Request does not contain a query.")
  else ret tt.

(** [(self._query + '\n' + self._latent_query).strip()]; [+] is defined
    between two [str] only. *)
Definition _get_full_query (_query _latent_query : pyval) : M string :=
  match _query, _latent_query with
  | PStr q, PStr lq => ret (strip (q +:+ newline +:+ lq))
  | _, _ => raise TypeError
  end.

Definition _index_specified_in_request (data : option dict) : M bool :=
  has_idx <- py_in data "idx" ;;
  if negb has_idx then ret false
  else
    idx <- py_getitem data "idx" ;;
    if bool_decide (idx = PStr "auto") then ret false else ret true.

Definition _get_indexes (W : World) (data : option dict) (_full_query : string)
  : M (Indexes W) :=
  specified <- _index_specified_in_request data ;;
  if specified then
    index_in_req <- py_getitem data "idx" ;;
    called (CallIndexGet index_in_req) (available_indexes_get W index_in_req)
  else if index_selection_disabled W then
    called CallIndexAvailable (available_indexes_available W)
  else
    called (CallSelectIndexes _full_query 3) (select_indexes W _full_query 3).

(** [isinstance(val, str) and val in ['true', '1', 'yes']], or
    [isinstance(val, int) and val != 0]; a [bool] is an [int]. *)
Definition _read_bool_value (data : option dict) (key : string) : M bool :=
  val <- py_get data key PNone ;;
  ret match val with
      | PStr s => String.eqb s "true" || String.eqb s "1" || String.eqb s "yes"
      | PInt z => negb (z =? 0)
      | PBool b => b
      | PNone => false
      end.

Definition __init__ (W : World) (req_data : option dict) : M (t W) :=
  data <- APIRequest.__init__ req_data (_validation_fn req_data) ;;
  query <- py_get req_data "q" (PStr "") ;;
  latent_query <- py_get req_data "lq" (PStr "") ;;
  n <- py_get req_data "n" (PInt 10) ;;
  n_results <- lift (int n) ;;
  full_query <- _get_full_query query latent_query ;;
  indexes <- _get_indexes W data full_query ;;
  need_snippets <- _read_bool_value data "snip" ;;
  need_mappings <- _read_bool_value data "maps" ;;
  filters <- FilterExtractor.extract data ;;
  ret (Build data query latent_query n_results full_query indexes
         need_snippets need_mappings filters 500).

(** [result.snippet = extract_snippet(self._query, result.full_text)] *)
Definition _add_snippet_if_needed {W} (self : t W) (result : Result W)
  : M (Result W) :=
  if _need_snippets self then
    text <- called CallResult (result_full_text W result) ;;
    snippet <- called CallSnippet (extract_snippet W (_query self) text) ;;
    ret (result_set_snippet W result snippet)
  else ret result.

End SearchRequest.

(** The response of the search requests: a [dict] with three keys. *)
Record Response (R : Type) : Type := {
  results : R;
  query : pyval;
  latent_query : pyval;
}.
Arguments results {R}.
Arguments query {R}.
Arguments latent_query {R}.

(** [l[i]], raising [IndexError] out of range. *)
Definition py_index {A} (l : list A) (i : Z) : M A :=
  match Py.index l i with
  | Some x => ret x
  | None => raise IndexError
  end.

(** ** [class SearchRequest102] *)

Module SearchRequest102.
Import SearchRequest.

Definition __init__ (W : World) (req_data : option dict) : M (t W) :=
  SearchRequest.__init__ W req_data.

(** The [while] loop of [_get_results]; [fuel] bounds the number of
    rounds the model may run, and the loop test comes before it. *)
Fixpoint _get_results_loop {W} (fuel : nat) (self : t W) (qvec : Vector W)
    (n m : Z) (results : list (Result W)) : M (list (Result W)) :=
  if (Z.of_nat (List.length results) <? n) && (m <? MAX_RES_LIMIT self) then
    match fuel with
    | O => diverge
    | S fuel' =>
        results <- called (CallVectorSearch m)
                     (vector_search W qvec (_indexes self) m) ;;
        let results := Filters.apply W (_filters self) results in
        let m := m * 2 in
        _get_results_loop fuel' self qvec n m results
    end
  else ret results.

Definition _get_results {W} (fuel : nat) (self : t W) : M (list (Result W)) :=
  qvec <- called (CallVectorize (_full_query self))
            (vectorize_text W (_full_query self)) ;;
  let n := _n_results self in
  let results := [] in
  let m := n in
  _get_results_loop fuel self qvec n m results.

Definition _rerank {W} (self : t W) (results : list (Result W))
  : M (list (Result W)) :=
  if negb (reranker_active W) then ret results
  else
    result_texts <-
      mapM (fun r => called CallResult (result_abstract W r)) results ;;
    ranks <- called CallRerank (reranker_rank W (_query self) result_texts) ;;
    mapM (fun i => py_index results i) ranks.

Definition _searching_fn {W} (fuel : nat) (self : t W) : M (list (Result W)) :=
  results <- _get_results fuel self ;;
  results <- _rerank self results ;;
  ret (slice_to results (_n_results self)).

Definition _serving_fn {W} (fuel : nat) (self : t W) : M (list (Result W)) :=
  _searching_fn fuel self.

Definition _add_remote_results_to {W} (self : t W) (local_results : list (Json W))
  : M (list (Json W)) :=
  if negb (allow_outgoing_extension_requests W) then ret local_results
  else
    remote_results <-
      called CallRemote (remote_search_extensions W (_data self)) ;;
    called CallRemote (remote_merge W local_results remote_results).

Definition _add_mapping_if_needed {W} (self : t W) (result : Result W)
  : M (Result W) :=
  if _need_mappings self then
    text <- called CallResult (result_full_text W result) ;;
    mapping <- called CallMapping (generate_mapping W (_query self) text) ;;
    ret (result_set_mapping W result mapping)
  else ret result.

Definition _formatting_fn {W} (self : t W) (results : list (Result W))
  : M (Response (list (Json W))) :=
  results <- mapM (fun result =>
                     result <- _add_snippet_if_needed self result ;;
                     _add_mapping_if_needed self result) results ;;
  results <- mapM (fun res => called CallResult (result_json W res)) results ;;
  results <- _add_remote_results_to self results ;;
  ret {| results := results;
         query := _query self;
         latent_query := _latent_query self |}.

Definition serve {W} (fuel : nat) (self : t W) : M (Response (list (Json W))) :=
  APIRequest.serve (_serving_fn fuel self) (_formatting_fn self).

End SearchRequest102.

(** ** [class SearchRequest103] *)

Module SearchRequest103.
Import SearchRequest.

Definition __init__ (W : World) (req_data : option dict) : M (t W) :=
  SearchRequest.__init__ W req_data.

Definition _get_interim_request_params {W} (self : t W) : M dict :=
  params <- py_copy (_data self) ;;
  let params := <["n" := PInt 100]> params in
  let params := <["maps" := PInt 0]> params in
  let params := <["snip" := PInt 0]> params in
  ret params.

Definition _get_docs_to_combine {W} (fuel : nat) (self : t W)
  : M (list (Result W)) :=
  params <- _get_interim_request_params self ;;
  interim_req <- SearchRequest102.__init__ W (Some params) ;;
  response <- SearchRequest102.serve fuel interim_req ;;
  mapM (fun r => called CallResult (SearchResult_of_json W r))
    (results response).

Definition _searching_fn {W} (fuel : nat) (self : t W)
  : M (list (Result W * Result W)) :=
  docs <- _get_docs_to_combine fuel self ;;
  abstracts <- mapM (fun doc => called CallResult (result_abstract W doc)) docs ;;
  index_pairs <- called (CallCombiner (_n_results self))
                   (get_combinations W (_query self) abstracts (_n_results self)) ;;
  mapM (fun ij => di <- py_index docs (fst ij) ;;
                  dj <- py_index docs (snd ij) ;;
                  ret (di, dj)) index_pairs.

Definition _serving_fn {W} (fuel : nat) (self : t W)
  : M (list (Result W * Result W)) :=
  _searching_fn fuel self.

Definition _add_mapping_if_needed {W} (self : t W) (result : Result W)
  : M (Result W) :=
  if negb (_need_mappings self) then ret result
  else
    text <- called CallResult (result_full_text W result) ;;
    mapping <- called CallMapping (generate_mapping W (_query self) text) ;;
    ret (result_set_mapping W result mapping).

Definition _formatting_fn {W} (self : t W)
    (combinations : list (Result W * Result W))
  : M (Response (list (list (Json W)))) :=
  combinations <-
    mapM (fun combination =>
            a <- _add_snippet_if_needed self (fst combination) ;;
            b <- _add_snippet_if_needed self (snd combination) ;;
            a <- _add_mapping_if_needed self a ;;
            b <- _add_mapping_if_needed self b ;;
            ret (a, b)) combinations ;;
  results <-
    mapM (fun c =>
            a <- called CallResult (result_json W (fst c)) ;;
            b <- called CallResult (result_json W (snd c)) ;;
            ret [a; b]) combinations ;;
  ret {| results := results;
         query := _query self;
         latent_query := _latent_query self |}.

Definition serve {W} (fuel : nat) (self : t W)
  : M (Response (list (list (Json W)))) :=
  APIRequest.serve (_serving_fn fuel self) (_formatting_fn self).

End SearchRequest103.

(** ** [class SimilarPatentsRequest] *)

Module SimilarPatentsRequest.

Record t : Type := Build {
  _data : option dict;
  _pn : pyval;
}.

Definition _validation_fn (W : World) (data : option dict) : M unit :=
  pn <- py_get data "pn" PNone ;;
  ok <- called CallUtils (is_patent_number W pn) ;;
  if negb ok
  then raise (BadRequestError "Request does not contain a valid patent number.")
  else ret tt.

Definition __init__ (W : World) (req_data : option dict) : M t :=
  data <- APIRequest.__init__ req_data (_validation_fn W req_data) ;;
  pn <- py_get req_data "pn" PNone ;;
  ret (Build data pn).

Definition _create_text_query_request (W : World) (self : t) : M dict :=
  claim <- called (CallPatent (_pn self)) (patent_first_claim W (_pn self)) ;;
  query <- called CallUtils (remove_claim_number W claim) ;;
  search_request <- py_copy (_data self) ;;
  let search_request := <["q" := query]> search_request in
  match search_request !! "pn" with
  | None => raise (KeyError "pn")
  | Some _ => ret (delete "pn" search_request)
  end.

Definition _serving_fn (W : World) (fuel : nat) (self : t)
  : M (Response (list (Json W))) :=
  search_request <- _create_text_query_request W self ;;
  req <- SearchRequest102.__init__ W (Some search_request) ;;
  SearchRequest102.serve fuel req.

Definition _formatting_fn {R} (self : t) (response : Response R)
  : M (Response R) :=
  ret {| results := results response;
         query := _pn self;
         latent_query := latent_query response |}.

Definition serve (W : World) (fuel : nat) (self : t)
  : M (Response (list (Json W))) :=
  APIRequest.serve (_serving_fn W fuel self) (_formatting_fn self).

End SimilarPatentsRequest.

(** ** [class PatentPriorArtRequest] *)

Module PatentPriorArtRequest.
Import SimilarPatentsRequest.

Record t : Type := Build {
  base : SimilarPatentsRequest.t;
  _before : pyval;
}.

Definition __init__ (W : World) (req_data : option dict) : M t :=
  self <- SimilarPatentsRequest.__init__ W req_data ;;
  before <- called (CallPatent (_pn self)) (patent_filing_date W (_pn self)) ;;
  ret (Build self before).

(** The parameters [_serving_fn] hands to [SearchRequest102]. *)
Definition _search_request (W : World) (self : t) : M dict :=
  search_request <- _create_text_query_request W (base self) ;;
  ret (<["before" := _before self]> search_request).

Definition _serving_fn (W : World) (fuel : nat) (self : t)
  : M (Response (list (Json W))) :=
  search_request <- _search_request W self ;;
  req <- SearchRequest102.__init__ W (Some search_request) ;;
  SearchRequest102.serve fuel req.

Definition serve (W : World) (fuel : nat) (self : t)
  : M (Response (list (Json W))) :=
  APIRequest.serve (_serving_fn W fuel self) (_formatting_fn (base self)).

End PatentPriorArtRequest.

(** ** [class DocumentRequest] *)

Module DocumentRequest.

Record t : Type := Build {
  _data : option dict;
  _doc_id : pyval;
}.

Definition _validation_fn (data : option dict) : M unit :=
  has_id <- py_in data "id" ;;
  if negb has_id
  then raise (BadRequestError "Request does not contain a document ID.")
  else ret tt.

Definition __init__ (req_data : option dict) : M t :=
  data <- APIRequest.__init__ req_data (_validation_fn req_data) ;;
  doc_id <- py_getitem req_data "id" ;;
  ret (Build data doc_id).

Definition _serving_fn (W : World) (self : t) : M (Json W) :=
  called (CallDocument (_doc_id self)) (Document W (_doc_id self)) ;;;
  called (CallDocument (_doc_id self)) (document_json W (_doc_id self)).

Definition serve (W : World) (self : t) : M (Json W) :=
  APIRequest.serve (_serving_fn W self) ret.

End DocumentRequest.

(** ** [class PassageRequest], [SnippetRequest], [MappingRequest] *)

Module PassageRequest.

Record t : Type := Build {
  _data : option dict;
  _query : pyval;
  _doc_id : pyval;
}.

Definition _validation_fn (data : option dict) : M unit :=
  q <- py_get data "q" PNone ;;
  if negb (truthy q)
  then raise (BadRequestError "Request does not contain a query.")
  else
    pn <- py_get data "pn" PNone ;;
    if negb (truthy pn)
    then raise (BadRequestError "Request does not specify a document.")
    else ret tt.

Definition __init__ (W : World) (req_data : option dict) : M t :=
  data <- APIRequest.__init__ req_data (_validation_fn req_data) ;;
  query <- py_get req_data "q" PNone ;;
  doc_id <- py_get req_data "pn" PNone ;;
  called (CallDocument doc_id) (Document W doc_id) ;;;
  ret (Build data query doc_id).

(** The passage a request answers with: its query, its document and the
    snippet or mapping. *)
Record Passage (J : Type) : Type := {
  passage_query : pyval;
  passage_id : pyval;
  passage : J;
}.

Definition _formatting_fn {J} (self : t) (x : J) : M (Passage J) :=
  ret {| passage_query := _query self; passage_id := _doc_id self;
         passage := x |}.

End PassageRequest.

Module SnippetRequest.
Import PassageRequest.

Definition __init__ := PassageRequest.__init__.

Definition _serving_fn (W : World) (self : t) : M (Json W) :=
  text <- called (CallDocument (_doc_id self))
            (document_full_text W (_doc_id self)) ;;
  called CallSnippet (extract_snippet W (_query self) text).

Definition serve (W : World) (self : t) : M (Passage (Json W)) :=
  APIRequest.serve (_serving_fn W self) (_formatting_fn self).

End SnippetRequest.

Module MappingRequest.
Import PassageRequest.

Definition __init__ := PassageRequest.__init__.

Definition _serving_fn (W : World) (self : t) : M (Json W) :=
  text <- called (CallDocument (_doc_id self))
            (document_full_text W (_doc_id self)) ;;
  called CallMapping (generate_mapping W (_query self) text).

Definition serve (W : World) (self : t) : M (Passage (Json W)) :=
  APIRequest.serve (_serving_fn W self) (_formatting_fn self).

End MappingRequest.

(** ** [class DatasetSampleRequest] *)

Module DatasetSampleRequest.

Definition _validation_fn (data : option dict) : M unit :=
  has_dataset <- py_in data "dataset" ;;
  if negb has_dataset
  then raise (BadRequestError "Request does not specify a dataset name.")
  else
    has_n <- py_in data "n" ;;
    if negb has_n
    then raise (BadRequestError "Request does not specify the sample number.")
    else ret tt.

Definition __init__ (req_data : option dict) : M (option dict) :=
  APIRequest.__init__ req_data (_validation_fn req_data).

(** [name.lower() == 'poc'] needs a [str]; so does the f-string's reading
    here, where [name] is shown as it is. *)
Definition _serving_fn (W : World) (self : option dict) : M (Json W) :=
  name <- py_getitem self "dataset" ;;
  match name with
  | PStr name =>
      if String.eqb (lower name) "poc" then
        n <- py_getitem self "n" ;;
        i <- lift (int n) ;;
        called (CallDataset i) (poc_dataset W i)
      else raise (BadRequestError ("No dataset named " +:+ name +:+ "."))
  | _ => raise AttributeError
  end.

Record PatentSummary : Type := {
  publicationNumber : pyval;
  title : pyval;
  abstract : pyval;
}.

Record Sample : Type := {
  anc : PatentSummary;
  pos : PatentSummary;
  negs : list PatentSummary;
}.

Definition _format (W : World) (pn : pyval) : M PatentSummary :=
  i <- called (CallPatent pn) (patent_id W pn) ;;
  t <- called (CallPatent pn) (patent_title W pn) ;;
  a <- called (CallPatent pn) (patent_abstract W pn) ;;
  ret {| publicationNumber := i; title := t; abstract := a |}.

Definition _formatting_fn (W : World) (sample : Json W) : M Sample :=
  a <- called CallResult (sample_anc W sample) ;;
  a <- _format W a ;;
  p <- called CallResult (sample_pos W sample) ;;
  p <- _format W p ;;
  ns <- called CallResult (sample_negs W sample) ;;
  ns <- mapM (_format W) ns ;;
  ret {| anc := a; pos := p; negs := ns |}.

Definition serve (W : World) (self : option dict) : M Sample :=
  APIRequest.serve (_serving_fn W self) (_formatting_fn W).

End DatasetSampleRequest.

(** ** [class IncomingExtensionRequest] *)

Module IncomingExtensionRequest.

Definition __init__ (W : World) (req_data : option dict)
  : M (SearchRequest.t W) :=
  if negb (allow_incoming_extension_requests W)
  then raise (NotAllowedError "Server does not accept extension requests.")
  else SearchRequest102.__init__ W req_data.

Definition serve {W} := @SearchRequest102.serve W.

End IncomingExtensionRequest.

(** ** Derived definitions *)

(** A computation is [quiet] when it leaves the number of recorded search
    rounds as it found it. *)
Definition quiet {A} (m : M A) : Prop :=
  forall log, search_rounds (fst (m log)) = search_rounds log.

Section Derived.
Import Filters SearchRequest.
Implicit Types (d : dict).

(** What [_read_bool_value] and [FilterExtractor] compute on a [dict];
    neither raises nor calls out. *)
Definition flag_of d (key : string) : bool :=
  match default PNone (d !! key) with
  | PStr s => String.eqb s "true" || String.eqb s "1" || String.eqb s "yes"
  | PInt z => negb (z =? 0)
  | PBool b => b
  | PNone => false
  end.

Definition date_filter_of d : option Filter :=
  let after := default PNone (d !! "after") in
  let before := default PNone (d !! "before") in
  if truthy after || truthy before
  then Some (PublicationDateFilter (if truthy after then after else PNone)
               (if truthy before then before else PNone))
  else None.

Definition doctype_filter_of d : option Filter :=
  let doctype := default PNone (d !! "type") in
  if truthy doctype then Some (DocTypeFilter doctype) else None.

Definition filters_of d : FilterArray :=
  match date_filter_of d with Some f => [f] | None => [] end
  ++ match doctype_filter_of d with Some f => [f] | None => [] end.

(** The request [__init__] builds once the parameters are read. *)
Definition built (W : World) d (q lq : string) (n : Z) (ix : Indexes W)
  : t W :=
  Build (Some d) (PStr q) (PStr lq) n (strip (q +:+ newline +:+ lq)) ix
    (flag_of d "snip") (flag_of d "maps") (filters_of d) 500.

End Derived.

(** A string made of whitespace only (the empty string is one). *)
Fixpoint all_space (s : string) : bool :=
  match s with
  | EmptyString => true
  | String c s' => is_space c && all_space s'
  end.

(** ** A small world to run requests in *)

(** Results are document numbers; even ones were published in 2010, odd
    ones in 2020; the vector search answers with the first [m] of them.
    Dates are ISO strings, compared as strings. *)
Definition demo_world (incoming : bool) : World := {|
  Indexes := list string;
  Vector := string;
  Result := Z;
  Json := Z;
  reranker_active := false;
  index_selection_disabled := false;
  allow_outgoing_extension_requests := false;
  allow_incoming_extension_requests := incoming;
  vectorize_text := fun text => inr text;
  available_indexes_get := fun idx =>
    match idx with
    | PStr s => inr [s]
    | _ => inl (ExternalError "IndexNotFound")
    end;
  available_indexes_available := inr ["A01B"; "B60T"; "G06F"; "H04L"];
  select_indexes := fun _ k => inr (take (Z.to_nat k) ["A01B"; "B60T"; "G06F"; "H04L"]);
  vector_search := fun _ _ m => inr (Z.of_nat <$> seq 0 (Z.to_nat m));
  extract_snippet := fun _ text => inr text;
  generate_mapping := fun _ text => inr text;
  reranker_rank := fun _ texts => inr (Z.of_nat <$> seq 0 (List.length texts));
  result_abstract := fun r => inr r;
  result_full_text := fun r => inr r;
  result_set_snippet := fun r _ => r;
  result_set_mapping := fun r _ => r;
  result_json := fun r => inr r;
  SearchResult_of_json := fun j => inr j;
  get_combinations := fun _ _ _ => inr [];
  remote_search_extensions := fun _ => inr [];
  remote_merge := fun a b => inr (a ++ b);
  is_patent_number := fun pn => inr (truthy pn);
  remove_claim_number := fun claim => inr claim;
  patent_first_claim := fun _ => inr (PStr "A braking system.");
  patent_filing_date := fun _ => inr (PStr "2015-06-01");
  patent_id := fun pn => inr pn;
  patent_title := fun _ => inr (PStr "Braking system");
  patent_abstract := fun _ => inr (PStr "A braking system.");
  Document := fun id => inr id;
  document_json := fun _ => inr 0;
  document_full_text := fun _ => inr 0;
  poc_dataset := fun _ => inr 0;
  sample_anc := fun _ => inr (PStr "US1");
  sample_pos := fun _ => inr (PStr "US2");
  sample_negs := fun _ => inr [];
  result_publication_date := fun r =>
    if Z.even r then PStr "2010-01-01" else PStr "2020-01-01";
  result_doctype := fun _ => PStr "patent";
  date_le := fun a b =>
    match a, b with
    | PStr x, PStr y => String.leb x y
    | _, _ => false
    end;
|}.

(** The request [SearchRequest102({'q': 'brake', 'n': n})] in that world. *)
Definition demo_data (n : pyval) : dict :=
  <["q" := PStr "brake"]> (<["n" := n]> ∅).

Definition demo_request (n : Z) : SearchRequest.t (demo_world true) :=
  built (demo_world true) (demo_data (PInt n)) "brake" "" n
    ["A01B"; "B60T"; "G06F"].

(** The combination search [SearchRequest103({'q': 'brake', 'n': 7,
    'snip': 1, 'maps': 'yes'})] in that world. *)
Definition demo_combination_data : dict :=
  <["q" := PStr "brake"]>
    (<["n" := PInt 7]> (<["snip" := PInt 1]> (<["maps" := PStr "yes"]> ∅))).

Definition demo_combination_request : SearchRequest.t (demo_world true) :=
  built (demo_world true) demo_combination_data "brake" "" 7
    ["A01B"; "B60T"; "G06F"].

(** The request [DatasetSampleRequest({'dataset': 'imagenet', 'n': '0'})]. *)
Definition demo_dataset_data : dict :=
  <["dataset" := PStr "imagenet"]> (<["n" := PStr "0"]> ∅).

(** The request [PatentPriorArtRequest({'pn': 'US1234567B2', 'before':
    '2030-01-01'})] in that world, and the parameters it searches with. *)
Definition demo_prior_art_data : dict :=
  <["pn" := PStr "US1234567B2"]> (<["before" := PStr "2030-01-01"]> ∅).

Definition demo_prior_art_request : PatentPriorArtRequest.t :=
  PatentPriorArtRequest.Build
    (SimilarPatentsRequest.Build (Some demo_prior_art_data)
       (PStr "US1234567B2"))
    (PStr "2015-06-01").

Definition demo_prior_art_search : dict :=
  <["before" := PStr "2015-06-01"]>
    (delete "pn" (<["q" := PStr "A braking system."]> demo_prior_art_data)).

(** ** Reading the log further *)

(** A computation [ends] when it returns or raises from every log. *)
Definition ends {A} (m : M A) : Prop :=
  forall log, snd (m log) <> Diverge.

(** A computation is [silent] about the calls [P] picks when it records
    none of them. *)
Definition silent {A} (P : call -> bool) (m : M A) : Prop :=
  forall log, List.filter P (fst (m log)) = List.filter P log.

(** The sizes asked of the vector search, in the order of the calls. *)
Fixpoint searches (log : list call) : list Z :=
  match log with
  | [] => []
  | CallVectorSearch m :: log' => m :: searches log'
  | _ :: log' => searches log'
  end.

(** [m], [2 m], [4 m], ...: [k] terms. *)
Fixpoint doubling (m : Z) (k : nat) : list Z :=
  match k with
  | O => []
  | S k' => m :: doubling (m * 2) k'
  end.

Definition is_enrichment (c : call) : bool :=
  match c with
  | CallSnippet | CallMapping => true
  | _ => false
  end.

Definition is_remote (c : call) : bool :=
  match c with
  | CallRemote => true
  | _ => false
  end.

Definition is_patent_call (c : call) : bool :=
  match c with
  | CallPatent _ => true
  | _ => false
  end.

(** The search [{'q': 'brake', 'n': 1, 'type': 'paper'}]: the demo world
    holds patents only, so the type filter lets nothing through. *)
Definition demo_paper_request : SearchRequest.t (demo_world true) :=
  built (demo_world true)
    (<["type" := PStr "paper"]> (demo_data (PInt 1))) "brake" "" 1
    ["A01B"; "B60T"; "G06F"].

(** A computation [answers] when from every log it returns, or raises
    the [ServerError()] of [serve]. *)
Definition answers {A} (m : M A) : Prop :=
  forall log,
    (exists a, snd (m log) = Ret a)
    \/ snd (m log) = Raise (ServerError "Server error while handling request.").

(** The spellings of the dataset name [DatasetSampleRequest] serves. *)
Definition poc_spellings : list string :=
  ["poc"; "poC"; "pOc"; "pOC"; "Poc"; "PoC"; "POc"; "POC"].

(** The request [SimilarPatentsRequest({'pn': 'US1234567B2', 'before':
    '2030-01-01'})] and the parameters it searches with. *)
Definition demo_similar_request : SimilarPatentsRequest.t :=
  SimilarPatentsRequest.Build (Some demo_prior_art_data) (PStr "US1234567B2").

Definition demo_similar_search : dict :=
  delete "pn" (<["q" := PStr "A braking system."]> demo_prior_art_data).

(** ** The mini-apps plugin ([plugins/miniapps/api.py]) *)

(** [collections.Counter] on strings, as the plugin uses it.  A counter
    keeps its keys in the order they were first seen (a [dict], in the
    interpreters that keep insertion order). *)
Module Collections.

Fixpoint count_add (x : string) (c : list (string * nat)) : list (string * nat) :=
  match c with
  | [] => [(x, 1%nat)]
  | (y, k) :: c' =>
      if String.eqb x y then (y, S k) :: c' else (y, k) :: count_add x c'
  end.

(** [Counter(l)] *)
Definition Counter (l : list string) : list (string * nat) :=
  fold_left (fun c x => count_add x c) l [].

(** One step of the stable sort by decreasing count: the new item goes
    behind every item counted at least as often. *)
Fixpoint insert_desc (p : string * nat) (s : list (string * nat))
  : list (string * nat) :=
  match s with
  | [] => [p]
  | q :: s' =>
      if (snd q <? snd p)%nat then p :: q :: s' else q :: insert_desc p s'
  end.

Definition sort_desc (c : list (string * nat)) : list (string * nat) :=
  fold_left (fun s p => insert_desc p s) c [].

(** [c.most_common(n)] for [n >= 0]: the [n] most counted, ties in the
    order first seen. *)
Definition most_common (n : nat) (c : list (string * nat)) : list (string * nat) :=
  take n (sort_desc c).

End Collections.

(** [s.endswith(suffix)] *)
Definition endswith (s suffix : string) : bool :=
  let n := String.length s in
  let k := String.length suffix in
  (k <=? n)%nat && String.eqb (substring (n - k) k s) suffix.

Module Miniapps.
Import Collections.

(** What the plugin asks of its own collaborators, in a world [W]. *)
Record Plugins (W : World) : Type := {
  (** [res['id']] of a served result *)
  result_id : Json W -> exn + pyval;
  (** [Patent(id).cpcs], [Patent(id).art_unit] *)
  patent_cpcs : pyval -> exn + list string;
  patent_art_unit : pyval -> exn + option string;
  (** [CPCDefinitionRetriever().define(code, segmented)] *)
  cpc_define : string -> bool -> exn + Json W;
  (** [default_boe_encoder.encode(text)] *)
  boe_encode : pyval -> exn + list (Json W);
}.
Arguments result_id {W}.
Arguments patent_cpcs {W}.
Arguments patent_art_unit {W}.
Arguments cpc_define {W}.
Arguments boe_encode {W}.

(** *** [class TextBasedRequest] *)

Module TextBasedRequest.

Record t : Type := Build {
  _data : option dict;
  _text : pyval;
}.

(** [isinstance(text, str)], then [not text.strip()]; both tests read
    [self._data.get('text')]. *)
Definition _validation_fn (data : option dict) : M unit :=
  text <- py_get data "text" PNone ;;
  match text with
  | PStr _ =>
      text <- py_get data "text" PNone ;;
      match text with
      | PStr s =>
          if String.eqb (strip s) ""
          then raise (BadRequestError "Invalid request")
          else ret tt
      | _ => raise AttributeError
      end
  | _ => raise (BadRequestError "Invalid request")
  end.

Definition __init__ (req_data : option dict) : M t :=
  data <- APIRequest.__init__ req_data (_validation_fn req_data) ;;
  text <- py_getitem req_data "text" ;;
  ret (Build data text).

(** [_similar_patents] of [SuggestCPCs] and of [PredictGAUs]: the same
    code in both. *)
Definition _similar_patents {W} (P : Plugins W) (fuel : nat) (self : t)
  : M (list pyval) :=
  let search_req : dict := <["q" := _text self]> ∅ in
  let search_req := <["after" := PStr "2015-12-31"]> search_req in
  let search_req := <["type" := PStr "patent"]> search_req in
  let search_req := <["n" := PInt 25]> search_req in
  req <- SearchRequest102.__init__ W (Some search_req) ;;
  response <- SearchRequest102.serve fuel req ;;
  mapM (fun res => called CallResult (result_id P res)) (results response).

End TextBasedRequest.

(** *** [class DefineCPC] *)

Module DefineCPC.

Definition is_digit (c : ascii) : bool := (48 <=? code c) && (code c <=? 57).

Definition is_section (c : ascii) : bool :=
  ((65 <=? code c) && (code c <=? 72)) || (code c =? 89).

Definition is_upper (c : ascii) : bool := (65 <=? code c) && (code c <=? 90).

Fixpoint skip_digits (s : string) : string :=
  match s with
  | String c s' => if is_digit c then skip_digits s' else s
  | EmptyString => EmptyString
  end.

(** [re.match(r'[ABCDEFGHY]\d\d[A-Z]\d+\/\d+', s)]: the pattern has to
    match at the start of [s], not all of it. *)
Definition cpc_match (s : string) : bool :=
  match s with
  | String a (String b (String c (String d (String e rest)))) =>
      is_section a && is_digit b && is_digit c && is_upper d && is_digit e
      && match skip_digits rest with
         | String slash (String f _) => Ascii.eqb slash "/" && is_digit f
         | _ => false
         end
  | _ => false
  end.

Record t : Type := Build {
  _data : option dict;
  _cpc_code : string;
  _short : bool;
}.

Definition _validation_fn (data : option dict) : M unit :=
  cpc <- py_get data "cpc" PNone ;;
  match cpc with
  | PStr _ =>
      cpc <- py_get data "cpc" PNone ;;
      match cpc with
      | PStr s =>
          if negb (cpc_match (strip s))
          then raise (BadRequestError "Invalid CPC code")
          else ret tt
      | _ => raise AttributeError
      end
  | _ => raise (BadRequestError "Invalid request")
  end.

Definition __init__ (req_data : option dict) : M t :=
  data <- APIRequest.__init__ req_data (_validation_fn req_data) ;;
  cpc <- py_getitem req_data "cpc" ;;
  match cpc with
  | PStr s =>
      short <- py_get req_data "short" (PInt 0) ;;
      short <- lift (int short) ;;
      ret (Build data (strip s) (negb (short =? 0)))
  | _ => raise AttributeError
  end.

Definition _serving_fn {W} (P : Plugins W) (self : t) : M (Json W) :=
  let segmented := negb (_short self) in
  called CallUtils (cpc_define P (_cpc_code self) segmented).

Definition serve {W} (P : Plugins W) (self : t) : M (Json W) :=
  APIRequest.serve (_serving_fn P self) ret.

End DefineCPC.

(** *** [class SuggestCPCs] *)

Module SuggestCPCs.
Import TextBasedRequest.

Definition __init__ := TextBasedRequest.__init__.

Definition _serving_fn {W} (P : Plugins W) (fuel : nat) (self : t)
  : M (list (string * Json W)) :=
  patents <- _similar_patents P fuel self ;;
  cpcs <- mapM (fun patent => called (CallPatent patent) (patent_cpcs P patent))
            patents ;;
  let cpcs := List.concat cpcs in
  let distribution := most_common 10 (Counter cpcs) in
  mapM (fun cf =>
          req <- DefineCPC.__init__ (Some (<["cpc" := PStr (fst cf)]> ∅)) ;;
          definition <- DefineCPC.serve P req ;;
          ret (fst cf, definition)) distribution.

Definition serve {W} (P : Plugins W) (fuel : nat) (self : t)
  : M (list (string * Json W)) :=
  APIRequest.serve (_serving_fn P fuel self) ret.

End SuggestCPCs.

(** *** [class PredictGAUs] *)

Module PredictGAUs.
Import TextBasedRequest.

Definition __init__ := TextBasedRequest.__init__.

(** [p.id.endswith(('B1', 'B2', 'A'))]; the list it filters is not used,
    but the test is run on every patent. *)
Definition _kind_test (W : World) (p : pyval) : M bool :=
  id <- called (CallPatent p) (patent_id W p) ;;
  match id with
  | PStr s => ret (endswith s "B1" || endswith s "B2" || endswith s "A")
  | _ => raise AttributeError
  end.

Definition _serving_fn {W} (P : Plugins W) (fuel : nat) (self : t)
  : M (list string) :=
  patents <- _similar_patents P fuel self ;;
  pns <- mapM (_kind_test W) patents ;;
  gaus <- mapM (fun p =>
                  unit_ <- called (CallPatent p) (patent_art_unit P p) ;;
                  match unit_ with
                  | None => ret None
                  | Some _ => called (CallPatent p) (patent_art_unit P p)
                  end) patents ;;
  let gaus := omap id gaus in
  let distribution := most_common 3 (Counter gaus) in
  ret (List.map fst distribution).

Definition serve {W} (P : Plugins W) (fuel : nat) (self : t) : M (list string) :=
  APIRequest.serve (_serving_fn P fuel self) ret.

End PredictGAUs.

(** *** [class ExtractConcepts] *)

Module ExtractConcepts.
Import TextBasedRequest.

Definition __init__ := TextBasedRequest.__init__.

Definition _serving_fn {W} (P : Plugins W) (self : t) : M (list (Json W)) :=
  called CallUtils (boe_encode P (_text self)).

Definition serve {W} (P : Plugins W) (self : t) : M (list (Json W)) :=
  APIRequest.serve (_serving_fn P self) ret.

End ExtractConcepts.

End Miniapps.

(** The plugin's collaborators in the demo world: the results published
    in 2020 are applications with the classes [B60T8/17] and [G06F3/01]
    and the art unit 3661; the others are grants with one class and no
    art unit on record. *)
Definition demo_plugins : Miniapps.Plugins (demo_world true) :=
  Miniapps.Build_Plugins (demo_world true)
    (fun res : Z =>
       inr (PStr (if Z.even res then "US7654321B2" else "US20200012345A1")))
    (fun p =>
       match p with
       | PStr "US20200012345A1" => inr ["B60T8/17"; "G06F3/01"]
       | _ => inr ["B60T8/17"]
       end)
    (fun p =>
       match p with
       | PStr "US20200012345A1" => inr (Some "3661")
       | _ => inr None
       end)
    (fun code segmented => inr ((if segmented then 1 else 0) : Z))
    (fun _ => inr ([] : list Z)).

Definition demo_text_request : Miniapps.TextBasedRequest.t :=
  Miniapps.TextBasedRequest.Build (Some (<["text" := PStr " brake "]> ∅))
    (PStr " brake ").

(** How often [x] occurs in [l], and the count a counter holds for [x]. *)
Definition occurrences (x : string) (l : list string) : nat :=
  List.length (List.filter (String.eqb x) l).

Fixpoint count_of (c : list (string * nat)) (x : string) : nat :=
  match c with
  | [] => O
  | (y, k) :: c' => if String.eqb x y then k else count_of c' x
  end.

(** Counted at least as often. *)
Definition at_least_as_common (p q : string * nat) : Prop :=
  (snd q <= snd p)%nat.

(** ** The call that resolves the index scope *)

(** The one collaborator call of [_get_indexes] on a [dict], and what the
    collaborator answers. *)
Definition index_call (W : World) (d : dict) (full_query : string) : call :=
  match d !! "idx" with
  | Some idx =>
      if bool_decide (idx = PStr "auto")
      then (if index_selection_disabled W
            then CallIndexAvailable
            else CallSelectIndexes full_query 3)
      else CallIndexGet idx
  | None =>
      if index_selection_disabled W
      then CallIndexAvailable
      else CallSelectIndexes full_query 3
  end.

Definition index_answer (W : World) (d : dict) (full_query : string)
  : exn + Indexes W :=
  match d !! "idx" with
  | Some idx =>
      if bool_decide (idx = PStr "auto")
      then (if index_selection_disabled W
            then available_indexes_available W
            else select_indexes W full_query 3)
      else available_indexes_get W idx
  | None =>
      if index_selection_disabled W
      then available_indexes_available W
      else select_indexes W full_query 3
  end.

Definition is_combiner (c : call) : bool :=
  match c with
  | CallCombiner _ => true
  | _ => false
  end.




(** ** Worlds with another patent store or combiner *)

(** The world [W] with the filing dates and the combiner replaced. *)
Definition with_patents_and_combiner (W : World)
    (filing_date : pyval -> exn + pyval)
    (combinations : pyval -> list (Json W) -> Z -> exn + list (Z * Z))
  : World := {|
  Indexes := Indexes W;
  Vector := Vector W;
  Result := Result W;
  Json := Json W;
  reranker_active := reranker_active W;
  index_selection_disabled := index_selection_disabled W;
  allow_outgoing_extension_requests := allow_outgoing_extension_requests W;
  allow_incoming_extension_requests := allow_incoming_extension_requests W;
  vectorize_text := vectorize_text W;
  available_indexes_get := available_indexes_get W;
  available_indexes_available := available_indexes_available W;
  select_indexes := select_indexes W;
  vector_search := vector_search W;
  extract_snippet := extract_snippet W;
  generate_mapping := generate_mapping W;
  reranker_rank := reranker_rank W;
  result_abstract := result_abstract W;
  result_full_text := result_full_text W;
  result_set_snippet := result_set_snippet W;
  result_set_mapping := result_set_mapping W;
  result_json := result_json W;
  SearchResult_of_json := SearchResult_of_json W;
  get_combinations := combinations;
  remote_search_extensions := remote_search_extensions W;
  remote_merge := remote_merge W;
  is_patent_number := is_patent_number W;
  remove_claim_number := remove_claim_number W;
  patent_first_claim := patent_first_claim W;
  patent_filing_date := filing_date;
  patent_id := patent_id W;
  patent_title := patent_title W;
  patent_abstract := patent_abstract W;
  Document := Document W;
  document_json := document_json W;
  document_full_text := document_full_text W;
  poc_dataset := poc_dataset W;
  sample_anc := sample_anc W;
  sample_pos := sample_pos W;
  sample_negs := sample_negs W;
  result_publication_date := result_publication_date W;
  result_doctype := result_doctype W;
  date_le := date_le W;
|}.

(** The demo world with a patent store that has no filing date on record
    ([None]) for any patent. *)
Definition demo_world_undated : World :=
  with_patents_and_combiner (demo_world true) (fun _ => inr PNone)
    (get_combinations (demo_world true)).

(** The demo world with a combiner that pairs the first four documents
    of the pool. *)
Definition demo_world_pairing : World :=
  with_patents_and_combiner (demo_world true)
    (patent_filing_date (demo_world true))
    (fun _ _ _ => inr [(0, 1); (2, 3)]).

(** The prior-art request [{'pn': 'US1234567B2', 'before': '2015-01-01'}]
    where the patent has no filing date on record. *)
Definition demo_undated_data : dict :=
  <["pn" := PStr "US1234567B2"]> (<["before" := PStr "2015-01-01"]> ∅).

Definition demo_undated_request : PatentPriorArtRequest.t :=
  PatentPriorArtRequest.Build
    (SimilarPatentsRequest.Build (Some demo_undated_data) (PStr "US1234567B2"))
    PNone.

(** The combination search of [demo_combination_data] where the combiner
    answers. *)
Definition demo_pairing_request : SearchRequest.t demo_world_pairing :=
  built demo_world_pairing demo_combination_data "brake" "" 7
    ["A01B"; "B60T"; "G06F"].

(** * Properties *)

(** ** Sanity checks of the model *)

Example int_examples :
  int (PStr " 42 ") = inr 42 /\ int (PStr "-1_000") = inr (-1000) /\
  int (PStr "abc") = inl ValueError /\ int (PStr "1__0") = inl ValueError /\
  int (PStr "") = inl ValueError /\ int PNone = inl TypeError /\
  int (PBool true) = inr 1.
Proof. repeat split; reflexivity. Qed.

Example strip_examples :
  strip "  a b  " = "a b" /\ strip (String "010" "") = "" /\
  lower "PoC" = "poc" /\ slice_to [1; 2; 3] (-1) = [1; 2] /\
  slice_to [1; 2; 3] (-5) = [] /\ index [1; 2; 3] (-1) = Some 3.
Proof. repeat split; reflexivity. Qed.

Example demo_request_init :
  SearchRequest102.__init__ (demo_world true) (Some (demo_data (PStr "5"))) []
  = ([CallSelectIndexes "brake" 3],
     Ret (built (demo_world true) (demo_data (PStr "5")) "brake" "" 5
            ["A01B"; "B60T"; "G06F"])).
Proof. reflexivity. Qed.

Example demo_request_serve :
  SearchRequest102.serve 9 (demo_request 5) []
  = ([CallVectorize "brake"; CallVectorSearch 5; CallResult; CallResult;
      CallResult; CallResult; CallResult],
     Ret {| results := [0; 1; 2; 3; 4]; query := PStr "brake";
            latent_query := PStr "" |}).
Proof. reflexivity. Qed.

(** ** The call log *)

Section Log.

Lemma search_rounds_app (l1 l2 : list call) :
  search_rounds (l1 ++ l2) = (search_rounds l1 + search_rounds l2)%nat.
Proof.
  unfold search_rounds. now rewrite List.filter_app, List.length_app.
Qed.

Lemma search_rounds_snoc (log : list call) (c : call) :
  search_rounds (log ++ [c])
  = (search_rounds log + if is_search c then 1 else 0)%nat.
Proof.
  rewrite search_rounds_app. unfold search_rounds at 2. simpl.
  now destruct (is_search c).
Qed.

Lemma quiet_ret {A} (a : A) : quiet (ret a).
Proof. now intros log. Qed.

Lemma quiet_raise {A} (e : exn) : quiet (@raise A e).
Proof. now intros log. Qed.

Lemma quiet_lift {A} (r : exn + A) : quiet (lift r).
Proof. now destruct r; intros log. Qed.

Lemma quiet_called {A} (c : call) (r : exn + A) :
  is_search c = false -> quiet (called c r).
Proof.
  intros Hc log. unfold called.
  rewrite (quiet_lift r), search_rounds_snoc, Hc. lia.
Qed.

Lemma quiet_bind {A B} (m : M A) (k : A -> M B) :
  quiet m -> (forall a, quiet (k a)) -> quiet (bind m k).
Proof.
  intros Hm Hk log. unfold bind. specialize (Hm log).
  destruct (m log) as [log' [a | e |]]; simpl in *; try assumption.
  now rewrite Hk.
Qed.

Lemma quiet_try {A} (m : M A) (e : exn) :
  quiet m -> quiet (try_except_raise m e).
Proof.
  intros Hm log. unfold try_except_raise. specialize (Hm log).
  now destruct (m log) as [log' [a | e' |]].
Qed.

Lemma quiet_mapM {A B} (f : A -> M B) (l : list A) :
  (forall a, quiet (f a)) -> quiet (mapM f l).
Proof.
  intros Hf. induction l as [| x l IH]; simpl.
  - apply quiet_ret.
  - apply quiet_bind; [apply Hf |]. intros y.
    apply quiet_bind; [apply IH |]. intros ys. apply quiet_ret.
Qed.

Lemma bind_called_inr {A B} (c : call) (a : A) (k : A -> M B) log :
  bind (called c (inr a)) k log = k a (log ++ [c]).
Proof. reflexivity. Qed.

Lemma bind_called_inl {A B} (c : call) (e : exn) (k : A -> M B) log :
  bind (called c (inl e)) k log = (log ++ [c], Raise e).
Proof. reflexivity. Qed.

Lemma quiet_py_index {A} (l : list A) (i : Z) : quiet (py_index l i).
Proof. unfold py_index. destruct (Py.index l i); [apply quiet_ret | apply quiet_raise]. Qed.

End Log.

Ltac quiet_step :=
  first
    [ apply quiet_ret | apply quiet_raise | apply quiet_lift
    | apply quiet_py_index
    | apply quiet_called; reflexivity
    | apply quiet_try
    | apply quiet_mapM; intros ?
    | apply quiet_bind; [| intros ?] ].

Ltac quiet_solve :=
  repeat first [ quiet_step
               | match goal with
                 | |- quiet (if ?b then _ else _) => destruct b
                 | |- quiet (match ?x with _ => _ end) => destruct x
                 end ].

(** ** The retrieval loop of [SearchRequest102] *)

Section Retrieval.
Import SearchRequest SearchRequest102.
Context {W : World}.
Implicit Types (self : SearchRequest.t W) (qvec : Vector W)
  (results : list (Result W)) (log : list call).

(** When the loop test fails the loop body is not entered. *)
Lemma loop_exit fuel self qvec n m results :
  (Z.of_nat (List.length results) <? n) && (m <? MAX_RES_LIMIT self) = false ->
  _get_results_loop fuel self qvec n m results = ret results.
Proof. intros H. destruct fuel; simpl; now rewrite H. Qed.

(** One round of the loop, when its test holds and fuel is left. *)
Lemma loop_round fuel self qvec n m results :
  (Z.of_nat (List.length results) <? n) && (m <? MAX_RES_LIMIT self) = true ->
  _get_results_loop (S fuel) self qvec n m results
  = (found <- called (CallVectorSearch m)
                (vector_search W qvec (_indexes self) m) ;;
     _get_results_loop fuel self qvec n (m * 2)
       (Filters.apply W (_filters self) found)).
Proof. intros H. simpl. now rewrite H. Qed.

(** The loop only ever adds to the log. *)
Lemma loop_rounds_mono fuel self qvec n : forall m results log,
  (search_rounds log
   <= search_rounds (fst (_get_results_loop fuel self qvec n m results log)))%nat.
Proof.
  induction fuel as [| fuel IH]; intros m results log; simpl.
  - destruct (_ && _); simpl; lia.
  - destruct (_ && _); simpl; [| lia].
    unfold bind, called.
    destruct (vector_search W qvec (_indexes self) m) as [e | found]; simpl.
    + rewrite search_rounds_snoc. simpl. lia.
    + etransitivity; [| apply IH]. rewrite search_rounds_snoc. simpl. lia.
Qed.

(** Doubling reaches the ceiling: with [m] positive and
    [MAX_RES_LIMIT <= m * 2 ^ fuel] the loop ends within its fuel. *)
Lemma loop_terminates fuel self qvec n : forall m results log,
  0 < m -> MAX_RES_LIMIT self <= m * 2 ^ Z.of_nat fuel ->
  snd (_get_results_loop fuel self qvec n m results log) <> Diverge.
Proof.
  induction fuel as [| fuel IH]; intros m results log Hm Hfuel.
  - rewrite loop_exit; [discriminate |].
    change (2 ^ Z.of_nat 0) with 1 in Hfuel.
    apply andb_false_iff. right. apply Z.ltb_ge. lia.
  - destruct ((Z.of_nat (List.length results) <? n) && (m <? MAX_RES_LIMIT self))
      eqn:Htest.
    + rewrite loop_round by assumption. unfold bind, called.
      destruct (vector_search W qvec (_indexes self) m) as [e | found]; simpl.
      * discriminate.
      * apply IH; [lia |].
        rewrite Nat2Z.inj_succ, Z.pow_succ_r in Hfuel by lia. lia.
    + rewrite loop_exit by assumption. discriminate.
Qed.

(** [_get_results] returns or raises within ten rounds of fuel (nine
    doublings of a positive [n] pass 500), whatever the collaborators do. *)
Lemma get_results_terminates fuel self log :
  MAX_RES_LIMIT self = 500 -> (9 <= fuel)%nat ->
  snd (_get_results fuel self log) <> Diverge.
Proof.
  intros Hmax Hfuel. unfold _get_results, bind, called.
  destruct (vectorize_text W (_full_query self)) as [e | qvec]; simpl;
    [discriminate |].
  destruct (Z.leb (_n_results self) 0) eqn:Hn.
  - rewrite loop_exit; [discriminate |].
    apply andb_false_iff. left. apply Z.ltb_ge. simpl. lia.
  - apply loop_terminates; [lia |]. rewrite Hmax.
    assert (2 ^ 9 <= 2 ^ Z.of_nat fuel) by (apply Z.pow_le_mono_r; lia).
    change (2 ^ 9) with 512 in *. nia.
Qed.

(** For [0 < n < MAX_RES_LIMIT] the first round is always run. *)
Lemma get_results_searches fuel self log qvec :
  vectorize_text W (_full_query self) = inr qvec ->
  0 < _n_results self < MAX_RES_LIMIT self ->
  (search_rounds log + 1
   <= search_rounds (fst (_get_results (S fuel) self log)))%nat.
Proof.
  intros Hvec Hn. unfold _get_results.
  rewrite Hvec, bind_called_inr.
  rewrite loop_round
    by (apply andb_true_iff; split; apply Z.ltb_lt; simpl; lia).
  destruct (vector_search W qvec (_indexes self) (_n_results self))
    as [e | found].
  - rewrite bind_called_inl. simpl. rewrite !search_rounds_snoc. simpl. lia.
  - rewrite bind_called_inr.
    etransitivity; [| apply loop_rounds_mono].
    rewrite !search_rounds_snoc. simpl. lia.
Qed.

(** With [n <= 0], or with [n] at or above the ceiling, the loop test
    fails at once: no search round, and the empty list comes back. *)
Lemma get_results_skip fuel self log :
  _n_results self <= 0 \/ MAX_RES_LIMIT self <= _n_results self ->
  _get_results fuel self log
  = (results <- called (CallVectorize (_full_query self))
                  (vectorize_text W (_full_query self)) ;; ret []) log.
Proof.
  intros Hn. unfold _get_results, bind.
  destruct (called _ _ log) as [log' [qvec | e |]]; try reflexivity.
  rewrite loop_exit; [reflexivity |].
  apply andb_false_iff.
  destruct Hn; [left | right]; apply Z.ltb_ge; simpl; lia.
Qed.

Lemma quiet_rerank self results : quiet (_rerank self results).
Proof. unfold _rerank. quiet_solve. Qed.

Lemma quiet_formatting self results : quiet (_formatting_fn self results).
Proof.
  unfold _formatting_fn, _add_snippet_if_needed, _add_mapping_if_needed,
    _add_remote_results_to.
  quiet_solve.
Qed.

End Retrieval.

(** ** Construction of a search request *)

Section Construction.
Import Filters SearchRequest.
Context (W : World).
Implicit Types (d : dict) (log : list call).

Lemma read_bool_value_Some d key log :
  _read_bool_value (Some d) key log = (log, Ret (flag_of d key)).
Proof. reflexivity. Qed.

Lemma get_date_filter_Some d log :
  FilterExtractor._get_date_filter (Some d) log = (log, Ret (date_filter_of d)).
Proof.
  unfold FilterExtractor._get_date_filter, date_filter_of, bind, py_get, ret.
  destruct (truthy (default PNone (d !! "after"))),
    (truthy (default PNone (d !! "before"))); reflexivity.
Qed.

Lemma extract_Some d log :
  FilterExtractor.extract (Some d) log = (log, Ret (filters_of d)).
Proof.
  unfold FilterExtractor.extract, bind. rewrite get_date_filter_Some.
  unfold FilterExtractor._get_doctype_filter, filters_of, doctype_filter_of,
    bind, py_get, ret, add.
  destruct (date_filter_of d), (truthy (default PNone (d !! "type")));
    reflexivity.
Qed.

(** [__init__] on a [dict], step by step in the order of the source:
    validation, [int(n)], the full query, the index scope. *)
Lemma init_Some d log :
  __init__ W (Some d) log =
  match d !! "q" with
  | None => (log, Raise (BadRequestError "Request does not contain a query."))
  | Some vq =>
      match int (default (PInt 10) (d !! "n")) with
      | inl e => (log, Raise e)
      | inr n =>
          match vq, default (PStr "") (d !! "lq") with
          | PStr q, PStr lq =>
              match _get_indexes W (Some d) (strip (q +:+ newline +:+ lq)) log with
              | (log', Ret ix) => (log', Ret (built W d q lq n ix))
              | (log', Raise e) => (log', Raise e)
              | (log', Diverge) => (log', Diverge)
              end
          | _, _ => (log, Raise TypeError)
          end
      end
  end.
Proof.
  unfold __init__, APIRequest.__init__, _validation_fn, py_in, py_get.
  unfold bind at 1 2 3. unfold ret at 1.
  destruct (d !! "q") as [vq |] eqn:Hq; simpl; [| reflexivity].
  unfold bind at 1 2 3 4. unfold ret at 1 2 3 4.
  destruct (int (default (PInt 10) (d !! "n"))) as [e | n]; simpl;
    [reflexivity |].
  unfold bind at 1. unfold _get_full_query.
  destruct vq as [| b | z | q]; try reflexivity.
  destruct (default (PStr "") (d !! "lq")) as [| b | z | lq]; try reflexivity.
  unfold ret at 1. unfold bind at 1.
  destruct (_get_indexes W (Some d) _ log) as [log' [ix | e |]];
    try reflexivity.
  unfold bind. now rewrite !read_bool_value_Some, extract_Some.
Qed.

(** Without a [dict] the membership test of the validation fails. *)
Lemma init_None log : __init__ W None log = (log, Raise TypeError).
Proof. reflexivity. Qed.

(** What a successful construction tells about the parameters. *)
Lemma init_Ret data log log' self :
  __init__ W data log = (log', Ret self) ->
  exists d q lq n ix,
    data = Some d /\ d !! "q" = Some (PStr q)
    /\ default (PStr "") (d !! "lq") = PStr lq
    /\ int (default (PInt 10) (d !! "n")) = inr n
    /\ _get_indexes W (Some d) (strip (q +:+ newline +:+ lq)) log
       = (log', Ret ix)
    /\ self = built W d q lq n ix.
Proof.
  destruct data as [d |]; [| rewrite init_None; discriminate].
  rewrite init_Some.
  destruct (d !! "q") as [vq |] eqn:Hq; [| discriminate].
  destruct (int _) as [e | n] eqn:Hn; [discriminate |].
  destruct vq as [| b | z | q]; try discriminate.
  destruct (default (PStr "") (d !! "lq")) as [| b | z | lq] eqn:Hlq;
    try discriminate.
  destruct (_get_indexes _ _ _ _) as [l [ix | e |]] eqn:Hix; try discriminate.
  intros [= <- <-]. exists d, q, lq, n, ix. repeat split; first [assumption | reflexivity].
Qed.

End Construction.

(** * The claims *)

Section RetrievalClaims.
Import SearchRequest SearchRequest102.

(** C3. For every single-reference search request whose requested result
    count [n] is at most 0, serving performs no search round: the log of
    [serve], and that of the retrieval step [_get_results], record no call
    of the vector search; and the retrieval step returns the empty list
    (it raises only where vectorising the query raised, before the loop). *)
Theorem no_search_round_for_nonpositive_n
    (W : World) (fuel : nat) (self : SearchRequest.t W) (log : list call) :
  _n_results self <= 0 ->
  search_rounds (fst (serve fuel self log)) = search_rounds log
  /\ search_rounds (fst (_get_results fuel self log)) = search_rounds log
  /\ snd (_get_results fuel self log)
     = match vectorize_text W (_full_query self) with
       | inr _ => Ret []
       | inl e => Raise e
       end.
Proof.
  intros Hn.
  assert (Hquiet : quiet (_get_results fuel self)).
  { intros l. rewrite get_results_skip by (left; exact Hn).
    unfold bind, called.
    destruct (vectorize_text W (_full_query self)); simpl;
      rewrite search_rounds_snoc; simpl; lia. }
  split; [| split].
  - revert log. change (quiet (serve fuel self)).
    unfold serve, APIRequest.serve, _serving_fn, _searching_fn.
    apply quiet_try. apply quiet_bind.
    + apply quiet_bind; [exact Hquiet |]. intros results.
      apply quiet_bind; [apply quiet_rerank |]. intros ?. apply quiet_ret.
    + intros results. apply quiet_formatting.
  - apply Hquiet.
  - rewrite get_results_skip by (left; exact Hn).
    destruct (vectorize_text W (_full_query self)); reflexivity.
Qed.

Lemma no_search_round_for_nonpositive_n_witness :
  _n_results (demo_request (-3)) <= 0
  /\ fst (serve 9 (demo_request (-3)) []) = [CallVectorize "brake"]
  /\ search_rounds (fst (serve 9 (demo_request (-3)) [])) = search_rounds []
  /\ snd (_get_results 9 (demo_request (-3)) []) = Ret [].
Proof.
  split; [simpl; lia |]. split; [reflexivity |].
  destruct (no_search_round_for_nonpositive_n (demo_world true) 9
              (demo_request (-3)) []) as (Hserve & _ & Hret).
  - simpl. lia.
  - split; [exact Hserve | exact Hret].
Defined.

(** C2, at the ceiling.  A request for exactly 500 results, built by
    [__init__], fails the loop test [m < MAX_RES_LIMIT] before the first
    round: [_get_results] calls the vector search not once and returns the
    empty list.  (Below the ceiling, [get_results_searches] shows the
    first round is run.) *)
Theorem no_search_round_at_result_limit
    (W : World) (data : option dict) (log0 log1 : list call)
    (self : SearchRequest.t W) (fuel : nat) (log : list call) :
  __init__ W data log0 = (log1, Ret self) ->
  _n_results self = 500 ->
  search_rounds (fst (_get_results fuel self log)) = search_rounds log
  /\ snd (_get_results fuel self log)
     = match vectorize_text W (_full_query self) with
       | inr _ => Ret []
       | inl e => Raise e
       end.
Proof.
  intros Hinit Hn.
  apply init_Ret in Hinit as (d & q & lq & n & ix & _ & _ & _ & _ & _ & ->).
  simpl in Hn. subst n.
  rewrite get_results_skip by (right; simpl; lia).
  unfold bind, called.
  destruct (vectorize_text W _) as [e | qvec]; simpl;
    rewrite search_rounds_snoc; simpl; split; first [lia | reflexivity].
Qed.

Lemma no_search_round_at_result_limit_witness :
  __init__ (demo_world true) (Some (demo_data (PInt 500))) []
  = ([CallSelectIndexes "brake" 3], Ret (demo_request 500))
  /\ _n_results (demo_request 500) = 500
  /\ search_rounds (fst (_get_results 9 (demo_request 500) [])) = 0%nat
  /\ snd (_get_results 9 (demo_request 500) []) = Ret []
  /\ (1 <= search_rounds (fst (_get_results 9 (demo_request 499) [])))%nat.
Proof.
  assert (Hinit : __init__ (demo_world true) (Some (demo_data (PInt 500))) []
                  = ([CallSelectIndexes "brake" 3], Ret (demo_request 500)))
    by reflexivity.
  destruct (no_search_round_at_result_limit (demo_world true) _ _ _ _ 9 []
              Hinit eq_refl) as [Hrounds Hret].
  split; [exact Hinit |].
  split; [reflexivity |]. split; [exact Hrounds |]. split; [exact Hret |].
  vm_compute. lia.
Defined.

End RetrievalClaims.

(** ** Stripping *)

Section Strip.

Lemma all_space_app (a b : string) :
  all_space (a +:+ b) = all_space a && all_space b.
Proof.
  induction a as [| c a IH]; simpl; [reflexivity |].
  now rewrite IH, andb_assoc.
Qed.

Lemma lstrip_all_space (s : string) : all_space (lstrip s) = all_space s.
Proof.
  induction s as [| c s IH]; simpl; [reflexivity |].
  destruct (is_space c) eqn:Hc; simpl; [exact IH | now rewrite Hc].
Qed.

Lemma rstrip_empty (s : string) : rstrip s = "" <-> all_space s = true.
Proof.
  induction s as [| c s IH]; simpl; [tauto |].
  destruct (is_space c); simpl.
  - destruct (rstrip s) as [| c' r] eqn:Hr; simpl.
    + tauto.
    + split; [discriminate |]. intros H. apply IH in H. discriminate.
  - split; discriminate.
Qed.

(** [s.strip()] is empty exactly for a string of whitespace. *)
Lemma strip_empty (s : string) : strip s = "" <-> all_space s = true.
Proof. unfold strip. now rewrite rstrip_empty, lstrip_all_space. Qed.

End Strip.

Section ConstructionClaims.
Import SearchRequest SearchRequest102.


(** C5, as the code has it.  Validation of a search request passes
    exactly when the key ['q'] is present; the full query of a request
    that was built is [(q + "\n" + lq).strip()], and it is empty exactly
    when the query and the latent query are made of whitespace only. *)
Theorem full_query_of_validated_request
    (W : World) (d : dict) (log log' : list call) (self : SearchRequest.t W) :
  __init__ W (Some d) log = (log', Ret self) ->
  _validation_fn (Some d) log = (log, Ret tt)
  /\ exists q lq,
       d !! "q" = Some (PStr q)
       /\ default (PStr "") (d !! "lq") = PStr lq
       /\ _full_query self = strip (q +:+ newline +:+ lq)
       /\ (_full_query self = "" <-> all_space q = true /\ all_space lq = true).
Proof.
  intros Hinit.
  apply init_Ret in Hinit as (d' & q & lq & n & ix & [= <-] & Hq & Hlq & _ & _ & ->).
  split.
  - unfold _validation_fn, py_in, bind, ret. now rewrite Hq.
  - exists q, lq. split; [exact Hq |]. split; [exact Hlq |].
    split; [reflexivity |]. simpl. rewrite strip_empty, !all_space_app.
    simpl. destruct (all_space q), (all_space lq); simpl; intuition discriminate.
Qed.

Lemma full_query_of_validated_request_witness :
  _validation_fn (Some (demo_data (PInt 5))) [] = ([], Ret tt)
  /\ _full_query (demo_request 5) = "brake".
Proof.
  destruct (full_query_of_validated_request (demo_world true)
              (demo_data (PInt 5)) [] [CallSelectIndexes "brake" 3]
              (demo_request 5) eq_refl) as [Hval _].
  split; [exact Hval | reflexivity].
Defined.

(** C5, as stated, fails: the request [{'q': ''}] passes validation, is
    built, and its full query is the empty string; so is that of
    [{'q': '  ', 'lq': '\n'}]. *)
Lemma full_query_empty_counterexample :
  (exists self log',
     _validation_fn (Some (<["q" := PStr ""]> ∅)) [] = ([], Ret tt)
     /\ __init__ (demo_world true) (Some (<["q" := PStr ""]> ∅)) []
        = (log', Ret self)
     /\ _full_query self = "")
  /\ (exists self log',
        __init__ (demo_world true)
          (Some (<["q" := PStr "  "]> (<["lq" := PStr newline]> ∅))) []
        = (log', Ret self)
        /\ _full_query self = "").
Proof.
  split; eexists; eexists; repeat split; reflexivity.
Qed.

End ConstructionClaims.

(** ** The index scope *)

Section IndexScope.
Import SearchRequest.
Context (W : World).
Implicit Types (d : dict) (log : list call).

(** [_get_indexes] reads nothing of the parameters but the key ['idx']. *)
Lemma get_indexes_ext d1 d2 fq log :
  d1 !! "idx" = d2 !! "idx" ->
  _get_indexes W (Some d1) fq log = _get_indexes W (Some d2) fq log.
Proof.
  intros H.
  unfold _get_indexes, _index_specified_in_request, py_in, py_getitem, bind, ret.
  now rewrite H.
Qed.

Lemma called_log {A} (c : call) (r : exn + A) log :
  called c r log = (log ++ fst (called c r []), snd (called c r [])).
Proof. unfold called. now destruct r. Qed.

(** The calls and the outcome of [_get_indexes] do not depend on the log
    it starts from: the collaborators keep no state. *)
Lemma get_indexes_log d fq log :
  _get_indexes W (Some d) fq log
  = (log ++ fst (_get_indexes W (Some d) fq []),
     snd (_get_indexes W (Some d) fq [])).
Proof.
  unfold _get_indexes, _index_specified_in_request, py_in, py_getitem, bind, ret.
  destruct (d !! "idx") as [idx |]; simpl.
  - destruct (bool_decide (idx = PStr "auto")).
    + destruct (index_selection_disabled W); apply called_log.
    + apply called_log.
  - destruct (index_selection_disabled W); apply called_log.
Qed.

(** [_get_indexes] on a [dict] is its one call: logged, and the
    collaborator's answer or exception passed on as it is. *)
Lemma get_indexes_answer d fq log :
  _get_indexes W (Some d) fq log
  = called (index_call W d fq) (index_answer W d fq) log.
Proof.
  unfold _get_indexes, _index_specified_in_request, py_in, py_getitem, bind,
    ret, index_call, index_answer.
  destruct (d !! "idx") as [idx |]; simpl.
  - destruct (bool_decide (idx = PStr "auto"));
      [destruct (index_selection_disabled W) |]; reflexivity.
  - destruct (index_selection_disabled W); reflexivity.
Qed.

Lemma init_log d log :
  __init__ W (Some d) log
  = (log ++ fst (__init__ W (Some d) []), snd (__init__ W (Some d) [])).
Proof.
  rewrite !init_Some.
  destruct (d !! "q") as [vq |]; [| now rewrite app_nil_r].
  destruct (int _) as [e | n]; [now rewrite app_nil_r |].
  destruct vq as [| b | z | q]; try now rewrite app_nil_r.
  destruct (default (PStr "") (d !! "lq")) as [| b | z | lq];
    try now rewrite app_nil_r.
  rewrite (get_indexes_log d _ log).
  destruct (_get_indexes W (Some d) _ []) as [l [ix | e |]]; reflexivity.
Qed.

End IndexScope.

Section IndexScopeClaims.
Import SearchRequest.

(** C9. For every parameter map [d] without the key ['idx'], index-scope
    resolution on [d] and on [d] with ['idx'] set to ['auto'] is the same
    computation: neither counts as naming an index, both make the same
    call (all available indexes when selection is disabled, else the
    selector with the full query and 3) with the same outcome; and the
    requests built from the two maps have the same index scope. *)
Theorem idx_auto_resolves_as_omitted
    (W : World) (d : dict) (fq : string) (log : list call) :
  d !! "idx" = None ->
  _index_specified_in_request (Some d) log = (log, Ret false)
  /\ _index_specified_in_request (Some (<["idx" := PStr "auto"]> d)) log
     = (log, Ret false)
  /\ _get_indexes W (Some (<["idx" := PStr "auto"]> d)) fq log
     = _get_indexes W (Some d) fq log
  /\ _get_indexes W (Some d) fq log
     = (if index_selection_disabled W
        then called CallIndexAvailable (available_indexes_available W) log
        else called (CallSelectIndexes fq 3) (select_indexes W fq 3) log)
  /\ forall log' self,
       __init__ W (Some d) log = (log', Ret self) ->
       exists self',
         __init__ W (Some (<["idx" := PStr "auto"]> d)) log = (log', Ret self')
         /\ _indexes self' = _indexes self.
Proof.
  intros Hidx.
  assert (Hsame : forall q l,
            _get_indexes W (Some (<["idx" := PStr "auto"]> d)) q l
            = _get_indexes W (Some d) q l).
  { intros q l.
    unfold _get_indexes, _index_specified_in_request, py_in, py_getitem,
      bind, ret.
    rewrite lookup_insert_eq, Hidx. reflexivity. }
  split; [| split; [| split; [| split]]].
  - unfold _index_specified_in_request, py_in, bind, ret. now rewrite Hidx.
  - unfold _index_specified_in_request, py_in, py_getitem, bind, ret.
    now rewrite lookup_insert_eq.
  - apply Hsame.
  - unfold _get_indexes, _index_specified_in_request, py_in, bind, ret.
    rewrite Hidx. simpl. now destruct (index_selection_disabled W).
  - intros log' self Hinit.
    apply init_Ret in Hinit
      as (d' & q & lq & n & ix & [= <-] & Hq & Hlq & Hn & Hix & ->).
    exists (built W (<["idx" := PStr "auto"]> d) q lq n ix).
    split; [| reflexivity].
    rewrite init_Some, !lookup_insert_ne by discriminate.
    now rewrite Hq, Hn, Hlq, Hsame, Hix.
Qed.

Lemma idx_auto_resolves_as_omitted_witness :
  demo_data (PInt 5) !! "idx" = None
  /\ _get_indexes (demo_world true)
       (Some (<["idx" := PStr "auto"]> (demo_data (PInt 5)))) "brake" []
     = ([CallSelectIndexes "brake" 3], Ret ["A01B"; "B60T"; "G06F"])
  /\ _get_indexes (demo_world true)
       (Some (<["idx" := PStr "B60T"]> (demo_data (PInt 5)))) "brake" []
     = ([CallIndexGet (PStr "B60T")], Ret ["B60T"]).
Proof.
  destruct (idx_auto_resolves_as_omitted (demo_world true) (demo_data (PInt 5))
              "brake" [] eq_refl) as (_ & _ & Hsame & _).
  split; [reflexivity |]. split; [| reflexivity].
  rewrite Hsame. reflexivity.
Defined.

End IndexScopeClaims.

(** ** The combination search and its pool request *)

Section CombinationClaims.
Import SearchRequest.

(** C6. For every combination search request, whatever its own [n],
    [snip] and [maps]: the parameters of the pool request are those of the
    outer request with [n] = 100, [maps] = 0 and [snip] = 0; the
    single-reference request built from them -- the one
    [_get_docs_to_combine] serves -- is built without an error, has the
    outer request's query, latent query and full query, asks for 100
    results and needs neither snippets nor mappings. *)
Theorem pool_request_of_combination_search
    (W : World) (data : option dict) (log0 log1 : list call)
    (self : SearchRequest.t W) (fuel : nat) (log : list call) :
  SearchRequest103.__init__ W data log0 = (log1, Ret self) ->
  exists params interim log',
    SearchRequest103._get_interim_request_params self log = (log, Ret params)
    /\ SearchRequest102.__init__ W (Some params) log = (log', Ret interim)
    /\ SearchRequest103._get_docs_to_combine fuel self log
       = (response <- SearchRequest102.serve fuel interim ;;
          mapM (fun r => called CallResult (SearchResult_of_json W r))
            (results response)) log'
    /\ params !! "q" = Some (_query self)
    /\ params !! "n" = Some (PInt 100)
    /\ params !! "maps" = Some (PInt 0)
    /\ params !! "snip" = Some (PInt 0)
    /\ (forall d key, _data self = Some d ->
        key <> "n" -> key <> "maps" -> key <> "snip" ->
        params !! key = d !! key)
    /\ _query interim = _query self
    /\ _latent_query interim = _latent_query self
    /\ _full_query interim = _full_query self
    /\ _n_results interim = 100
    /\ _need_snippets interim = false
    /\ _need_mappings interim = false.
Proof.
  intros Hinit. unfold SearchRequest103.__init__ in Hinit.
  apply init_Ret in Hinit
    as (d & q & lq & n & ix & -> & Hq & Hlq & Hn & Hix & ->).
  set (params := <["snip" := PInt 0]>
                   (<["maps" := PInt 0]> (<["n" := PInt 100]> d))).
  assert (Hother : forall key, key <> "n" -> key <> "maps" -> key <> "snip" ->
                     params !! key = d !! key).
  { intros key H1 H2 H3. unfold params.
    now rewrite !lookup_insert_ne by congruence. }
  assert (Hpn : params !! "n" = Some (PInt 100)).
  { unfold params. rewrite !lookup_insert_ne by discriminate.
    apply lookup_insert_eq. }
  assert (Hpm : params !! "maps" = Some (PInt 0)).
  { unfold params. rewrite lookup_insert_ne by discriminate.
    apply lookup_insert_eq. }
  assert (Hps : params !! "snip" = Some (PInt 0)).
  { unfold params. apply lookup_insert_eq. }
  assert (Hbuild : SearchRequest102.__init__ W (Some params) log
                   = (log ++ fst (_get_indexes W (Some d)
                                    (strip (q +:+ newline +:+ lq)) []),
                      Ret (built W params q lq 100 ix))).
  { unfold SearchRequest102.__init__. rewrite init_Some.
    rewrite (Hother "q"), (Hother "lq"), Hpn, Hq, Hlq by discriminate.
    simpl int. cbv iota.
    rewrite (get_indexes_ext W params d) by (apply Hother; discriminate).
    rewrite (get_indexes_log W d _ log).
    rewrite (get_indexes_log W d _ log0) in Hix.
    injection Hix as _ Hix. now rewrite Hix. }
  exists params, (built W params q lq 100 ix),
    (log ++ fst (_get_indexes W (Some d) (strip (q +:+ newline +:+ lq)) [])).
  split; [reflexivity |]. split; [exact Hbuild |].
  split.
  { unfold SearchRequest103._get_docs_to_combine.
    unfold bind at 1.
    change (SearchRequest103._get_interim_request_params
              (built W d q lq n ix) log) with (log, Ret params).
    cbv iota. unfold bind at 1. now rewrite Hbuild. }
  split; [now rewrite (Hother "q") by discriminate |].
  split; [exact Hpn |]. split; [exact Hpm |]. split; [exact Hps |].
  split; [intros d' key [= <-]; apply Hother |].
  repeat split; simpl; unfold flag_of; now rewrite ?Hps, ?Hpm.
Qed.

Lemma pool_request_of_combination_search_witness :
  SearchRequest103.__init__ (demo_world true) (Some demo_combination_data) []
  = ([CallSelectIndexes "brake" 3], Ret demo_combination_request)
  /\ _n_results demo_combination_request = 7
  /\ _need_snippets demo_combination_request = true
  /\ _need_mappings demo_combination_request = true
  /\ exists interim log',
       SearchRequest102.__init__ (demo_world true)
         (Some (<["snip" := PInt 0]>
                  (<["maps" := PInt 0]>
                     (<["n" := PInt 100]> demo_combination_data)))) []
       = (log', Ret interim)
       /\ _query interim = PStr "brake"
       /\ _n_results interim = 100
       /\ _need_snippets interim = false
       /\ _need_mappings interim = false.
Proof.
  assert (Hinit : SearchRequest103.__init__ (demo_world true)
                    (Some demo_combination_data) []
                  = ([CallSelectIndexes "brake" 3],
                     Ret demo_combination_request)) by reflexivity.
  split; [exact Hinit |]. repeat (split; [reflexivity |]).
  destruct (pool_request_of_combination_search (demo_world true) _ _ _ _
              9 [] Hinit)
    as (params & interim & log' & Hparams & Hbuild & _ & Hq & _ & _ & _ & _
        & Hquery & _ & _ & Hn & Hsnip & Hmaps).
  injection Hparams as <-.
  exists interim, log'. repeat split; assumption.
Defined.

End CombinationClaims.

(** ** Errors of construction and of serving *)

Section ErrorClaims.

(** Whatever serving and formatting do, [serve] ends in one of three
    ways: it returns, it raises [ServerError()] with the default message,
    or it does not end. *)
Lemma serve_outcome {A B} (serving : M A) (formatting : A -> M B) log :
  (exists b, snd (APIRequest.serve serving formatting log) = Ret b)
  \/ snd (APIRequest.serve serving formatting log)
     = Raise (ServerError "Server error while handling request.")
  \/ snd (APIRequest.serve serving formatting log) = Diverge.
Proof.
  unfold APIRequest.serve, try_except_raise.
  destruct (bind serving _ log) as [log' [b | e |]]; simpl; eauto.
Qed.

(** An exception of the serving function, of whatever class, leaves
    [serve] as [ServerError()]. *)
Lemma serve_collapses {A B} (serving : M A) (formatting : A -> M B) log log' e :
  serving log = (log', Raise e) ->
  APIRequest.serve serving formatting log
  = (log', Raise (ServerError "Server error while handling request.")).
Proof.
  intros H. unfold APIRequest.serve, try_except_raise, bind. now rewrite H.
Qed.

(** C1, at a dataset request.  For a dataset name other than ['poc'] the
    serving function raises [BadRequestError('No dataset named ...')];
    [serve] does not pass it on: the caller gets [ServerError()] with the
    default message, as for any other failure. *)
Theorem serve_collapses_bad_request
    (W : World) (d : dict) (name : string) (log : list call) :
  d !! "dataset" = Some (PStr name) ->
  lower name <> "poc" ->
  DatasetSampleRequest._serving_fn W (Some d) log
  = (log, Raise (BadRequestError ("No dataset named " +:+ name +:+ ".")))
  /\ DatasetSampleRequest.serve W (Some d) log
     = (log, Raise (ServerError "Server error while handling request.")).
Proof.
  intros Hname Hpoc.
  assert (Hserving : DatasetSampleRequest._serving_fn W (Some d) log
                     = (log, Raise (BadRequestError
                                      ("No dataset named " +:+ name +:+ ".")))).
  { unfold DatasetSampleRequest._serving_fn, py_getitem, bind at 1.
    rewrite Hname. unfold ret at 1.
    destruct (String.eqb (lower name) "poc") eqn:Heq; [| reflexivity].
    apply String.eqb_eq in Heq. contradiction. }
  split; [exact Hserving |].
  unfold DatasetSampleRequest.serve. eapply serve_collapses. exact Hserving.
Qed.

Lemma serve_collapses_bad_request_witness :
  DatasetSampleRequest.__init__ (Some demo_dataset_data) []
  = ([], Ret (Some demo_dataset_data))
  /\ DatasetSampleRequest._serving_fn (demo_world true) (Some demo_dataset_data) []
     = ([], Raise (BadRequestError "No dataset named imagenet."))
  /\ DatasetSampleRequest.serve (demo_world true) (Some demo_dataset_data) []
     = ([], Raise (ServerError "Server error while handling request.")).
Proof.
  split; [reflexivity |].
  apply (serve_collapses_bad_request (demo_world true) demo_dataset_data
           "imagenet" []); [reflexivity | discriminate].
Defined.

(** C8. With incoming extension requests disabled, constructing a
    federation-ingress request raises [NotAllowedError] for every payload
    -- a [dict] with or without a query, or no [dict] at all -- and the log
    is left as it was: no validation, no collaborator was reached. *)
Theorem ingress_disabled_rejects_every_payload
    (W : World) (req_data : option dict) (log : list call) :
  allow_incoming_extension_requests W = false ->
  IncomingExtensionRequest.__init__ W req_data log
  = (log, Raise (NotAllowedError "Server does not accept extension requests.")).
Proof.
  intros Hoff. unfold IncomingExtensionRequest.__init__. now rewrite Hoff.
Qed.

Lemma ingress_disabled_rejects_every_payload_witness :
  IncomingExtensionRequest.__init__ (demo_world false)
    (Some (demo_data (PInt 5))) []
  = ([], Raise (NotAllowedError "Server does not accept extension requests."))
  /\ IncomingExtensionRequest.__init__ (demo_world false) (Some ∅) []
     = ([], Raise (NotAllowedError "Server does not accept extension requests."))
  /\ IncomingExtensionRequest.__init__ (demo_world false) None []
     = ([], Raise (NotAllowedError "Server does not accept extension requests."))
  /\ SearchRequest102.__init__ (demo_world false) (Some ∅) []
     = ([], Raise (BadRequestError "Request does not contain a query."))
  /\ fst (IncomingExtensionRequest.__init__ (demo_world true)
            (Some (demo_data (PInt 5))) [])
     = [CallSelectIndexes "brake" 3].
Proof.
  pose proof (ingress_disabled_rejects_every_payload (demo_world false))
    as Hgate.
  split; [apply Hgate; reflexivity |].
  split; [apply Hgate; reflexivity |].
  split; [apply Hgate; reflexivity |].
  split; reflexivity.
Defined.

(** C10. Construction has no handler around it: what a step of a
    constructor raises is what the caller gets.  In the base [__init__]
    the exception of the validation is passed on.  For each request kind
    the outcome of construction is written out below, step by step in the
    order of the source; in every case where a step raises [e] -- the
    membership test or [.get] on a missing map ([TypeError],
    [AttributeError]), [int] on ['n'] ([ValueError] for a [str] it cannot
    read, [TypeError] for [None]), [+] on a query that is not a [str]
    ([TypeError]), the index directory or selector, [is_patent_number],
    the patent store, [Document] -- construction raises that same [e]
    with the log as the step left it.  [BadRequestError] comes from the
    validations only, [NotAllowedError] only from a server that does not
    accept extension requests, and a search-kind constructor raises a
    [ServerError] only if the index collaborator raised that very
    exception. *)
Theorem construction_errors_reach_caller_unwrapped
    (W : World) (log : list call) :
  (forall data (validation : M unit) l l' e,
     validation l = (l', Raise e) ->
     APIRequest.__init__ data validation l = (l', Raise e))
  /\ (forall data,
        SearchRequest102.__init__ W data log = SearchRequest.__init__ W data log
        /\ SearchRequest103.__init__ W data log
           = SearchRequest.__init__ W data log
        /\ (allow_incoming_extension_requests W = true ->
            IncomingExtensionRequest.__init__ W data log
            = SearchRequest.__init__ W data log)
        /\ (allow_incoming_extension_requests W = false ->
            IncomingExtensionRequest.__init__ W data log
            = (log, Raise (NotAllowedError
                             "Server does not accept extension requests."))))
  /\ SearchRequest.__init__ W None log = (log, Raise TypeError)
  /\ (forall d,
        SearchRequest.__init__ W (Some d) log
        = match d !! "q" with
          | None =>
              (log, Raise (BadRequestError "Request does not contain a query."))
          | Some vq =>
              match int (default (PInt 10) (d !! "n")) with
              | inl e => (log, Raise e)
              | inr n =>
                  match vq, default (PStr "") (d !! "lq") with
                  | PStr q, PStr lq =>
                      let full_query := strip (q +:+ newline +:+ lq) in
                      match index_answer W d full_query with
                      | inl e => (log ++ [index_call W d full_query], Raise e)
                      | inr ix =>
                          (log ++ [index_call W d full_query],
                           Ret (built W d q lq n ix))
                      end
                  | _, _ => (log, Raise TypeError)
                  end
              end
          end)
  /\ (forall d s,
        is_Some (d !! "q") -> d !! "n" = Some (PStr s) -> int_of_str s = None ->
        SearchRequest.__init__ W (Some d) log = (log, Raise ValueError))
  /\ (forall data log' msg,
        SearchRequest.__init__ W data log = (log', Raise (ServerError msg)) ->
        exists d full_query,
          data = Some d
          /\ index_answer W d full_query = inl (ServerError msg))
  /\ SimilarPatentsRequest.__init__ W None log = (log, Raise AttributeError)
  /\ (forall d,
        let pn := default PNone (d !! "pn") in
        SimilarPatentsRequest.__init__ W (Some d) log
        = match is_patent_number W pn with
          | inl e => (log ++ [CallUtils], Raise e)
          | inr false =>
              (log ++ [CallUtils],
               Raise (BadRequestError
                        "Request does not contain a valid patent number."))
          | inr true =>
              (log ++ [CallUtils], Ret (SimilarPatentsRequest.Build (Some d) pn))
          end)
  /\ PatentPriorArtRequest.__init__ W None log = (log, Raise AttributeError)
  /\ (forall d,
        let pn := default PNone (d !! "pn") in
        PatentPriorArtRequest.__init__ W (Some d) log
        = match is_patent_number W pn with
          | inl e => (log ++ [CallUtils], Raise e)
          | inr false =>
              (log ++ [CallUtils],
               Raise (BadRequestError
                        "Request does not contain a valid patent number."))
          | inr true =>
              match patent_filing_date W pn with
              | inl e => (log ++ [CallUtils; CallPatent pn], Raise e)
              | inr before =>
                  (log ++ [CallUtils; CallPatent pn],
                   Ret (PatentPriorArtRequest.Build
                          (SimilarPatentsRequest.Build (Some d) pn) before))
              end
          end)
  /\ DocumentRequest.__init__ None log = (log, Raise TypeError)
  /\ (forall d,
        DocumentRequest.__init__ (Some d) log
        = match d !! "id" with
          | None =>
              (log, Raise (BadRequestError
                             "Request does not contain a document ID."))
          | Some id => (log, Ret (DocumentRequest.Build (Some d) id))
          end)
  /\ (SnippetRequest.__init__ W None log = (log, Raise AttributeError)
      /\ MappingRequest.__init__ W None log = (log, Raise AttributeError))
  /\ (forall d,
        let q := default PNone (d !! "q") in
        let pn := default PNone (d !! "pn") in
        SnippetRequest.__init__ W (Some d) log
        = PassageRequest.__init__ W (Some d) log
        /\ MappingRequest.__init__ W (Some d) log
           = PassageRequest.__init__ W (Some d) log
        /\ PassageRequest.__init__ W (Some d) log
           = if negb (truthy q)
             then (log, Raise (BadRequestError
                                 "Request does not contain a query."))
             else if negb (truthy pn)
             then (log, Raise (BadRequestError
                                 "Request does not specify a document."))
             else match Document W pn with
                  | inl e => (log ++ [CallDocument pn], Raise e)
                  | inr _ => (log ++ [CallDocument pn],
                              Ret (PassageRequest.Build (Some d) q pn))
                  end)
  /\ DatasetSampleRequest.__init__ None log = (log, Raise TypeError)
  /\ (forall d,
        DatasetSampleRequest.__init__ (Some d) log
        = match d !! "dataset", d !! "n" with
          | None, _ =>
              (log, Raise (BadRequestError
                             "Request does not specify a dataset name."))
          | Some _, None =>
              (log, Raise (BadRequestError
                             "Request does not specify the sample number."))
          | Some _, Some _ => (log, Ret (Some d))
          end).
Proof.
  assert (Hsearch : forall d,
            SearchRequest.__init__ W (Some d) log
            = match d !! "q" with
              | None =>
                  (log, Raise (BadRequestError
                                 "Request does not contain a query."))
              | Some vq =>
                  match int (default (PInt 10) (d !! "n")) with
                  | inl e => (log, Raise e)
                  | inr n =>
                      match vq, default (PStr "") (d !! "lq") with
                      | PStr q, PStr lq =>
                          let full_query := strip (q +:+ newline +:+ lq) in
                          match index_answer W d full_query with
                          | inl e =>
                              (log ++ [index_call W d full_query], Raise e)
                          | inr ix =>
                              (log ++ [index_call W d full_query],
                               Ret (built W d q lq n ix))
                          end
                      | _, _ => (log, Raise TypeError)
                      end
                  end
              end).
  { intros d. rewrite init_Some.
    destruct (d !! "q") as [vq |]; [| reflexivity].
    destruct (int (default (PInt 10) (d !! "n"))) as [e | n]; [reflexivity |].
    destruct vq as [| b | z | q]; try reflexivity.
    destruct (default (PStr "") (d !! "lq")) as [| b | z | lq]; try reflexivity.
    cbv zeta. rewrite get_indexes_answer. unfold called.
    destruct (index_answer W d _); reflexivity. }
  assert (Hsimilar : forall d,
            SimilarPatentsRequest.__init__ W (Some d) log
            = match is_patent_number W (default PNone (d !! "pn")) with
              | inl e => (log ++ [CallUtils], Raise e)
              | inr false =>
                  (log ++ [CallUtils],
                   Raise (BadRequestError
                            "Request does not contain a valid patent number."))
              | inr true =>
                  (log ++ [CallUtils],
                   Ret (SimilarPatentsRequest.Build (Some d)
                          (default PNone (d !! "pn"))))
              end).
  { intros d.
    unfold SimilarPatentsRequest.__init__, APIRequest.__init__,
      SimilarPatentsRequest._validation_fn, py_get.
    unfold bind at 1 2 3. unfold ret at 1.
    destruct (is_patent_number W (default PNone (d !! "pn"))) as [e | [|]];
      reflexivity. }
  split.
  { intros data validation l l' e H.
    unfold APIRequest.__init__, bind. now rewrite H. }
  split.
  { intros data. split; [reflexivity |]. split; [reflexivity |].
    split; intros Hflag; unfold IncomingExtensionRequest.__init__;
      now rewrite Hflag. }
  split; [reflexivity |]. split; [exact Hsearch |].
  split.
  { intros d s [vq Hq] Hn Hint. rewrite Hsearch, Hq, Hn. simpl.
    now rewrite Hint. }
  split.
  { intros data log' msg. destruct data as [d |]; [| discriminate].
    rewrite Hsearch.
    destruct (d !! "q") as [vq |]; [| discriminate].
    destruct (int (default (PInt 10) (d !! "n"))) as [e | n] eqn:Hint.
    { intros [= _ ->].
      destruct (default (PInt 10) (d !! "n")) as [| b | z | s]; simpl in Hint;
        try discriminate.
      destruct (int_of_str s); discriminate. }
    destruct vq as [| b | z | q]; try discriminate.
    destruct (default (PStr "") (d !! "lq")) as [| b | z | lq];
      try discriminate.
    cbv zeta.
    destruct (index_answer W d (strip (q +:+ newline +:+ lq)))
      as [e | ix] eqn:Hix; [| discriminate].
    intros [= _ ->]. now exists d, (strip (q +:+ newline +:+ lq)). }
  split; [reflexivity |]. split; [exact Hsimilar |].
  split; [reflexivity |].
  split.
  { intros d pn. unfold PatentPriorArtRequest.__init__. unfold bind at 1.
    rewrite Hsimilar. fold pn.
    destruct (is_patent_number W pn) as [e | [|]]; try reflexivity.
    unfold called, bind. simpl.
    destruct (patent_filing_date W pn); simpl; rewrite <- app_assoc;
      reflexivity. }
  split; [reflexivity |].
  split.
  { intros d.
    unfold DocumentRequest.__init__, APIRequest.__init__,
      DocumentRequest._validation_fn, py_in, py_getitem, bind, ret.
    destruct (d !! "id"); reflexivity. }
  split; [split; reflexivity |].
  split.
  { intros d q pn. split; [reflexivity |]. split; [reflexivity |].
    unfold PassageRequest.__init__, APIRequest.__init__,
      PassageRequest._validation_fn, py_get, bind, ret, called.
    fold q pn.
    destruct (truthy q); simpl; [| reflexivity].
    destruct (truthy pn); simpl; [| reflexivity].
    destruct (Document W pn); reflexivity. }
  split; [reflexivity |].
  intros d.
  unfold DatasetSampleRequest.__init__, APIRequest.__init__,
    DatasetSampleRequest._validation_fn, py_in, bind, ret.
  destruct (d !! "dataset"); simpl; [| reflexivity].
  destruct (d !! "n"); reflexivity.
Qed.

Lemma construction_errors_reach_caller_unwrapped_witness :
  SearchRequest102.__init__ (demo_world true) (Some (demo_data (PStr "abc"))) []
  = ([], Raise ValueError)
  /\ SearchRequest103.__init__ (demo_world true) (Some (demo_data (PStr "abc"))) []
     = ([], Raise ValueError)
  /\ SearchRequest102.__init__ (demo_world true) None [] = ([], Raise TypeError)
  /\ SearchRequest102.__init__ (demo_world true)
       (Some (<["idx" := PInt 7]> (demo_data (PInt 5)))) []
     = ([CallIndexGet (PInt 7)], Raise (ExternalError "IndexNotFound")).
Proof.
  destruct (construction_errors_reach_caller_unwrapped (demo_world true) [])
    as (_ & Hkinds & Hnone & Hsearch & Hvalue & _).
  destruct (Hkinds (Some (demo_data (PStr "abc")))) as (H102 & H103 & _).
  assert (Habc : SearchRequest.__init__ (demo_world true)
                   (Some (demo_data (PStr "abc"))) [] = ([], Raise ValueError)).
  { apply (Hvalue (demo_data (PStr "abc")) "abc").
    - exists (PStr "brake"). reflexivity.
    - reflexivity.
    - reflexivity. }
  split; [now rewrite H102 |]. split; [now rewrite H103 |].
  split; [exact Hnone |].
  destruct (Hkinds (Some (<["idx" := PInt 7]> (demo_data (PInt 5)))))
    as (Hidx & _).
  rewrite Hidx, Hsearch. reflexivity.
Defined.

End ErrorClaims.

(** ** Prior art: the date bound *)

Section Filtering.
Import Filters.
Context (W : World).

(** A result that comes out of the filters went in and passes each. *)
Lemma apply_In (fs : FilterArray) : forall (rs : list (Result W)) (r : Result W),
  In r (apply W fs rs) ->
  In r rs /\ forall f, In f fs -> passes W f r = true.
Proof.
  unfold apply.
  induction fs as [| f fs IH]; intros rs r Hr; simpl in *.
  - split; [exact Hr | intros f []].
  - apply IH in Hr as [Hr Hfs]. apply List.filter_In in Hr as [Hr Hf].
    split; [exact Hr |]. intros f' [<- | Hin]; [exact Hf | now apply Hfs].
Qed.

(** A non-empty ['before'] becomes the upper bound of the date filter. *)
Lemma filters_of_before (d : dict) (before : pyval) :
  d !! "before" = Some before -> truthy before = true ->
  exists after, In (PublicationDateFilter after before) (filters_of d).
Proof.
  intros Hb Ht. unfold filters_of, date_filter_of. rewrite Hb. simpl.
  rewrite Ht, orb_true_r. eexists. apply in_or_app. left. now left.
Qed.

Lemma passes_before (after before : pyval) (r : Result W) :
  truthy before = true ->
  passes W (PublicationDateFilter after before) r = true ->
  date_le W (result_publication_date W r) before = true.
Proof.
  intros Ht H. simpl in H. apply andb_true_iff in H as [_ H].
  destruct before; [discriminate | exact H ..].
Qed.

End Filtering.

Section PriorArtClaims.
Import SimilarPatentsRequest PatentPriorArtRequest.

(** C7, as the code has it.  For every prior-art request that was
    built: its [_before] is the filing date the patent store gives for
    its patent; the parameters it searches with have ['before'] set to it,
    whatever the caller supplied there; these are the parameters of the
    single-reference request [_serving_fn] builds and serves.  Where that
    filing date is a non-empty value, the filters of the request carry a
    date filter with it as upper bound, and every result the filters let
    through was published on or before it.  Where the patent store gives
    an empty value ([None], the empty string), the request has no upper
    date bound at all: no date filter of its filters carries one. *)
Theorem prior_art_bounded_by_filing_date
    (W : World) (data : option dict) (log0 log1 : list call)
    (self : PatentPriorArtRequest.t) (fuel : nat) (log log' : list call)
    (search_request : dict) :
  PatentPriorArtRequest.__init__ W data log0 = (log1, Ret self) ->
  _search_request W self log = (log', Ret search_request) ->
  patent_filing_date W (_pn (base self)) = inr (_before self)
  /\ search_request !! "before" = Some (_before self)
  /\ PatentPriorArtRequest._serving_fn W fuel self log
     = (req <- SearchRequest102.__init__ W (Some search_request) ;;
        SearchRequest102.serve fuel req) log'
  /\ (truthy (_before self) = true ->
      forall l l' req,
        SearchRequest102.__init__ W (Some search_request) l = (l', Ret req) ->
        (exists after,
           In (Filters.PublicationDateFilter after (_before self))
             (SearchRequest._filters req))
        /\ forall rs r,
             In r (Filters.apply W (SearchRequest._filters req) rs) ->
             In r rs
             /\ date_le W (result_publication_date W r) (_before self) = true)
  /\ (truthy (_before self) = false ->
      forall l l' req,
        SearchRequest102.__init__ W (Some search_request) l = (l', Ret req) ->
        forall after before,
          In (Filters.PublicationDateFilter after before)
            (SearchRequest._filters req) ->
          before = PNone).
Proof.
  intros Hinit Hsearch.
  assert (Hdate : patent_filing_date W (_pn (base self)) = inr (_before self)).
  { unfold PatentPriorArtRequest.__init__, bind in Hinit.
    destruct (SimilarPatentsRequest.__init__ W data log0)
      as [l [similar | e |]]; try discriminate.
    unfold called in Hinit.
    destruct (patent_filing_date W (_pn similar)) as [e | before] eqn:Hf;
      simpl in Hinit; [discriminate |].
    injection Hinit as _ <-. exact Hf. }
  assert (Hbefore : search_request !! "before" = Some (_before self)).
  { unfold _search_request, bind in Hsearch.
    destruct (_create_text_query_request W (base self) log)
      as [l [sr | e |]]; try discriminate.
    injection Hsearch as _ <-. apply lookup_insert_eq. }
  split; [exact Hdate |]. split; [exact Hbefore |]. split.
  { unfold PatentPriorArtRequest._serving_fn, bind at 1. now rewrite Hsearch. }
  split.
  - intros Htruthy l l' req Hreq.
    unfold SearchRequest102.__init__ in Hreq.
    apply init_Ret in Hreq as (d & q & lq & n & ix & [= <-] & _ & _ & _ & _ & ->).
    simpl SearchRequest._filters.
    destruct (filters_of_before search_request (_before self) Hbefore Htruthy)
      as [after Hin].
    split; [exists after; exact Hin |].
    intros rs r Hr. apply apply_In in Hr as [Hr Hpass].
    split; [exact Hr |].
    apply (passes_before W after); [exact Htruthy | now apply Hpass].
  - intros Hfalsy l l' req Hreq after before Hin.
    unfold SearchRequest102.__init__ in Hreq.
    apply init_Ret in Hreq as (d & q & lq & n & ix & [= <-] & _ & _ & _ & _ & ->).
    simpl SearchRequest._filters in Hin.
    unfold filters_of, date_filter_of, doctype_filter_of in Hin.
    rewrite Hbefore in Hin. simpl in Hin. rewrite Hfalsy in Hin.
    rewrite orb_false_r in Hin.
    apply in_app_or in Hin as [Hin | Hin].
    + destruct (truthy (default PNone (search_request !! "after")));
        simpl in Hin; [| contradiction].
      destruct Hin as [[= _ <-] | []]. reflexivity.
    + destruct (truthy (default PNone (search_request !! "type")));
        simpl in Hin; [| contradiction].
      destruct Hin as [Hin | []]. discriminate Hin.
Qed.

Lemma prior_art_bounded_by_filing_date_witness :
  PatentPriorArtRequest.__init__ (demo_world true) (Some demo_prior_art_data) []
  = ([CallUtils; CallPatent (PStr "US1234567B2")], Ret demo_prior_art_request)
  /\ demo_prior_art_data !! "before" = Some (PStr "2030-01-01")
  /\ demo_prior_art_search !! "before" = Some (PStr "2015-06-01")
  /\ exists req l',
       SearchRequest102.__init__ (demo_world true) (Some demo_prior_art_search) []
       = (l', Ret req)
       /\ Filters.apply (demo_world true) (SearchRequest._filters req)
            [0; 1; 2; 3; 4] = [0; 2; 4]
       /\ forall r,
            In r (Filters.apply (demo_world true) (SearchRequest._filters req)
                    [0; 1; 2; 3; 4]) ->
            date_le (demo_world true)
              (result_publication_date (demo_world true) r)
              (PStr "2015-06-01") = true.
Proof.
  assert (Hinit : PatentPriorArtRequest.__init__ (demo_world true)
                    (Some demo_prior_art_data) []
                  = ([CallUtils; CallPatent (PStr "US1234567B2")],
                     Ret demo_prior_art_request)) by reflexivity.
  assert (Hsearch : _search_request (demo_world true) demo_prior_art_request []
                    = ([CallPatent (PStr "US1234567B2"); CallUtils],
                       Ret demo_prior_art_search)) by reflexivity.
  destruct (prior_art_bounded_by_filing_date (demo_world true) _ _ _ _ 9 _ _ _
              Hinit Hsearch) as (_ & Hbefore & _ & Hfilter & _).
  split; [exact Hinit |]. split; [reflexivity |]. split; [exact Hbefore |].
  eexists. eexists. split; [reflexivity |]. split; [reflexivity |].
  intros r Hr.
  eapply (Hfilter eq_refl [] _ _ eq_refl). exact Hr.
Defined.

(** C7, as stated, fails: where the patent store has no filing date on
    record ([None]) for the patent, the prior-art request [{'pn':
    'US1234567B2', 'before': '2015-01-01'}] is built, the caller's
    ['before'] is overwritten with [None], the single-reference request it
    serves has no filter at all, and the response holds the results
    published in 2020, which no date bounds -- neither the filing date nor
    the date the caller gave. *)
Lemma prior_art_unbounded_counterexample :
  PatentPriorArtRequest.__init__ demo_world_undated (Some demo_undated_data) []
  = ([CallUtils; CallPatent (PStr "US1234567B2")], Ret demo_undated_request)
  /\ _before demo_undated_request = PNone
  /\ (exists search_request req l1 l2,
        _search_request demo_world_undated demo_undated_request []
        = (l1, Ret search_request)
        /\ search_request !! "before" = Some PNone
        /\ SearchRequest102.__init__ demo_world_undated (Some search_request) l1
           = (l2, Ret req)
        /\ SearchRequest._filters req = [])
  /\ snd (PatentPriorArtRequest.serve demo_world_undated 9
            demo_undated_request [])
     = Ret {| results := [0; 1; 2; 3; 4; 5; 6; 7; 8; 9];
              query := PStr "US1234567B2"; latent_query := PStr "" |}
  /\ result_publication_date demo_world_undated 1 = PStr "2020-01-01"
  /\ date_le demo_world_undated (result_publication_date demo_world_undated 1)
       (_before demo_undated_request) = false
  /\ date_le demo_world_undated (result_publication_date demo_world_undated 1)
       (PStr "2015-01-01") = false.
Proof.
  split; [reflexivity |]. split; [reflexivity |].
  split.
  { eexists. eexists. eexists. eexists.
    split; [reflexivity |]. split; [reflexivity |].
    split; reflexivity. }
  split; [vm_compute; reflexivity |].
  repeat split; reflexivity.
Qed.

End PriorArtClaims.

(** * Further properties of the code *)

(** ** Ending and silence of the building blocks *)

Section Ends.

Lemma ends_ret {A} (a : A) : ends (ret a).
Proof. intros log. discriminate. Qed.

Lemma ends_raise {A} (e : exn) : ends (@raise A e).
Proof. intros log. discriminate. Qed.

Lemma ends_lift {A} (r : exn + A) : ends (lift r).
Proof. destruct r; intros log; discriminate. Qed.

Lemma ends_called {A} (c : call) (r : exn + A) : ends (called c r).
Proof. intros log. unfold called. apply ends_lift. Qed.

(** The continuation need only end on what the first part returns. *)
Lemma ends_bind_after {A B} (m : M A) (k : A -> M B) :
  ends m ->
  (forall log log' a, m log = (log', Ret a) -> snd (k a log') <> Diverge) ->
  ends (bind m k).
Proof.
  intros Hm Hk log. unfold bind. specialize (Hm log). specialize (Hk log).
  destruct (m log) as [log' [a | e |]]; simpl in *;
    [now apply (Hk log' a) | discriminate | contradiction].
Qed.

Lemma ends_bind {A B} (m : M A) (k : A -> M B) :
  ends m -> (forall a, ends (k a)) -> ends (bind m k).
Proof. intros Hm Hk. apply ends_bind_after; [exact Hm |]. intros; apply Hk. Qed.

Lemma ends_try {A} (m : M A) (e : exn) : ends m -> ends (try_except_raise m e).
Proof.
  intros Hm log. unfold try_except_raise. specialize (Hm log).
  destruct (m log) as [log' [a | e' |]]; simpl in *;
    [discriminate | discriminate | contradiction].
Qed.

Lemma ends_mapM {A B} (f : A -> M B) (l : list A) :
  (forall a, ends (f a)) -> ends (mapM f l).
Proof.
  intros Hf. induction l as [| x l IH]; simpl.
  - apply ends_ret.
  - apply ends_bind; [apply Hf |]. intros y.
    apply ends_bind; [apply IH |]. intros ys. apply ends_ret.
Qed.

Lemma ends_py_index {A} (l : list A) (i : Z) : ends (py_index l i).
Proof.
  unfold py_index. destruct (Py.index l i); [apply ends_ret | apply ends_raise].
Qed.

Lemma silent_ret {A} P (a : A) : silent P (ret a).
Proof. now intros log. Qed.

Lemma silent_raise {A} P (e : exn) : silent P (@raise A e).
Proof. now intros log. Qed.

Lemma silent_lift {A} P (r : exn + A) : silent P (lift r).
Proof. now destruct r; intros log. Qed.

Lemma silent_called {A} P (c : call) (r : exn + A) :
  P c = false -> silent P (called c r).
Proof.
  intros Hc log. unfold called. rewrite (silent_lift P r).
  rewrite List.filter_app. simpl. rewrite Hc. apply app_nil_r.
Qed.

Lemma silent_bind {A B} P (m : M A) (k : A -> M B) :
  silent P m -> (forall a, silent P (k a)) -> silent P (bind m k).
Proof.
  intros Hm Hk log. unfold bind. specialize (Hm log).
  destruct (m log) as [log' [a | e |]]; simpl in *; try assumption.
  now rewrite Hk.
Qed.

Lemma silent_try {A} P (m : M A) (e : exn) :
  silent P m -> silent P (try_except_raise m e).
Proof.
  intros Hm log. unfold try_except_raise. specialize (Hm log).
  now destruct (m log) as [log' [a | e' |]].
Qed.

Lemma silent_mapM {A B} P (f : A -> M B) (l : list A) :
  (forall a, silent P (f a)) -> silent P (mapM f l).
Proof.
  intros Hf. induction l as [| x l IH]; simpl.
  - apply silent_ret.
  - apply silent_bind; [apply Hf |]. intros y.
    apply silent_bind; [apply IH |]. intros ys. apply silent_ret.
Qed.

Lemma silent_py_index {A} P (l : list A) (i : Z) : silent P (py_index l i).
Proof.
  unfold py_index.
  destruct (Py.index l i); [apply silent_ret | apply silent_raise].
Qed.

(** What a list comprehension returns is as long as what it ran over. *)
Lemma mapM_length {A B} (f : A -> M B) (l : list A) : forall log log' out,
  mapM f l log = (log', Ret out) -> List.length out = List.length l.
Proof.
  induction l as [| x l IH]; intros log log' out H; simpl in H.
  - now injection H as _ <-.
  - unfold bind at 1 in H.
    destruct (f x log) as [l1 [y | e |]]; try discriminate.
    unfold bind at 1 in H.
    destruct (mapM f l l1) as [l2 [ys | e |]] eqn:Hrest; try discriminate.
    injection H as _ <-. simpl. f_equal. now apply (IH l1 l2).
Qed.

(** Each element of [[l[i] for i in ranks]] is an element of [l]. *)
Lemma mapM_py_index_In {A} (l : list A) (ranks : list Z) : forall log log' out,
  mapM (fun i => py_index l i) ranks log = (log', Ret out) ->
  forall x, In x out -> In x l.
Proof.
  induction ranks as [| i ranks IH]; intros log log' out H x Hx; simpl in H.
  - injection H as _ <-. destruct Hx.
  - unfold bind at 1 in H. unfold py_index at 1 in H.
    destruct (Py.index l i) as [y |] eqn:Hi; [| discriminate].
    unfold ret at 1 in H. unfold bind at 1 in H.
    destruct (mapM _ ranks log) as [l2 [ys | e |]] eqn:Hrest; try discriminate.
    injection H as _ <-. destruct Hx as [<- | Hx].
    + unfold Py.index in Hi.
      destruct (_ && _); [| destruct (_ && _); [| discriminate]];
        apply list_elem_of_In; eapply list_elem_of_lookup_2; exact Hi.
    + eapply IH; [exact Hrest | exact Hx].
Qed.

End Ends.

Ltac ends_solve :=
  repeat first
    [ apply ends_ret | apply ends_raise | apply ends_lift | apply ends_py_index
    | apply ends_called | apply ends_try
    | apply ends_mapM; intros ?
    | apply ends_bind; [| intros ?]
    | match goal with
      | |- ends (if ?b then _ else _) => destruct b
      | |- ends (match ?x with _ => _ end) => destruct x
      end ].

Ltac silent_solve :=
  repeat first
    [ apply silent_ret | apply silent_raise | apply silent_lift
    | apply silent_py_index
    | apply silent_called; reflexivity
    | apply silent_try
    | apply silent_mapM; intros ?
    | apply silent_bind; [| intros ?]
    | match goal with
      | |- silent _ (if ?b then _ else _) => destruct b
      | |- silent _ (match ?x with _ => _ end) => destruct x
      end ].

(** ** More on the retrieval loop *)

Section RetrievalMore.
Import SearchRequest SearchRequest102.
Context {W : World}.
Implicit Types (self : SearchRequest.t W) (qvec : Vector W)
  (results : list (Result W)) (log : list call).

Lemma searches_app (l1 l2 : list call) :
  searches (l1 ++ l2) = searches l1 ++ searches l2.
Proof.
  induction l1 as [| c l1 IH]; simpl; [reflexivity |].
  destruct c; simpl; now rewrite IH.
Qed.

Lemma doubling_lookup (k : nat) : forall (m : Z) (i : nat),
  (i < k)%nat -> doubling m k !! i = Some (m * 2 ^ Z.of_nat i).
Proof.
  induction k as [| k IH]; intros m i Hi; [lia |].
  destruct i as [| i]; simpl.
  - f_equal. lia.
  - rewrite IH by lia. f_equal.
    rewrite Nat2Z.inj_succ, Z.pow_succ_r by lia. lia.
Qed.

(** More fuel changes nothing once the loop ends. *)
Lemma loop_fuel_S fuel self qvec n : forall m results log,
  snd (_get_results_loop fuel self qvec n m results log) <> Diverge ->
  _get_results_loop (S fuel) self qvec n m results log
  = _get_results_loop fuel self qvec n m results log.
Proof.
  induction fuel as [| fuel IH]; intros m results log Hend.
  - destruct ((Z.of_nat (List.length results) <? n) && (m <? MAX_RES_LIMIT self))
      eqn:Htest.
    + simpl in Hend. rewrite Htest in Hend. now contradiction Hend.
    + now rewrite !loop_exit by assumption.
  - destruct ((Z.of_nat (List.length results) <? n) && (m <? MAX_RES_LIMIT self))
      eqn:Htest.
    + rewrite (loop_round (S fuel)), (loop_round fuel) by assumption.
      rewrite loop_round in Hend by assumption.
      destruct (vector_search W qvec (_indexes self) m) as [e | found].
      * reflexivity.
      * rewrite !bind_called_inr in *. now apply IH.
    + now rewrite !loop_exit by assumption.
Qed.

Lemma loop_fuel_le fuel fuel' self qvec n m results log :
  (fuel <= fuel')%nat ->
  snd (_get_results_loop fuel self qvec n m results log) <> Diverge ->
  _get_results_loop fuel' self qvec n m results log
  = _get_results_loop fuel self qvec n m results log.
Proof.
  intros Hle Hend. induction Hle as [| fuel' Hle IH]; [reflexivity |].
  rewrite loop_fuel_S; [exact IH |]. now rewrite IH.
Qed.

(** The sizes the loop asks for: [m], [2 m], ..., one per round, each
    below the ceiling; after the first, only with [n] positive. *)
Lemma loop_searches fuel self qvec n : forall m results log,
  exists k,
    (k <= fuel)%nat
    /\ searches (fst (_get_results_loop fuel self qvec n m results log))
       = searches log ++ doubling m k
    /\ search_rounds (fst (_get_results_loop fuel self qvec n m results log))
       = (search_rounds log + k)%nat
    /\ Forall (fun x => x < MAX_RES_LIMIT self) (doubling m k)
    /\ (k <> O -> 0 < n).
Proof.
  induction fuel as [| fuel IH]; intros m results log.
  - exists O. simpl. destruct (_ && _); simpl; rewrite app_nil_r;
      repeat split; auto; lia.
  - destruct ((Z.of_nat (List.length results) <? n) && (m <? MAX_RES_LIMIT self))
      eqn:Htest.
    + rewrite loop_round by assumption.
      apply andb_true_iff in Htest as [Hlen Hm].
      apply Z.ltb_lt in Hlen, Hm.
      destruct (vector_search W qvec (_indexes self) m) as [e | found].
      * rewrite bind_called_inl. exists 1%nat. simpl.
        rewrite searches_app, search_rounds_snoc. simpl.
        repeat split; auto; try lia.
      * rewrite bind_called_inr.
        destruct (IH (m * 2) (Filters.apply W (_filters self) found)
                    (log ++ [CallVectorSearch m]))
          as (k & Hk & Hs & Hr & Hall & _).
        exists (S k). rewrite Hs, Hr, searches_app, search_rounds_snoc. simpl.
        rewrite <- app_assoc. simpl.
        repeat split; auto; try lia.
    + rewrite loop_exit by assumption. exists O. simpl. rewrite app_nil_r.
      repeat split; auto; lia.
Qed.

(** What the loop returns is what it was given, or the filtered answer of
    one of its searches. *)
Lemma loop_result fuel self qvec n : forall m results log log' out,
  _get_results_loop fuel self qvec n m results log = (log', Ret out) ->
  out = results
  \/ exists m' found,
       vector_search W qvec (_indexes self) m' = inr found
       /\ out = Filters.apply W (_filters self) found.
Proof.
  induction fuel as [| fuel IH]; intros m results log log' out H.
  - simpl in H. destruct (_ && _); [discriminate |].
    injection H as _ <-. now left.
  - destruct ((Z.of_nat (List.length results) <? n) && (m <? MAX_RES_LIMIT self))
      eqn:Htest.
    + rewrite loop_round in H by assumption.
      destruct (vector_search W qvec (_indexes self) m) as [e | found] eqn:Hs.
      * rewrite bind_called_inl in H. discriminate.
      * rewrite bind_called_inr in H. apply IH in H as [-> | H].
        -- right. now exists m, found.
        -- now right.
    + rewrite loop_exit in H by assumption. injection H as _ <-. now left.
Qed.

Lemma rerank_In self results log log' out :
  _rerank self results log = (log', Ret out) ->
  forall r, In r out -> In r results.
Proof.
  unfold _rerank. destruct (negb (reranker_active W)).
  - intros [= _ <-]. auto.
  - unfold bind at 1.
    destruct (mapM _ results log) as [l1 [texts | e |]]; try discriminate.
    unfold bind at 1.
    destruct (called CallRerank _ l1) as [l2 [ranks | e |]]; try discriminate.
    apply mapM_py_index_In.
Qed.

Lemma ends_rerank self results : ends (_rerank self results).
Proof. unfold _rerank. ends_solve. Qed.

Lemma ends_formatting self results : ends (_formatting_fn self results).
Proof.
  unfold _formatting_fn, _add_snippet_if_needed, _add_mapping_if_needed,
    _add_remote_results_to.
  ends_solve.
Qed.

Lemma ends_serve fuel self :
  MAX_RES_LIMIT self = 500 -> (9 <= fuel)%nat -> ends (serve fuel self).
Proof.
  intros Hmax Hfuel. unfold serve, APIRequest.serve, _serving_fn, _searching_fn.
  apply ends_try. apply ends_bind; [| intros ?; apply ends_formatting].
  apply ends_bind; [intros log; now apply get_results_terminates |].
  intros results. apply ends_bind; [apply ends_rerank | intros ?; apply ends_ret].
Qed.

Lemma slice_to_In {A} (l : list A) (n : Z) (x : A) :
  In x (slice_to l n) -> In x l.
Proof.
  unfold slice_to. destruct (0 <=? n); intros H;
    apply list_elem_of_In in H; apply list_elem_of_In;
    eapply subseteq_take; exact H.
Qed.

Lemma slice_to_length {A} (l : list A) (n : Z) :
  0 <= n -> Z.of_nat (List.length (slice_to l n)) <= n.
Proof.
  intros Hn. unfold slice_to.
  destruct (0 <=? n) eqn:H; [| apply Z.leb_gt in H; lia].
  rewrite length_take. lia.
Qed.

End RetrievalMore.

Section RetrievalExtras.
Import SearchRequest SearchRequest102.

Lemma doubling_positive (k : nat) : forall m,
  0 < m -> Forall (fun x => 0 < x) (doubling m k).
Proof.
  induction k as [| k IH]; intros m Hm; simpl; constructor;
    [exact Hm | apply IH; lia].
Qed.

Lemma loop_grows {W} fuel (self : t W) qvec n : forall m results log,
  exists rest,
    fst (_get_results_loop fuel self qvec n m results log) = log ++ rest.
Proof.
  induction fuel as [| fuel IH]; intros m results log.
  - exists []. simpl. destruct (_ && _); simpl; now rewrite app_nil_r.
  - destruct ((Z.of_nat (List.length results) <? n) && (m <? MAX_RES_LIMIT self))
      eqn:Htest.
    + rewrite loop_round by assumption.
      destruct (vector_search W qvec (_indexes self) m) as [e | found].
      * rewrite bind_called_inl. now exists [CallVectorSearch m].
      * rewrite bind_called_inr.
        destruct (IH (m * 2) (Filters.apply W (_filters self) found)
                    (log ++ [CallVectorSearch m])) as [rest ->].
        exists (CallVectorSearch m :: rest). now rewrite <- app_assoc.
    + rewrite loop_exit by assumption. exists []. simpl. now rewrite app_nil_r.
Qed.

Lemma silent_loop {W} P fuel (self : t W) qvec n : forall m results,
  (forall m', P (CallVectorSearch m') = false) ->
  silent P (_get_results_loop fuel self qvec n m results).
Proof.
  induction fuel as [| fuel IH]; intros m results HP; simpl.
  - destruct (_ && _); intros log; reflexivity.
  - destruct (_ && _); [| apply silent_ret].
    apply silent_bind; [apply silent_called, HP |]. intros found. now apply IH.
Qed.

(** X1. The retrieval of a request that was built ends: with nine rounds
    of fuel or more [_get_results] returns or raises, gives what it gives
    with exactly nine, and has asked the vector search at most nine times
    (1, 2, 4, ..., 256 are the sizes below 500 that [n] = 1 runs through). *)
Theorem retrieval_ends_within_nine_rounds
    (W : World) (data : option dict) (log0 log1 : list call)
    (self : SearchRequest.t W) (fuel : nat) (log : list call) :
  __init__ W data log0 = (log1, Ret self) ->
  (9 <= fuel)%nat ->
  snd (_get_results fuel self log) <> Diverge
  /\ _get_results fuel self log = _get_results 9 self log
  /\ (search_rounds (fst (_get_results fuel self log))
      <= search_rounds log + 9)%nat.
Proof.
  intros Hinit Hfuel.
  assert (Hmax : MAX_RES_LIMIT self = 500).
  { apply init_Ret in Hinit as (d & q & lq & n & ix & _ & _ & _ & _ & _ & ->).
    reflexivity. }
  assert (Hnine : snd (_get_results 9 self log) <> Diverge)
    by (apply get_results_terminates; [exact Hmax | lia]).
  assert (Hsame : _get_results fuel self log = _get_results 9 self log).
  { unfold _get_results in *.
    destruct (vectorize_text W (_full_query self)) as [e | qvec];
      [reflexivity |].
    rewrite !bind_called_inr in *. now apply loop_fuel_le. }
  rewrite Hsame. split; [exact Hnine |]. split; [reflexivity |].
  unfold _get_results.
  destruct (vectorize_text W (_full_query self)) as [e | qvec].
  - rewrite bind_called_inl. simpl. rewrite search_rounds_snoc. simpl. lia.
  - rewrite bind_called_inr.
    destruct (loop_searches 9 self qvec (_n_results self) (_n_results self) []
                (log ++ [CallVectorize (_full_query self)]))
      as (k & Hk & _ & Hr & _).
    rewrite Hr, search_rounds_snoc. simpl. lia.
Qed.

Lemma retrieval_ends_within_nine_rounds_witness :
  _get_results 20 demo_paper_request [] = _get_results 9 demo_paper_request []
  /\ searches (fst (_get_results 9 demo_paper_request []))
     = [1; 2; 4; 8; 16; 32; 64; 128; 256]
  /\ snd (_get_results 9 demo_paper_request []) = Ret []
  /\ snd (_get_results 8 demo_paper_request []) = Diverge.
Proof.
  assert (Hinit : __init__ (demo_world true)
                    (Some (<["type" := PStr "paper"]> (demo_data (PInt 1)))) []
                  = ([CallSelectIndexes "brake" 3], Ret demo_paper_request))
    by reflexivity.
  destruct (retrieval_ends_within_nine_rounds (demo_world true) _ _ _ _
              20 [] Hinit) as (_ & Hsame & _); [lia |].
  split; [exact Hsame |]. repeat split; reflexivity.
Defined.

(** X2. Whatever the request and however the collaborators answer, the
    sizes [_get_results] asks of the vector search are [n], [2 n],
    [4 n], ... in this order, one per round, and each is positive and
    below [MAX_RES_LIMIT]. *)
Theorem search_sizes_double_below_ceiling
    (W : World) (fuel : nat) (self : SearchRequest.t W) (log : list call) :
  exists k,
    (k <= fuel)%nat
    /\ searches (fst (_get_results fuel self log))
       = searches log ++ doubling (_n_results self) k
    /\ search_rounds (fst (_get_results fuel self log))
       = (search_rounds log + k)%nat
    /\ Forall (fun m => 0 < m < MAX_RES_LIMIT self)
         (doubling (_n_results self) k).
Proof.
  unfold _get_results.
  destruct (vectorize_text W (_full_query self)) as [e | qvec].
  - exists O. rewrite bind_called_inl. simpl.
    rewrite searches_app, search_rounds_snoc. simpl. rewrite !app_nil_r.
    repeat split; auto; lia.
  - rewrite bind_called_inr.
    destruct (loop_searches fuel self qvec (_n_results self) (_n_results self)
                [] (log ++ [CallVectorize (_full_query self)]))
      as (k & Hk & Hs & Hr & Hall & Hpos).
    exists k. rewrite Hs, Hr, searches_app, search_rounds_snoc. simpl.
    rewrite app_nil_r. repeat split; auto; try lia.
    destruct k as [| k]; [constructor |].
    assert (Hn : 0 < _n_results self) by (apply Hpos; discriminate).
    pose proof (doubling_positive (S k) _ Hn) as Hp.
    rewrite Forall_forall in *. intros x Hx. split; auto.
Qed.

(** X3. For a request with [0 < n < MAX_RES_LIMIT] whose query was
    vectorised, the first thing [_get_results] does after vectorising is
    to ask the vector search for exactly [n] results. *)
Theorem first_round_asks_for_n
    (W : World) (fuel : nat) (self : SearchRequest.t W) (log : list call)
    (qvec : Vector W) :
  vectorize_text W (_full_query self) = inr qvec ->
  0 < _n_results self < MAX_RES_LIMIT self ->
  exists rest,
    fst (_get_results (S fuel) self log)
    = log ++ CallVectorize (_full_query self)
          :: CallVectorSearch (_n_results self) :: rest.
Proof.
  intros Hvec Hn. unfold _get_results. rewrite Hvec, bind_called_inr.
  rewrite loop_round
    by (apply andb_true_iff; split; apply Z.ltb_lt; simpl; lia).
  destruct (vector_search W qvec (_indexes self) (_n_results self))
    as [e | found].
  - rewrite bind_called_inl. exists []. simpl. now rewrite <- app_assoc.
  - rewrite bind_called_inr.
    destruct (loop_grows fuel self qvec (_n_results self)
                (_n_results self * 2) (Filters.apply W (_filters self) found)
                ((log ++ [CallVectorize (_full_query self)])
                   ++ [CallVectorSearch (_n_results self)])) as [rest ->].
    exists rest. now rewrite <- !app_assoc.
Qed.

Lemma first_round_asks_for_n_witness :
  exists rest,
    fst (_get_results 9 (demo_request 5) [])
    = [] ++ CallVectorize "brake" :: CallVectorSearch 5 :: rest.
Proof.
  apply (first_round_asks_for_n (demo_world true) 8 (demo_request 5) [] "brake").
  - reflexivity.
  - simpl. lia.
Defined.

(** [_searching_fn] taken apart: retrieval, reranking, truncation. *)
Lemma searching_fn_Ret {W} fuel (self : t W) log log' out :
  _searching_fn fuel self log = (log', Ret out) ->
  exists l1 found ranked,
    _get_results fuel self log = (l1, Ret found)
    /\ _rerank self found l1 = (log', Ret ranked)
    /\ out = slice_to ranked (_n_results self).
Proof.
  unfold _searching_fn. unfold bind at 1.
  destruct (_get_results fuel self log) as [l1 [found | e |]];
    try discriminate.
  unfold bind at 1.
  destruct (_rerank self found l1) as [l2 [ranked | e |]] eqn:Hrank;
    try discriminate.
  intros [= <- <-]. now exists l1, found, ranked.
Qed.

Lemma ranked_slice_length {W} fuel (self : t W) log l1 l2 found ranked :
  _get_results fuel self log = (l1, Ret found) ->
  _rerank self found l1 = (l2, Ret ranked) ->
  Z.of_nat (List.length (slice_to ranked (_n_results self)))
  <= Z.max 0 (_n_results self).
Proof.
  intros Hget Hrank.
  destruct (Z.le_gt_cases 0 (_n_results self)) as [Hn | Hn].
  - pose proof (slice_to_length ranked _ Hn). lia.
  - assert (found = []) as ->.
    { rewrite get_results_skip in Hget by lia. unfold bind, called in Hget.
      destruct (vectorize_text W (_full_query self)); simpl in Hget;
        [discriminate | now injection Hget as _ <-]. }
    assert (ranked = []) as ->.
    { destruct ranked as [| r ranked]; [reflexivity |].
      destruct (rerank_In self [] l1 l2 (r :: ranked) Hrank r). now left. }
    unfold slice_to.
    destruct (0 <=? _n_results self); rewrite take_nil; simpl; lia.
Qed.

(** X4. [_searching_fn] never returns more than [n] results: at most [n]
    for [n >= 0], none for a negative [n]. *)
Theorem searching_returns_at_most_n
    (W : World) (fuel : nat) (self : SearchRequest.t W)
    (log log' : list call) (out : list (Result W)) :
  _searching_fn fuel self log = (log', Ret out) ->
  Z.of_nat (List.length out) <= Z.max 0 (_n_results self).
Proof.
  intros Hsearch.
  apply searching_fn_Ret in Hsearch as (l1 & found & ranked & Hget & Hrank & ->).
  eapply ranked_slice_length; [exact Hget | exact Hrank].
Qed.

Lemma searching_returns_at_most_n_witness :
  _searching_fn 9 (demo_request 5) []
  = ([CallVectorize "brake"; CallVectorSearch 5], Ret [0; 1; 2; 3; 4])
  /\ Z.of_nat (List.length [0; 1; 2; 3; 4]) <= Z.max 0 5.
Proof.
  split; [reflexivity |].
  apply (searching_returns_at_most_n (demo_world true) 9 (demo_request 5) []
           [CallVectorize "brake"; CallVectorSearch 5] [0; 1; 2; 3; 4]).
  reflexivity.
Defined.

(** X5. Every result [_searching_fn] returns was found by one call of the
    vector search on the request's query vector and index scope, and came
    through the request's filters (here as the spec describes them):
    reranking and truncation add nothing. *)
Theorem results_come_filtered_from_a_search
    (W : World) (fuel : nat) (self : SearchRequest.t W)
    (log log' : list call) (out : list (Result W)) (r : Result W) :
  _searching_fn fuel self log = (log', Ret out) ->
  In r out ->
  exists qvec m found,
    vectorize_text W (_full_query self) = inr qvec
    /\ vector_search W qvec (_indexes self) m = inr found
    /\ In r (Filters.apply W (_filters self) found)
    /\ In r found
    /\ forall f, In f (_filters self) -> Filters.passes W f r = true.
Proof.
  unfold _searching_fn. unfold bind at 1.
  destruct (_get_results fuel self log) as [l1 [found | e |]] eqn:Hget;
    try discriminate.
  unfold bind at 1.
  destruct (_rerank self found l1) as [l2 [ranked | e |]] eqn:Hrank;
    try discriminate.
  intros [= _ <-] Hr.
  apply slice_to_In in Hr. apply (rerank_In _ _ _ _ _ Hrank) in Hr.
  unfold _get_results in Hget.
  destruct (vectorize_text W (_full_query self)) as [e | qvec] eqn:Hvec.
  - rewrite bind_called_inl in Hget. discriminate.
  - rewrite bind_called_inr in Hget.
    apply loop_result in Hget as [-> | (m & answer & Hs & ->)]; [destruct Hr |].
    exists qvec, m, answer. split; [reflexivity |]. split; [exact Hs |].
    split; [exact Hr |]. apply apply_In in Hr as [Hin Hpass]. now split.
Qed.

Lemma results_come_filtered_from_a_search_witness :
  exists qvec m found,
    vectorize_text (demo_world true) "brake" = inr qvec
    /\ vector_search (demo_world true) qvec ["A01B"; "B60T"; "G06F"] m
       = inr found
    /\ In 3 found.
Proof.
  destruct (results_come_filtered_from_a_search (demo_world true) 9
              (demo_request 5) [] [CallVectorize "brake"; CallVectorSearch 5]
              [0; 1; 2; 3; 4] 3 eq_refl)
    as (qvec & m & found & Hvec & Hs & _ & Hin & _).
  - simpl. tauto.
  - exists qvec, m, found. repeat split; assumption.
Defined.

End RetrievalExtras.

(** ** Serving a single-reference search *)

Section ServeExtras.
Import SearchRequest SearchRequest102.

(** X6. The response of a single-reference search echoes the request's
    query and latent query.  With outgoing extension requests disabled it
    holds the local results only: at most [n] of them, and no call to a
    peer was made. *)
Theorem response_of_single_reference_search
    (W : World) (fuel : nat) (self : SearchRequest.t W)
    (log log' : list call) (response : Response (list (Json W))) :
  serve fuel self log = (log', Ret response) ->
  query response = _query self
  /\ latent_query response = _latent_query self
  /\ (allow_outgoing_extension_requests W = false ->
      Z.of_nat (List.length (results response)) <= Z.max 0 (_n_results self)
      /\ List.filter is_remote log' = List.filter is_remote log).
Proof.
  intros Hserve.
  assert (Hremote : allow_outgoing_extension_requests W = false ->
                    silent is_remote (serve fuel self)).
  { intros Hoff.
    unfold serve, APIRequest.serve, _serving_fn, _searching_fn, _get_results,
      _rerank, _formatting_fn, _add_snippet_if_needed, _add_mapping_if_needed,
      _add_remote_results_to.
    rewrite Hoff. simpl negb. cbv iota.
    apply silent_try. apply silent_bind; [| intros ?; silent_solve].
    apply silent_bind; [| intros ?; silent_solve].
    apply silent_bind; [silent_solve |]. intros qvec.
    now apply silent_loop. }
  unfold serve, APIRequest.serve, try_except_raise in Hserve.
  unfold bind at 1 in Hserve.
  destruct (_serving_fn fuel self log) as [l1 [found | e |]] eqn:Hfound;
    try discriminate.
  unfold _formatting_fn in Hserve. unfold bind at 1 in Hserve.
  destruct (mapM _ found l1) as [l2 [enriched | e |]] eqn:Henriched;
    try discriminate.
  unfold bind at 1 in Hserve.
  destruct (mapM _ enriched l2) as [l3 [jsons | e |]] eqn:Hjsons;
    try discriminate.
  unfold bind at 1 in Hserve.
  destruct (_add_remote_results_to self jsons l3) as [l4 [merged | e |]]
    eqn:Hmerged; try discriminate.
  injection Hserve as <- <-. simpl.
  split; [reflexivity |]. split; [reflexivity |].
  intros Hoff. split.
  - unfold _add_remote_results_to in Hmerged. rewrite Hoff in Hmerged.
    injection Hmerged as _ <-.
    apply mapM_length in Hjsons, Henriched. rewrite Hjsons, Henriched.
    unfold _serving_fn in Hfound.
    apply searching_fn_Ret in Hfound
      as (l0 & answer & ranked & Hget & Hrank & ->).
    eapply ranked_slice_length; [exact Hget | exact Hrank].
  - specialize (Hremote Hoff log).
    unfold serve, APIRequest.serve, try_except_raise in Hremote.
    unfold bind at 1 in Hremote. rewrite Hfound in Hremote.
    unfold _formatting_fn in Hremote. unfold bind at 1 in Hremote.
    rewrite Henriched in Hremote. unfold bind at 1 in Hremote.
    rewrite Hjsons in Hremote. unfold bind at 1 in Hremote.
    rewrite Hmerged in Hremote. exact Hremote.
Qed.

Lemma response_of_single_reference_search_witness :
  serve 9 (demo_request 5) []
  = ([CallVectorize "brake"; CallVectorSearch 5; CallResult; CallResult;
      CallResult; CallResult; CallResult],
     Ret {| results := [0; 1; 2; 3; 4]; query := PStr "brake";
            latent_query := PStr "" |})
  /\ query {| results := [0; 1; 2; 3; 4]; query := PStr "brake";
              latent_query := PStr "" |} = _query (demo_request 5).
Proof.
  split; [reflexivity |].
  eapply (response_of_single_reference_search (demo_world true) 9
            (demo_request 5) []).
  reflexivity.
Defined.

(** X7. Serving a single-reference search that was built always comes
    to an answer, and the answer is a response or [ServerError()] with
    the default message: nothing else leaves [serve]. *)
Theorem single_reference_search_always_answers
    (W : World) (data : option dict) (log0 log1 : list call)
    (self : SearchRequest.t W) (fuel : nat) (log : list call) :
  SearchRequest102.__init__ W data log0 = (log1, Ret self) ->
  (9 <= fuel)%nat ->
  (exists response, snd (serve fuel self log) = Ret response)
  \/ snd (serve fuel self log)
     = Raise (ServerError "Server error while handling request.").
Proof.
  intros Hinit Hfuel.
  assert (Hmax : MAX_RES_LIMIT self = 500).
  { apply init_Ret in Hinit as (d & q & lq & n & ix & _ & _ & _ & _ & _ & ->).
    reflexivity. }
  pose proof (ends_serve fuel self Hmax Hfuel log) as Hend.
  destruct (serve_outcome (_serving_fn fuel self) (_formatting_fn self) log)
    as [Hret | [Hraise | Hdiv]].
  - left. exact Hret.
  - right. exact Hraise.
  - contradiction.
Qed.

Lemma single_reference_search_always_answers_witness :
  (exists response, snd (serve 9 demo_paper_request []) = Ret response)
  \/ snd (serve 9 demo_paper_request [])
     = Raise (ServerError "Server error while handling request.").
Proof.
  apply (single_reference_search_always_answers (demo_world true)
           (Some (<["type" := PStr "paper"]> (demo_data (PInt 1)))) []
           [CallSelectIndexes "brake" 3]).
  - reflexivity.
  - lia.
Defined.

(** X8. A request that needs neither snippets nor mappings is served
    without a single call to the snippet extractor or the mapping
    generator. *)
Theorem no_enrichment_unless_asked
    (W : World) (fuel : nat) (self : SearchRequest.t W) (log : list call) :
  _need_snippets self = false ->
  _need_mappings self = false ->
  List.filter is_enrichment (fst (serve fuel self log))
  = List.filter is_enrichment log.
Proof.
  intros Hsnip Hmaps. revert log.
  change (silent is_enrichment (serve fuel self)).
  unfold serve, APIRequest.serve, _serving_fn, _searching_fn, _get_results,
    _rerank, _formatting_fn, _add_snippet_if_needed, _add_mapping_if_needed,
    _add_remote_results_to.
  rewrite Hsnip, Hmaps.
  apply silent_try. apply silent_bind; [| intros ?; silent_solve].
  apply silent_bind; [| intros ?; silent_solve].
  apply silent_bind; [silent_solve |]. intros qvec.
  now apply silent_loop.
Qed.

Lemma no_enrichment_unless_asked_witness :
  List.filter is_enrichment (fst (serve 9 (demo_request 5) [])) = []
  /\ List.filter is_enrichment (fst (serve 9 demo_combination_request []))
     = [CallSnippet; CallMapping; CallSnippet; CallMapping; CallSnippet;
        CallMapping; CallSnippet; CallMapping; CallSnippet; CallMapping;
        CallSnippet; CallMapping; CallSnippet; CallMapping].
Proof.
  split; [| reflexivity].
  apply (no_enrichment_unless_asked (demo_world true) 9 (demo_request 5) []);
    reflexivity.
Defined.

End ServeExtras.

(** ** Building a search request *)

Section ConstructionExtras.
Import Filters SearchRequest.

(** X9. A search request without the key ['q'] is refused with
    [BadRequestError('Request does not contain a query.')] before
    anything else is read: whatever the other parameters hold, and
    without a call to a collaborator.  So for each search kind. *)
Theorem request_without_query_is_refused
    (W : World) (d : dict) (log : list call) :
  d !! "q" = None ->
  SearchRequest102.__init__ W (Some d) log
  = (log, Raise (BadRequestError "Request does not contain a query."))
  /\ SearchRequest103.__init__ W (Some d) log
     = (log, Raise (BadRequestError "Request does not contain a query."))
  /\ (allow_incoming_extension_requests W = true ->
      IncomingExtensionRequest.__init__ W (Some d) log
      = (log, Raise (BadRequestError "Request does not contain a query."))).
Proof.
  intros Hq.
  assert (H : __init__ W (Some d) log
              = (log, Raise (BadRequestError "Request does not contain a query.")))
    by now rewrite init_Some, Hq.
  split; [exact H |]. split; [exact H |].
  intros Hon. unfold IncomingExtensionRequest.__init__. now rewrite Hon.
Qed.

Lemma request_without_query_is_refused_witness :
  SearchRequest102.__init__ (demo_world true)
    (Some (<["n" := PStr "abc"]> (<["lq" := PInt 3]> ∅))) []
  = ([], Raise (BadRequestError "Request does not contain a query.")).
Proof.
  assert (Hq : (<["n" := PStr "abc"]> (<["lq" := PInt 3]> ∅) : dict) !! "q"
               = None) by (vm_compute; reflexivity).
  destruct (request_without_query_is_refused (demo_world true) _ [] Hq)
    as [H _].
  exact H.
Defined.

(** X10. The defaults of a search request that was built: 10 results
    when ['n'] is absent, an empty latent query when ['lq'] is absent, no
    snippets and no mappings when ['snip'] and ['maps'] are absent, no
    filter when ['after'], ['before'] and ['type'] are all absent. *)
Theorem defaults_of_search_request
    (W : World) (d : dict) (log log' : list call) (self : SearchRequest.t W) :
  __init__ W (Some d) log = (log', Ret self) ->
  (d !! "n" = None -> _n_results self = 10)
  /\ (d !! "lq" = None -> _latent_query self = PStr "")
  /\ (d !! "snip" = None -> _need_snippets self = false)
  /\ (d !! "maps" = None -> _need_mappings self = false)
  /\ (d !! "after" = None -> d !! "before" = None -> d !! "type" = None ->
      _filters self = []).
Proof.
  intros Hinit.
  apply init_Ret in Hinit
    as (d' & q & lq & n & ix & [= <-] & Hq & Hlq & Hn & _ & ->).
  simpl. unfold flag_of, filters_of, date_filter_of, doctype_filter_of.
  split; [intros H; rewrite H in Hn; now injection Hn as <- |].
  split; [intros H; rewrite H in Hlq; now rewrite <- Hlq |].
  split; [now intros -> |]. split; [now intros -> |].
  now intros -> -> ->.
Qed.

Lemma defaults_of_search_request_witness :
  exists self log',
    __init__ (demo_world true) (Some (<["q" := PStr "brake"]> ∅)) []
    = (log', Ret self)
    /\ _n_results self = 10 /\ _latent_query self = PStr ""
    /\ _need_snippets self = false /\ _filters self = [].
Proof.
  exists (built (demo_world true) (<["q" := PStr "brake"]> ∅) "brake" "" 10
            ["A01B"; "B60T"; "G06F"]), [CallSelectIndexes "brake" 3].
  assert (Hinit : __init__ (demo_world true) (Some (<["q" := PStr "brake"]> ∅)) []
                  = ([CallSelectIndexes "brake" 3],
                     Ret (built (demo_world true) (<["q" := PStr "brake"]> ∅)
                            "brake" "" 10 ["A01B"; "B60T"; "G06F"])))
    by reflexivity.
  destruct (defaults_of_search_request (demo_world true) _ _ _ _ Hinit)
    as (Hn & Hlq & Hsnip & _ & Hfilters).
  split; [exact Hinit |]. split; [now apply Hn |]. split; [now apply Hlq |].
  split; [now apply Hsnip | now apply Hfilters].
Defined.

(** X11. A query or latent query that is not a [str] makes construction
    fail with the [TypeError] of [+], once [int(n)] went through: not a
    [BadRequestError], and no collaborator is called. *)
Theorem non_string_query_is_type_error
    (W : World) (d : dict) (vq : pyval) (n : Z) (log : list call) :
  d !! "q" = Some vq ->
  int (default (PInt 10) (d !! "n")) = inr n ->
  (forall s, vq <> PStr s)
  \/ (forall s, default (PStr "") (d !! "lq") <> PStr s) ->
  __init__ W (Some d) log = (log, Raise TypeError).
Proof.
  intros Hq Hn Hbad. rewrite init_Some, Hq, Hn.
  destruct vq as [| b | z | q]; try reflexivity.
  destruct (default (PStr "") (d !! "lq")) as [| b | z | lq]; try reflexivity.
  destruct Hbad as [H | H]; [now destruct (H q) | now destruct (H lq)].
Qed.

Lemma non_string_query_is_type_error_witness :
  __init__ (demo_world true) (Some (<["q" := PInt 5]> ∅)) []
  = ([], Raise TypeError).
Proof.
  apply (non_string_query_is_type_error (demo_world true)
           (<["q" := PInt 5]> ∅) (PInt 5) 10 []).
  - vm_compute. reflexivity.
  - vm_compute. reflexivity.
  - left. discriminate.
Defined.

(** X12. Building a search request resolves the index scope once, and
    that is the only call it makes: the index directory for an ['idx']
    other than ['auto'] -- whether or not index selection is disabled --,
    else all available indexes when it is disabled, else the selector
    with the stripped full query and 3. *)
Theorem construction_resolves_index_scope_once
    (W : World) (d : dict) (log log' : list call) (self : SearchRequest.t W) :
  __init__ W (Some d) log = (log', Ret self) ->
  log' = log ++ [match d !! "idx" with
                 | Some idx =>
                     if bool_decide (idx = PStr "auto")
                     then (if index_selection_disabled W
                           then CallIndexAvailable
                           else CallSelectIndexes (_full_query self) 3)
                     else CallIndexGet idx
                 | None =>
                     if index_selection_disabled W
                     then CallIndexAvailable
                     else CallSelectIndexes (_full_query self) 3
                 end]
  /\ match d !! "idx" with
     | Some idx =>
         if bool_decide (idx = PStr "auto")
         then (if index_selection_disabled W
               then available_indexes_available W
               else select_indexes W (_full_query self) 3)
         else available_indexes_get W idx
     | None =>
         if index_selection_disabled W
         then available_indexes_available W
         else select_indexes W (_full_query self) 3
     end = inr (_indexes self).
Proof.
  intros Hinit.
  apply init_Ret in Hinit
    as (d' & q & lq & n & ix & [= <-] & _ & _ & _ & Hix & ->).
  simpl. revert Hix.
  unfold _get_indexes, _index_specified_in_request, py_in, py_getitem, bind,
    ret, called.
  destruct (d !! "idx") as [idx |]; simpl.
  - destruct (bool_decide (idx = PStr "auto")); simpl.
    + destruct (index_selection_disabled W);
        [destruct (available_indexes_available W)
        | destruct (select_indexes W _ 3)];
        simpl; intros [= <- <-] || discriminate; now split.
    + destruct (available_indexes_get W idx);
        simpl; intros [= <- <-] || discriminate; now split.
  - destruct (index_selection_disabled W);
      [destruct (available_indexes_available W)
      | destruct (select_indexes W _ 3)];
      simpl; intros [= <- <-] || discriminate; now split.
Qed.

Lemma construction_resolves_index_scope_once_witness :
  __init__ (demo_world true)
    (Some (<["idx" := PStr "B60T"]> (demo_data (PInt 5)))) []
  = ([CallIndexGet (PStr "B60T")],
     Ret (built (demo_world true) (<["idx" := PStr "B60T"]> (demo_data (PInt 5)))
            "brake" "" 5 ["B60T"]))
  /\ [CallIndexGet (PStr "B60T")] = [] ++ [CallIndexGet (PStr "B60T")].
Proof.
  assert (Hinit : __init__ (demo_world true)
                    (Some (<["idx" := PStr "B60T"]> (demo_data (PInt 5)))) []
                  = ([CallIndexGet (PStr "B60T")],
                     Ret (built (demo_world true)
                            (<["idx" := PStr "B60T"]> (demo_data (PInt 5)))
                            "brake" "" 5 ["B60T"]))) by reflexivity.
  split; [exact Hinit |].
  apply (construction_resolves_index_scope_once (demo_world true) _ _ _ _ Hinit).
Defined.

(** X13. The filters [FilterExtractor] reads off the parameters: never
    a failure, at most two, the date filter first.  There is a date
    filter exactly when ['after'] or ['before'] is non-empty, and each of
    its bounds is the parameter as given, or [None] where the parameter is
    absent or empty; there is a type filter exactly when ['type'] is
    non-empty. *)
Theorem filters_read_off_parameters (d : dict) (log : list call) :
  let after := default PNone (d !! "after") in
  let before := default PNone (d !! "before") in
  let doctype := default PNone (d !! "type") in
  exists filters,
    FilterExtractor.extract (Some d) log = (log, Ret filters)
    /\ filters
       = (if truthy after || truthy before
          then [PublicationDateFilter (if truthy after then after else PNone)
                  (if truthy before then before else PNone)]
          else [])
         ++ (if truthy doctype then [DocTypeFilter doctype] else [])
    /\ (List.length filters <= 2)%nat
    /\ (forall a b, In (PublicationDateFilter a b) filters ->
        (a = PNone \/ truthy a = true) /\ (b = PNone \/ truthy b = true)
        /\ (truthy a = true \/ truthy b = true)).
Proof.
  intros after before doctype. exists (filters_of d).
  split; [apply extract_Some |].
  assert (Hshape : filters_of d
                   = (if truthy after || truthy before
                      then [PublicationDateFilter
                              (if truthy after then after else PNone)
                              (if truthy before then before else PNone)]
                      else [])
                     ++ (if truthy doctype then [DocTypeFilter doctype] else [])).
  { unfold filters_of, date_filter_of, doctype_filter_of.
    fold after before doctype.
    destruct (truthy after || truthy before), (truthy doctype); reflexivity. }
  split; [exact Hshape |]. rewrite Hshape. split.
  - destruct (truthy after || truthy before), (truthy doctype); simpl; lia.
  - intros a b Hin. apply in_app_or in Hin as [Hin | Hin].
    + destruct (truthy after) eqn:Ha, (truthy before) eqn:Hb; simpl in Hin;
        try contradiction; destruct Hin as [[= <- <-] | []]; auto.
    + destruct (truthy doctype); simpl in Hin; [| destruct Hin].
      destruct Hin as [Hin | []]. discriminate Hin.
Qed.

End ConstructionExtras.

(** ** Requests derived from a patent *)

Section DerivedExtras.
Import SimilarPatentsRequest.

Lemma ends_init (W : World) (data : option dict) :
  ends (SearchRequest.__init__ W data).
Proof.
  unfold SearchRequest.__init__, APIRequest.__init__,
    SearchRequest._validation_fn, SearchRequest._get_full_query,
    SearchRequest._get_indexes, SearchRequest._index_specified_in_request,
    SearchRequest._read_bool_value, FilterExtractor.extract,
    FilterExtractor._get_date_filter, FilterExtractor._get_doctype_filter,
    py_in, py_get, py_getitem.
  ends_solve.
Qed.

(** Building a single-reference request and serving it ends. *)
Lemma ends_build_and_serve (W : World) (fuel : nat) (data : option dict) :
  (9 <= fuel)%nat ->
  ends (req <- SearchRequest102.__init__ W data ;;
        SearchRequest102.serve fuel req).
Proof.
  intros Hfuel. apply ends_bind_after; [apply ends_init |].
  intros log log' req Hreq.
  apply ends_serve; [| exact Hfuel].
  apply init_Ret in Hreq as (d & q & lq & n & ix & _ & _ & _ & _ & _ & ->).
  reflexivity.
Qed.

Lemma answers_serve {A B} (serving : M A) (formatting : A -> M B) :
  ends serving -> (forall a, ends (formatting a)) ->
  answers (APIRequest.serve serving formatting).
Proof.
  intros Hs Hf log.
  assert (Hend : ends (APIRequest.serve serving formatting)).
  { unfold APIRequest.serve. apply ends_try. now apply ends_bind. }
  destruct (serve_outcome serving formatting log) as [H | [H | H]];
    [now left | now right | now destruct (Hend log)].
Qed.

(** X14. The parameters a similar-patents request searches with: the
    request's own, with ['q'] replaced by the patent's first claim as
    [remove_claim_number] cleans it, and without the key ['pn']; the
    patent store and the cleaner are each called once, in this order. *)
Theorem text_query_request_of_patent
    (W : World) (self : SimilarPatentsRequest.t) (log log' : list call)
    (search_request : dict) :
  _create_text_query_request W self log = (log', Ret search_request) ->
  exists claim query d,
    patent_first_claim W (_pn self) = inr claim
    /\ remove_claim_number W claim = inr query
    /\ _data self = Some d
    /\ search_request !! "q" = Some query
    /\ search_request !! "pn" = None
    /\ (forall key, key <> "q" -> key <> "pn" ->
        search_request !! key = d !! key)
    /\ log' = log ++ [CallPatent (_pn self); CallUtils].
Proof.
  unfold _create_text_query_request.
  destruct (patent_first_claim W (_pn self)) as [e | claim] eqn:Hclaim;
    [rewrite bind_called_inl; discriminate |].
  rewrite bind_called_inr.
  destruct (remove_claim_number W claim) as [e | query] eqn:Hquery;
    [rewrite bind_called_inl; discriminate |].
  rewrite bind_called_inr.
  unfold py_copy, bind. destruct (_data self) as [d |]; [| discriminate].
  unfold ret at 1.
  destruct (<["q" := query]> d !! "pn") eqn:Hpn; [| discriminate].
  intros [= <- <-]. exists claim, query, d.
  split; [reflexivity |]. split; [exact Hquery |]. split; [reflexivity |].
  repeat split.
  - rewrite lookup_delete_ne by discriminate. apply lookup_insert_eq.
  - apply lookup_delete_eq.
  - intros key Hq Hp.
    rewrite lookup_delete_ne, lookup_insert_ne by congruence. reflexivity.
  - now rewrite <- app_assoc.
Qed.

Lemma text_query_request_of_patent_witness :
  _create_text_query_request (demo_world true) demo_similar_request []
  = ([CallPatent (PStr "US1234567B2"); CallUtils], Ret demo_similar_search)
  /\ demo_similar_search !! "q" = Some (PStr "A braking system.")
  /\ demo_similar_search !! "pn" = None
  /\ demo_similar_search !! "before" = Some (PStr "2030-01-01").
Proof.
  assert (Hrun : _create_text_query_request (demo_world true)
                   demo_similar_request []
                 = ([CallPatent (PStr "US1234567B2"); CallUtils],
                    Ret demo_similar_search)) by reflexivity.
  destruct (text_query_request_of_patent (demo_world true) _ _ _ _ Hrun)
    as (claim & query & d & Hclaim & Hquery & Hd & Hq & Hpn & Hother & _).
  injection Hclaim as <-. injection Hquery as <-. injection Hd as <-.
  split; [exact Hrun |]. split; [exact Hq |]. split; [exact Hpn |].
  rewrite Hother by discriminate. reflexivity.
Defined.

(** X15. A request whose ['pn'] [is_patent_number] does not accept is
    refused with [BadRequestError('Request does not contain a valid
    patent number.')], for the similar-patents and the prior-art request
    alike, and the patent store is not asked: the only call is the one to
    [is_patent_number]. *)
Theorem invalid_patent_number_is_refused
    (W : World) (d : dict) (log : list call) :
  is_patent_number W (default PNone (d !! "pn")) = inr false ->
  SimilarPatentsRequest.__init__ W (Some d) log
  = (log ++ [CallUtils],
     Raise (BadRequestError "Request does not contain a valid patent number."))
  /\ PatentPriorArtRequest.__init__ W (Some d) log
     = (log ++ [CallUtils],
        Raise (BadRequestError "Request does not contain a valid patent number.")).
Proof.
  intros Hno.
  assert (H : SimilarPatentsRequest.__init__ W (Some d) log
              = (log ++ [CallUtils],
                 Raise (BadRequestError
                          "Request does not contain a valid patent number."))).
  { unfold SimilarPatentsRequest.__init__, APIRequest.__init__, _validation_fn,
      py_get.
    unfold bind at 1 2 3. unfold ret at 1. now rewrite Hno, bind_called_inr. }
  split; [exact H |].
  unfold PatentPriorArtRequest.__init__, bind. now rewrite H.
Qed.

Lemma invalid_patent_number_is_refused_witness :
  PatentPriorArtRequest.__init__ (demo_world true) (Some (demo_data (PInt 5))) []
  = ([CallUtils],
     Raise (BadRequestError "Request does not contain a valid patent number.")).
Proof.
  apply (invalid_patent_number_is_refused (demo_world true) (demo_data (PInt 5)) []).
  reflexivity.
Defined.

(** X16. What a similar-patents request answers with: the response of
    the single-reference search built from its derived parameters, with
    the patent number, not the derived claim text, as ['query']. *)
Theorem similar_patents_response_echoes_patent_number
    (W : World) (fuel : nat) (self : SimilarPatentsRequest.t)
    (log log' : list call) (response : Response (list (Json W))) :
  SimilarPatentsRequest.serve W fuel self log = (log', Ret response) ->
  exists search_request req inner l1 l2,
    _create_text_query_request W self log = (l1, Ret search_request)
    /\ SearchRequest102.__init__ W (Some search_request) l1 = (l2, Ret req)
    /\ SearchRequest102.serve fuel req l2 = (log', Ret inner)
    /\ SearchRequest._query req = default PNone (search_request !! "q")
    /\ results response = results inner
    /\ latent_query response = latent_query inner
    /\ query response = _pn self.
Proof.
  unfold SimilarPatentsRequest.serve, APIRequest.serve, try_except_raise,
    SimilarPatentsRequest._serving_fn.
  unfold bind at 1 2.
  destruct (_create_text_query_request W self log) as [l1 [sr | e |]];
    try discriminate.
  unfold bind at 1.
  destruct (SearchRequest102.__init__ W (Some sr) l1) as [l2 [req | e |]]
    eqn:Hreq; try discriminate.
  destruct (SearchRequest102.serve fuel req l2) as [l3 [inner | e |]] eqn:Hin;
    try discriminate.
  intros [= <- <-]. exists sr, req, inner, l1, l2.
  split; [reflexivity |]. split; [exact Hreq |]. split; [exact Hin |].
  split; [| repeat split; reflexivity].
  apply init_Ret in Hreq
    as (d & q & lq & n & ix & [= <-] & Hq & _ & _ & _ & ->).
  simpl. now rewrite Hq.
Qed.

Lemma similar_patents_response_echoes_patent_number_witness :
  SimilarPatentsRequest.serve (demo_world true) 9 demo_similar_request []
  = ([CallPatent (PStr "US1234567B2"); CallUtils;
      CallSelectIndexes "A braking system." 3;
      CallVectorize "A braking system."; CallVectorSearch 10;
      CallResult; CallResult; CallResult; CallResult; CallResult;
      CallResult; CallResult; CallResult; CallResult; CallResult],
     Ret {| results := [0; 1; 2; 3; 4; 5; 6; 7; 8; 9];
            query := PStr "US1234567B2"; latent_query := PStr "" |})
  /\ query {| results := [0; 1; 2; 3; 4; 5; 6; 7; 8; 9];
              query := PStr "US1234567B2"; latent_query := PStr "" |}
     = _pn demo_similar_request.
Proof.
  assert (Hrun : SimilarPatentsRequest.serve (demo_world true) 9
                   demo_similar_request []
                 = ([CallPatent (PStr "US1234567B2"); CallUtils;
                     CallSelectIndexes "A braking system." 3;
                     CallVectorize "A braking system."; CallVectorSearch 10;
                     CallResult; CallResult; CallResult; CallResult;
                     CallResult; CallResult; CallResult; CallResult;
                     CallResult; CallResult],
                    Ret {| results := [0; 1; 2; 3; 4; 5; 6; 7; 8; 9];
                           query := PStr "US1234567B2";
                           latent_query := PStr "" |})) by reflexivity.
  split; [exact Hrun |].
  destruct (similar_patents_response_echoes_patent_number (demo_world true) 9
              _ _ _ _ Hrun) as (sr & req & inner & l1 & l2 & H).
  apply H.
Defined.

(** X17. The searches that run a single-reference search inside --
    combination, similar patents, prior art -- always come to an answer
    with nine rounds of fuel or more: a response, or [ServerError()]. *)
Theorem derived_searches_always_answer (W : World) (fuel : nat) :
  (9 <= fuel)%nat ->
  (forall self : SearchRequest.t W, answers (SearchRequest103.serve fuel self))
  /\ (forall self, answers (SimilarPatentsRequest.serve W fuel self))
  /\ (forall self, answers (PatentPriorArtRequest.serve W fuel self)).
Proof.
  intros Hfuel. split; [| split]; intros self.
  - unfold SearchRequest103.serve. apply answers_serve.
    + unfold SearchRequest103._serving_fn, SearchRequest103._searching_fn,
        SearchRequest103._get_docs_to_combine,
        SearchRequest103._get_interim_request_params, py_copy.
      apply ends_bind; [| intros ?; ends_solve].
      apply ends_bind; [ends_solve |]. intros params.
      pose proof (ends_build_and_serve W fuel (Some params) Hfuel) as Hinner.
      intros log. specialize (Hinner log). unfold bind in *.
      destruct (SearchRequest102.__init__ W (Some params) log)
        as [l1 [req | e |]];
        [| discriminate | now contradiction Hinner].
      destruct (SearchRequest102.serve fuel req l1) as [l2 [resp | e |]];
        [| discriminate | now contradiction Hinner].
      apply (ends_mapM _ (results resp)). intros r. apply ends_called.
    + intros combinations.
      unfold SearchRequest103._formatting_fn,
        SearchRequest._add_snippet_if_needed,
        SearchRequest103._add_mapping_if_needed.
      ends_solve.
  - unfold SimilarPatentsRequest.serve. apply answers_serve.
    + unfold SimilarPatentsRequest._serving_fn, _create_text_query_request,
        py_copy.
      apply ends_bind; [ends_solve |]. intros sr.
      now apply ends_build_and_serve.
    + intros response. apply ends_ret.
  - unfold PatentPriorArtRequest.serve. apply answers_serve.
    + unfold PatentPriorArtRequest._serving_fn,
        PatentPriorArtRequest._search_request, _create_text_query_request,
        py_copy.
      apply ends_bind; [ends_solve |]. intros sr.
      now apply ends_build_and_serve.
    + intros response. apply ends_ret.
Qed.

Lemma derived_searches_always_answer_witness :
  answers (PatentPriorArtRequest.serve (demo_world true) 9 demo_prior_art_request)
  /\ snd (PatentPriorArtRequest.serve (demo_world true) 9
            demo_prior_art_request [])
     = Ret {| results := [0; 2; 4; 6; 8; 10; 12; 14; 16; 18];
              query := PStr "US1234567B2"; latent_query := PStr "" |}.
Proof.
  split; [| reflexivity].
  apply (derived_searches_always_answer (demo_world true) 9). lia.
Defined.

End DerivedExtras.

(** ** The combination search *)

Section CombinationExtras.
Import SearchRequest.

(** With outgoing extension requests disabled, a served single-reference
    request holds at most [n] results. *)
Lemma serve_local_count (W : World) fuel (self : t W) log log' response :
  allow_outgoing_extension_requests W = false ->
  SearchRequest102.serve fuel self log = (log', Ret response) ->
  Z.of_nat (List.length (results response)) <= Z.max 0 (_n_results self).
Proof.
  intros Hoff Hserve.
  unfold SearchRequest102.serve, APIRequest.serve, try_except_raise in Hserve.
  unfold bind at 1 in Hserve.
  destruct (SearchRequest102._serving_fn fuel self log)
    as [l1 [found | e |]] eqn:Hfound; try discriminate.
  unfold SearchRequest102._formatting_fn in Hserve. unfold bind at 1 in Hserve.
  destruct (mapM _ found l1) as [l2 [enriched | e |]] eqn:Henriched;
    try discriminate.
  unfold bind at 1 in Hserve.
  destruct (mapM _ enriched l2) as [l3 [jsons | e |]] eqn:Hjsons;
    try discriminate.
  unfold bind at 1 in Hserve.
  unfold SearchRequest102._add_remote_results_to in Hserve.
  rewrite Hoff in Hserve. injection Hserve as _ <-. simpl.
  apply mapM_length in Hjsons, Henriched. rewrite Hjsons, Henriched.
  unfold SearchRequest102._serving_fn in Hfound.
  apply searching_fn_Ret in Hfound as (l0 & answer & ranked & Hget & Hrank & ->).
  eapply ranked_slice_length; [exact Hget | exact Hrank].
Qed.

Lemma mapM_pairs_In {A} (docs : list A) (pairs : list (Z * Z)) :
  forall log log' out,
    mapM (fun ij => di <- py_index docs (fst ij) ;;
                    dj <- py_index docs (snd ij) ;;
                    ret (di, dj)) pairs log = (log', Ret out) ->
    forall a b, In (a, b) out -> In a docs /\ In b docs.
Proof.
  induction pairs as [| [i j] pairs IH]; intros log log' out H a b Hin;
    simpl in H.
  - injection H as _ <-. destruct Hin.
  - unfold bind at 1 in H. unfold bind at 1 in H.
    destruct (py_index docs i log) as [l1 [di | e |]] eqn:Hi; try discriminate.
    unfold bind at 1 in H.
    destruct (py_index docs j l1) as [l2 [dj | e |]] eqn:Hj; try discriminate.
    unfold ret at 1 in H. unfold bind at 1 in H.
    destruct (mapM _ pairs l2) as [l3 [rest | e |]] eqn:Hrest;
      try discriminate.
    injection H as _ <-. destruct Hin as [[= <- <-] | Hin].
    + split.
      * apply (mapM_py_index_In docs [i] log l1 [di]); [| now left].
        simpl. unfold bind. now rewrite Hi.
      * apply (mapM_py_index_In docs [j] l1 l2 [dj]); [| now left].
        simpl. unfold bind. now rewrite Hj.
    + eapply IH; [exact Hrest | exact Hin].
Qed.

End CombinationExtras.

(** ** Document, passage and dataset requests *)

Section OtherRequests.

(** X19. A document request needs the key ['id']: without it
    construction raises [BadRequestError('Request does not contain a
    document ID.')]; with it the request is built around that value,
    without a call to the document store, and serving it asks the store
    for that document and answers with its JSON, or with [ServerError()]
    when the store raises. *)
Theorem document_request_needs_id (W : World) (d : dict) (log : list call) :
  (d !! "id" = None ->
   DocumentRequest.__init__ (Some d) log
   = (log, Raise (BadRequestError "Request does not contain a document ID.")))
  /\ (forall id, d !! "id" = Some id ->
      DocumentRequest.__init__ (Some d) log
      = (log, Ret (DocumentRequest.Build (Some d) id))
      /\ DocumentRequest.serve W (DocumentRequest.Build (Some d) id) log
         = match Document W id with
           | inl _ =>
               (log ++ [CallDocument id],
                Raise (ServerError "Server error while handling request."))
           | inr _ =>
               match document_json W id with
               | inl _ =>
                   (log ++ [CallDocument id; CallDocument id],
                    Raise (ServerError "Server error while handling request."))
               | inr json => (log ++ [CallDocument id; CallDocument id], Ret json)
               end
           end).
Proof.
  split.
  - intros Hid.
    unfold DocumentRequest.__init__, APIRequest.__init__,
      DocumentRequest._validation_fn, py_in, bind, ret.
    now rewrite Hid.
  - intros id Hid. split.
    + unfold DocumentRequest.__init__, APIRequest.__init__,
        DocumentRequest._validation_fn, py_in, py_getitem, bind, ret.
      now rewrite Hid.
    + unfold DocumentRequest.serve, APIRequest.serve, try_except_raise,
        DocumentRequest._serving_fn, bind, called. simpl.
      destruct (Document W id); simpl; [reflexivity |].
      destruct (document_json W id); simpl; now rewrite <- app_assoc.
Qed.

(** X20. A passage request checks its query first and its document
    second, and an empty value counts as missing: a request without a
    non-empty ['q'] is refused for the query whatever ['pn'] holds, one
    with a query but without a non-empty ['pn'] for the document, and only
    then is the document store asked for the document. *)
Theorem passage_request_checks_query_then_document
    (W : World) (d : dict) (log : list call) :
  let q := default PNone (d !! "q") in
  let pn := default PNone (d !! "pn") in
  PassageRequest.__init__ W (Some d) log
  = if negb (truthy q)
    then (log, Raise (BadRequestError "Request does not contain a query."))
    else if negb (truthy pn)
    then (log, Raise (BadRequestError "Request does not specify a document."))
    else match Document W pn with
         | inl e => (log ++ [CallDocument pn], Raise e)
         | inr _ => (log ++ [CallDocument pn],
                     Ret (PassageRequest.Build (Some d) q pn))
         end.
Proof.
  intros q pn.
  unfold PassageRequest.__init__, APIRequest.__init__,
    PassageRequest._validation_fn, py_get, bind, ret, called.
  fold q pn.
  destruct (truthy q); simpl; [| reflexivity].
  destruct (truthy pn); simpl; [| reflexivity].
  destruct (Document W pn); reflexivity.
Qed.

(** X21. A dataset request checks for ['dataset'] first and for ['n']
    second, by presence alone; nothing else is looked at before serving. *)
Theorem dataset_request_checks_dataset_then_n (d : dict) (log : list call) :
  DatasetSampleRequest.__init__ (Some d) log
  = match d !! "dataset", d !! "n" with
    | None, _ =>
        (log, Raise (BadRequestError "Request does not specify a dataset name."))
    | Some _, None =>
        (log, Raise (BadRequestError
                       "Request does not specify the sample number."))
    | Some _, Some _ => (log, Ret (Some d))
    end.
Proof.
  unfold DatasetSampleRequest.__init__, APIRequest.__init__,
    DatasetSampleRequest._validation_fn, py_in, bind, ret.
  destruct (d !! "dataset"); simpl; [| reflexivity].
  destruct (d !! "n"); reflexivity.
Qed.

Lemma lower_char_p (c : ascii) :
  lower_char c = "p"%char -> c = "p"%char \/ c = "P"%char.
Proof.
  destruct c as [[] [] [] [] [] [] [] []]; vm_compute; intros H;
    first [now left | now right | discriminate H].
Qed.

Lemma lower_char_o (c : ascii) :
  lower_char c = "o"%char -> c = "o"%char \/ c = "O"%char.
Proof.
  destruct c as [[] [] [] [] [] [] [] []]; vm_compute; intros H;
    first [now left | now right | discriminate H].
Qed.

Lemma lower_char_c (c : ascii) :
  lower_char c = "c"%char -> c = "c"%char \/ c = "C"%char.
Proof.
  destruct c as [[] [] [] [] [] [] [] []]; vm_compute; intros H;
    first [now left | now right | discriminate H].
Qed.

(** [name.lower() == 'poc'] holds for the eight spellings and no other. *)
Lemma lower_poc (name : string) :
  lower name = "poc" <-> In name poc_spellings.
Proof.
  split.
  - destruct name as [| a [| b [| c [| x rest]]]]; try discriminate.
    simpl. intros [= Ha Hb Hc].
    apply lower_char_p in Ha as [-> | ->];
      apply lower_char_o in Hb as [-> | ->];
      apply lower_char_c in Hc as [-> | ->]; simpl; tauto.
  - unfold poc_spellings. simpl.
    intros H. repeat (destruct H as [<- | H]; [reflexivity |]). destruct H.
Qed.

(** X22. The dataset name is read without regard to case: for ['poc']
    in any of its eight spellings, and for no other name, serving reads
    [int(n)] and asks the dataset for that sample; an ['n'] that [int]
    cannot read makes [serve] raise [ServerError()]. *)
Theorem dataset_name_matched_without_case
    (W : World) (d : dict) (name : string) (n : pyval) (log : list call) :
  d !! "dataset" = Some (PStr name) ->
  d !! "n" = Some n ->
  (lower name = "poc" <-> In name poc_spellings)
  /\ (In name poc_spellings ->
      DatasetSampleRequest._serving_fn W (Some d) log
      = match int n with
        | inl e => (log, Raise e)
        | inr i =>
            match poc_dataset W i with
            | inl e => (log ++ [CallDataset i], Raise e)
            | inr sample => (log ++ [CallDataset i], Ret sample)
            end
        end)
  /\ (In name poc_spellings -> forall e, int n = inl e ->
      DatasetSampleRequest.serve W (Some d) log
      = (log, Raise (ServerError "Server error while handling request."))).
Proof.
  intros Hname Hn.
  assert (Hserving : In name poc_spellings ->
            DatasetSampleRequest._serving_fn W (Some d) log
            = match int n with
              | inl e => (log, Raise e)
              | inr i =>
                  match poc_dataset W i with
                  | inl e => (log ++ [CallDataset i], Raise e)
                  | inr sample => (log ++ [CallDataset i], Ret sample)
                  end
              end).
  { intros Hpoc. apply lower_poc in Hpoc.
    unfold DatasetSampleRequest._serving_fn, py_getitem.
    unfold bind at 1. rewrite Hname. unfold ret at 1. rewrite Hpoc. simpl.
    unfold bind at 1. rewrite Hn. unfold ret at 1.
    unfold bind, lift, called.
    destruct (int n) as [e | i]; [reflexivity |].
    unfold ret. destruct (poc_dataset W i); reflexivity. }
  split; [apply lower_poc |]. split; [exact Hserving |].
  intros Hpoc e He. unfold DatasetSampleRequest.serve.
  eapply serve_collapses. rewrite (Hserving Hpoc), He. reflexivity.
Qed.

Lemma dataset_name_matched_without_case_witness :
  DatasetSampleRequest._serving_fn (demo_world true)
    (Some (<["dataset" := PStr "PoC"]> (<["n" := PStr "12"]> ∅))) []
  = ([CallDataset 12], Ret 0)
  /\ DatasetSampleRequest.serve (demo_world true)
       (Some (<["dataset" := PStr "PoC"]> (<["n" := PStr "twelve"]> ∅))) []
     = ([], Raise (ServerError "Server error while handling request.")).
Proof.
  split.
  - destruct (dataset_name_matched_without_case (demo_world true)
                (<["dataset" := PStr "PoC"]> (<["n" := PStr "12"]> ∅))
                "PoC" (PStr "12") []) as (_ & Hserving & _);
      [vm_compute; reflexivity | vm_compute; reflexivity |].
    rewrite Hserving; [reflexivity | simpl; tauto].
  - destruct (dataset_name_matched_without_case (demo_world true)
                (<["dataset" := PStr "PoC"]> (<["n" := PStr "twelve"]> ∅))
                "PoC" (PStr "twelve") []) as (_ & _ & Hserve);
      [vm_compute; reflexivity | vm_compute; reflexivity |].
    apply (Hserve ltac:(simpl; tauto) ValueError). reflexivity.
Defined.

End OtherRequests.

(** ** Counting and ranking ([Counter], [most_common]) *)

Section Counting.
Import Collections.

Lemma count_of_add (x y : string) (c : list (string * nat)) :
  count_of (count_add x c) y
  = if String.eqb y x then S (count_of c x) else count_of c y.
Proof.
  induction c as [| [z k] c IH]; simpl.
  - destruct (String.eqb y x); reflexivity.
  - destruct (String.eqb_spec x z) as [-> | Hxz]; simpl.
    + destruct (String.eqb_spec y z); reflexivity.
    + rewrite IH. destruct (String.eqb_spec y z) as [-> | Hyz].
      * destruct (String.eqb_spec z x) as [-> | _]; [contradiction | reflexivity].
      * reflexivity.
Qed.

Lemma count_of_fold (l : list string) : forall acc y,
  count_of (fold_left (fun c x => count_add x c) l acc) y
  = (count_of acc y + occurrences y l)%nat.
Proof.
  unfold occurrences.
  induction l as [| x l IH]; intros acc y; simpl; [lia |].
  rewrite IH, count_of_add.
  destruct (String.eqb_spec y x) as [-> | _]; simpl; lia.
Qed.

Lemma keys_add (x : string) (c : list (string * nat)) :
  NoDup (List.map fst c) ->
  Forall (fun p => (0 < snd p)%nat) c ->
  NoDup (List.map fst (count_add x c))
  /\ Forall (fun p => (0 < snd p)%nat) (count_add x c)
  /\ forall y, In y (List.map fst (count_add x c))
               <-> y = x \/ In y (List.map fst c).
Proof.
  induction c as [| [z k] c IH]; intros Hnd Hpos; simpl.
  - split; [repeat constructor; intros H; inversion H |].
    split; [repeat constructor |]. intros y. simpl. intuition.
  - apply NoDup_cons in Hnd as [Hz Hnd].
    apply Forall_cons in Hpos as [Hk Hpos].
    destruct (String.eqb_spec x z) as [-> | Hxz]; simpl.
    + split; [apply NoDup_cons; now split |].
      split; [constructor; simpl in *; [lia | exact Hpos] |].
      intros y. intuition.
    + destruct (IH Hnd Hpos) as (Hnd' & Hpos' & Hin).
      split.
      { apply NoDup_cons. split; [| exact Hnd'].
        intros H. apply list_elem_of_In, Hin in H as [-> | H];
          [now apply Hxz | apply Hz, list_elem_of_In, H]. }
      split; [now constructor |].
      intros y. rewrite Hin. intuition.
Qed.

Lemma keys_fold (l : list string) : forall acc,
  NoDup (List.map fst acc) ->
  Forall (fun p => (0 < snd p)%nat) acc ->
  NoDup (List.map fst (fold_left (fun c x => count_add x c) l acc))
  /\ Forall (fun p => (0 < snd p)%nat)
       (fold_left (fun c x => count_add x c) l acc)
  /\ forall y, In y (List.map fst (fold_left (fun c x => count_add x c) l acc))
               <-> In y l \/ In y (List.map fst acc).
Proof.
  induction l as [| x l IH]; intros acc Hnd Hpos; simpl.
  - split; [exact Hnd |]. split; [exact Hpos |]. intuition.
  - destruct (keys_add x acc Hnd Hpos) as (Hnd' & Hpos' & Hin).
    destruct (IH _ Hnd' Hpos') as (Hnd'' & Hpos'' & Hin'').
    split; [exact Hnd'' |]. split; [exact Hpos'' |].
    intros y. rewrite Hin'', Hin. intuition.
Qed.

Lemma count_of_In (c : list (string * nat)) (y : string) (k : nat) :
  NoDup (List.map fst c) -> In (y, k) c -> count_of c y = k.
Proof.
  induction c as [| [z j] c IH]; intros Hnd Hin; [destruct Hin |].
  simpl in *. apply NoDup_cons in Hnd as [Hz Hnd].
  destruct Hin as [[= -> ->] | Hin].
  - now rewrite String.eqb_refl.
  - destruct (String.eqb_spec y z) as [-> | _]; [| now apply IH].
    destruct Hz. apply list_elem_of_In.
    change z with (fst (z, k)). now apply in_map.
Qed.

(** What a counter holds: each string of the list once, with the number
    of times it occurs. *)
Lemma Counter_spec (l : list string) :
  NoDup (List.map fst (Counter l))
  /\ (forall y, In y (List.map fst (Counter l)) <-> In y l)
  /\ (forall y k, In (y, k) (Counter l) ->
      k = occurrences y l /\ (0 < k)%nat).
Proof.
  unfold Counter.
  destruct (keys_fold l [] (NoDup_nil_2 : NoDup (List.map fst []))
              (Forall_nil_2 _)) as (Hnd & Hpos & Hin).
  split; [exact Hnd |].
  split; [intros y; rewrite Hin; simpl; intuition |].
  intros y k Hyk. split.
  - rewrite <- (count_of_In _ y k Hnd Hyk). now rewrite count_of_fold.
  - rewrite Forall_forall in Hpos. apply (Hpos (y, k)).
    now apply list_elem_of_In.
Qed.

Lemma insert_desc_perm (p : string * nat) (s : list (string * nat)) :
  insert_desc p s ≡ₚ p :: s.
Proof.
  induction s as [| q s IH]; simpl; [reflexivity |].
  destruct (snd q <? snd p)%nat; [reflexivity |].
  rewrite IH. apply Permutation_swap.
Qed.

Lemma sort_desc_fold_perm (c : list (string * nat)) : forall acc,
  fold_left (fun s p => insert_desc p s) c acc ≡ₚ acc ++ c.
Proof.
  induction c as [| p c IH]; intros acc; simpl; [now rewrite app_nil_r |].
  rewrite IH, insert_desc_perm. simpl. apply Permutation_middle.
Qed.

Lemma sort_desc_perm (c : list (string * nat)) : sort_desc c ≡ₚ c.
Proof. unfold sort_desc. now rewrite sort_desc_fold_perm. Qed.

Lemma insert_desc_sorted (p : string * nat) (s : list (string * nat)) :
  StronglySorted at_least_as_common s ->
  StronglySorted at_least_as_common (insert_desc p s).
Proof.
  induction s as [| q s IH]; intros Hs; simpl.
  - repeat constructor.
  - apply StronglySorted_inv in Hs as [Hs Hq].
    destruct (snd q <? snd p)%nat eqn:Hlt.
    + apply Nat.ltb_lt in Hlt. constructor; [now constructor |].
      constructor; [unfold at_least_as_common; lia |].
      eapply Forall_impl; [exact Hq |].
      unfold at_least_as_common. intros x Hx. simpl in Hx. lia.
    + apply Nat.ltb_ge in Hlt. constructor; [now apply IH |].
      rewrite insert_desc_perm. constructor; [exact Hlt | exact Hq].
Qed.

Lemma sort_desc_sorted (c : list (string * nat)) :
  StronglySorted at_least_as_common (sort_desc c).
Proof.
  unfold sort_desc.
  assert (H : forall acc, StronglySorted at_least_as_common acc ->
                StronglySorted at_least_as_common
                  (fold_left (fun s p => insert_desc p s) c acc)).
  { induction c as [| p c IH]; intros acc Hacc; simpl; [exact Hacc |].
    apply IH. now apply insert_desc_sorted. }
  apply H. constructor.
Qed.

(** The ranking [Counter(l).most_common(n)]: at most [n] entries, no
    string twice, each with its number of occurrences in [l], in order
    of decreasing count, and nothing left out is counted more often than
    something kept. *)
Lemma most_common_spec (n : nat) (l : list string) :
  let ranking := most_common n (Counter l) in
  (List.length ranking <= n)%nat
  /\ NoDup (List.map fst ranking)
  /\ (forall y k, In (y, k) ranking ->
      In y l /\ k = occurrences y l /\ (0 < k)%nat)
  /\ StronglySorted at_least_as_common ranking
  /\ (forall y x k, In y l -> ~ In y (List.map fst ranking) ->
      In (x, k) ranking -> (occurrences y l <= k)%nat).
Proof.
  intros ranking. unfold ranking, most_common.
  destruct (Counter_spec l) as (Hnd & Hkeys & Hcount).
  pose proof (sort_desc_perm (Counter l)) as Hperm.
  pose proof (sort_desc_sorted (Counter l)) as Hsorted.
  assert (Hnd' : NoDup (List.map fst (sort_desc (Counter l)))).
  { now rewrite (Permutation_map fst Hperm). }
  rewrite <- (take_drop n (sort_desc (Counter l))) in Hsorted, Hnd', Hperm.
  split; [rewrite length_take; lia |].
  split.
  { rewrite List.map_app in Hnd'. now apply NoDup_app in Hnd' as [H _]. }
  split.
  { intros y k Hin.
    assert (Hc : In (y, k) (Counter l)).
    { apply list_elem_of_In. rewrite <- Hperm.
      apply list_elem_of_In, in_or_app. now left. }
    destruct (Hcount y k Hc) as [Hk Hpos].
    split; [| now split]. apply Hkeys.
    change y with (fst (y, k)). now apply in_map. }
  split; [now apply StronglySorted_app_1_l in Hsorted |].
  intros y x k Hy Hout Hx.
  apply Hkeys, in_map_iff in Hy as [[y' ky] [Hfst Hy]]. simpl in Hfst. subst y'.
  destruct (Hcount y ky Hy) as [-> _].
  assert (Hin : In (y, occurrences y l)
                  (take n (sort_desc (Counter l))
                   ++ drop n (sort_desc (Counter l)))).
  { apply list_elem_of_In. rewrite Hperm. now apply list_elem_of_In. }
  apply in_app_or in Hin as [Hin | Hin].
  - destruct Hout. change y with (fst (y, occurrences y l)). now apply in_map.
  - apply (StronglySorted_app_1_elem_of _ _ _ (x, k) (y, occurrences y l)
             Hsorted); now apply list_elem_of_In.
Qed.

End Counting.

(** ** The mini-apps plugin *)

Section MiniappsExtras.
Import Collections Miniapps Miniapps.TextBasedRequest.

Lemma strip_eqb_all_space (s : string) :
  String.eqb (strip s) "" = all_space s.
Proof.
  destruct (String.eqb_spec (strip s) "") as [H | H].
  - symmetry. now apply strip_empty.
  - destruct (all_space s) eqn:Hs; [| reflexivity].
    destruct H. now apply strip_empty.
Qed.

Lemma rstrip_newline (t : string) : rstrip (t +:+ newline) = rstrip t.
Proof. induction t as [| c t IH]; simpl; [reflexivity | now rewrite IH]. Qed.

Lemma lstrip_app (s u : string) :
  all_space s = false -> lstrip (s +:+ u) = lstrip s +:+ u.
Proof.
  induction s as [| c s IH]; simpl; [discriminate |].
  destruct (is_space c); simpl; [exact IH | reflexivity].
Qed.

(** A trailing newline does not survive [strip]. *)
Lemma strip_newline (s : string) : strip (s +:+ newline) = strip s.
Proof.
  unfold strip. destruct (all_space s) eqn:Hs.
  - assert (H1 : rstrip (lstrip s) = "")
      by (apply rstrip_empty; now rewrite lstrip_all_space).
    assert (H2 : rstrip (lstrip (s +:+ newline)) = "").
    { apply rstrip_empty. rewrite lstrip_all_space, all_space_app, Hs.
      reflexivity. }
    now rewrite H1, H2.
  - now rewrite lstrip_app, rstrip_newline.
Qed.

(** What a list comprehension returns is related to what it ran over,
    element by element. *)
Lemma mapM_Forall2 {A B} (f : A -> M B) (R : A -> B -> Prop) (l : list A) :
  (forall x log log' y, f x log = (log', Ret y) -> R x y) ->
  forall log log' out,
    mapM f l log = (log', Ret out) -> Forall2 R l out.
Proof.
  intros Hf. induction l as [| x l IH]; intros log log' out H; simpl in H.
  - injection H as _ <-. constructor.
  - unfold bind at 1 in H.
    destruct (f x log) as [l1 [y | e |]] eqn:Hx; try discriminate.
    unfold bind at 1 in H.
    destruct (mapM f l l1) as [l2 [ys | e |]] eqn:Hrest; try discriminate.
    injection H as _ <-. constructor; [eapply Hf, Hx | eapply IH, Hrest].
Qed.

Lemma called_Ret {A} (c : call) (r : exn + A) log log' a :
  called c r log = (log', Ret a) -> r = inr a.
Proof. unfold called. destruct r; simpl; [discriminate | now intros [= _ <-]]. Qed.

(** X23. A text-based request is built exactly when ['text'] holds a
    string that is not made of whitespace only; a missing ['text'], a
    value that is not a [str], an empty or blank string are all refused
    with [BadRequestError('Invalid request')]. *)
Theorem text_request_needs_nonblank_text (d : dict) (log : list call) :
  TextBasedRequest.__init__ (Some d) log
  = match d !! "text" with
    | Some (PStr s) =>
        if all_space s
        then (log, Raise (BadRequestError "Invalid request"))
        else (log, Ret (TextBasedRequest.Build (Some d) (PStr s)))
    | _ => (log, Raise (BadRequestError "Invalid request"))
    end.
Proof.
  unfold TextBasedRequest.__init__, APIRequest.__init__,
    TextBasedRequest._validation_fn, py_get, py_getitem, bind, ret.
  destruct (d !! "text") as [[| b | z | s] |]; simpl; try reflexivity.
  rewrite strip_eqb_all_space. now destruct (all_space s).
Qed.

(** X24. The search a text-based request runs for its similar patents:
    a single-reference search for the text, for 25 results, published
    after 2015-12-31 with no upper bound, of type ['patent'], without
    snippets or mappings.  Its full query is the stripped text, which is
    not empty; and its construction fails only where resolving the index
    scope fails. *)
Theorem similar_patents_search_of_text_request
    (W : World) (d : dict) (log0 log1 : list call) (self : TextBasedRequest.t) :
  TextBasedRequest.__init__ (Some d) log0 = (log1, Ret self) ->
  exists s,
    _text self = PStr s
    /\ all_space s = false
    /\ let search_req : dict :=
         <["n" := PInt 25]>
           (<["type" := PStr "patent"]>
              (<["after" := PStr "2015-12-31"]> (<["q" := PStr s]> ∅))) in
       (forall (P : Plugins W) fuel log,
          _similar_patents P fuel self log
          = (req <- SearchRequest102.__init__ W (Some search_req) ;;
             response <- SearchRequest102.serve fuel req ;;
             mapM (fun res => called CallResult (result_id P res))
               (results response)) log)
       /\ (forall log log' req,
             SearchRequest102.__init__ W (Some search_req) log = (log', Ret req) ->
             SearchRequest._query req = PStr s
             /\ SearchRequest._full_query req = strip s
             /\ SearchRequest._full_query req <> ""
             /\ SearchRequest._n_results req = 25
             /\ SearchRequest._filters req
                = [Filters.PublicationDateFilter (PStr "2015-12-31") PNone;
                   Filters.DocTypeFilter (PStr "patent")]
             /\ SearchRequest._need_snippets req = false
             /\ SearchRequest._need_mappings req = false)
       /\ (forall log log' e,
             SearchRequest102.__init__ W (Some search_req) log = (log', Raise e) ->
             SearchRequest._get_indexes W (Some search_req) (strip s) log
             = (log', Raise e)).
Proof.
  rewrite text_request_needs_nonblank_text.
  destruct (d !! "text") as [[| b | z | s] |]; try discriminate.
  destruct (all_space s) eqn:Hs; [discriminate |].
  intros [= _ <-]. exists s. split; [reflexivity |]. split; [exact Hs |].
  intros search_req.
  assert (Hq : search_req !! "q" = Some (PStr s)) by reflexivity.
  assert (Hlq : search_req !! "lq" = None) by reflexivity.
  assert (Hn : search_req !! "n" = Some (PInt 25)) by reflexivity.
  assert (Hfull : strip (s +:+ newline +:+ "") = strip s).
  { replace (newline +:+ "") with newline by reflexivity. apply strip_newline. }
  assert (Hinit : forall log,
            SearchRequest102.__init__ W (Some search_req) log
            = match SearchRequest._get_indexes W (Some search_req) (strip s) log with
              | (log', Ret ix) => (log', Ret (built W search_req s "" 25 ix))
              | (log', Raise e) => (log', Raise e)
              | (log', Diverge) => (log', Diverge)
              end).
  { intros log. unfold SearchRequest102.__init__.
    rewrite init_Some, Hq, Hlq, Hn. simpl int. cbv iota. simpl default.
    cbv iota. now rewrite Hfull. }
  split; [reflexivity |]. split.
  - intros log log' req Hreq. rewrite Hinit in Hreq.
    destruct (SearchRequest._get_indexes W (Some search_req) (strip s) log)
      as [l [ix | e |]]; try discriminate.
    injection Hreq as _ <-. simpl.
    split; [reflexivity |]. split; [exact Hfull |].
    split.
    { rewrite Hfull. intros Hempty. apply strip_empty in Hempty. congruence. }
    repeat split; reflexivity.
  - intros log log' e Hreq. rewrite Hinit in Hreq.
    destruct (SearchRequest._get_indexes W (Some search_req) (strip s) log)
      as [l [ix | e' |]]; try discriminate.
    now injection Hreq as <- <-.
Qed.

Lemma similar_patents_search_of_text_request_witness :
  TextBasedRequest.__init__ (Some (<["text" := PStr " brake "]> ∅)) []
  = ([], Ret demo_text_request)
  /\ (forall log log' req,
        SearchRequest102.__init__ (demo_world true)
          (Some (<["n" := PInt 25]>
                   (<["type" := PStr "patent"]>
                      (<["after" := PStr "2015-12-31"]>
                         (<["q" := PStr " brake "]> ∅))))) log
        = (log', Ret req) ->
        SearchRequest._full_query req = "brake"
        /\ SearchRequest._n_results req = 25)
  /\ searches (fst (_similar_patents demo_plugins 9 demo_text_request []))
     = [25; 50].
Proof.
  assert (Hinit : TextBasedRequest.__init__
                    (Some (<["text" := PStr " brake "]> ∅)) []
                  = ([], Ret demo_text_request)) by reflexivity.
  split; [exact Hinit |].
  destruct (similar_patents_search_of_text_request (demo_world true) _ _ _ _
              Hinit) as (s & Htext & _ & _ & Hreq & _).
  injection Htext as <-.
  split; [| vm_compute; reflexivity].
  intros log log' req Hbuilt.
  destruct (Hreq log log' req Hbuilt) as (_ & Hfull & _ & Hn & _).
  split; [exact Hfull | exact Hn].
Defined.

End MiniappsExtras.

Section MiniappsRanking.
Import Collections Miniapps Miniapps.TextBasedRequest.

Lemma Forall2_fst_eq {A B C} (R : A * B -> A * C -> Prop)
    (l : list (A * B)) (k : list (A * C)) :
  (forall x y, R x y -> fst y = fst x) ->
  Forall2 R l k -> List.map fst k = List.map fst l.
Proof.
  intros HR H. induction H as [| x y l k Hxy _ IH]; simpl; [reflexivity |].
  now rewrite (HR x y Hxy), IH.
Qed.

Lemma Forall2_right {A B} (R : A -> B -> Prop) (Q : B -> Prop)
    (l : list A) (k : list B) :
  (forall x y, R x y -> Q y) -> Forall2 R l k -> Forall Q k.
Proof.
  intros HR H. induction H as [| x y l k Hxy _ IH]; constructor;
    [now apply (HR x y) | exact IH].
Qed.

Lemma skip_digits_app (rest t : string) (c : ascii) (r : string) :
  DefineCPC.skip_digits rest = String c r ->
  DefineCPC.skip_digits (rest +:+ t) = String c (r +:+ t).
Proof.
  induction rest as [| x rest IH]; simpl; [discriminate |].
  destruct (DefineCPC.is_digit x); [exact IH | now intros [= -> ->]].
Qed.

(** The definition request for one code, as [SuggestCPCs] builds it. *)
Lemma define_init_single (c : string) (log : list call) :
  DefineCPC.__init__ (Some (<["cpc" := PStr c]> ∅)) log
  = if DefineCPC.cpc_match (strip c)
    then (log, Ret (DefineCPC.Build (Some (<["cpc" := PStr c]> ∅)) (strip c)
                      false))
    else (log, Raise (BadRequestError "Invalid CPC code")).
Proof.
  unfold DefineCPC.__init__, APIRequest.__init__, DefineCPC._validation_fn,
    py_get, py_getitem, bind, ret.
  assert (Hc : (<["cpc" := PStr c]> ∅ : dict) !! "cpc" = Some (PStr c))
    by apply lookup_insert_eq.
  assert (Hs : (<["cpc" := PStr c]> ∅ : dict) !! "short" = None)
    by (rewrite lookup_insert_ne by discriminate; apply lookup_empty).
  rewrite Hc, Hs. simpl.
  now destruct (DefineCPC.cpc_match (strip c)).
Qed.

(** X25. A CPC code is accepted by what it starts with: after
    stripping, a section letter among A-H and Y, two digits, a capital
    letter, digits, a slash, a digit -- anything may follow.  A request
    with such a ['cpc'] is built around the stripped code, short when
    ['short'] reads as a non-zero integer; a ['cpc'] that is not a [str]
    is refused with ['Invalid request'], another string with ['Invalid
    CPC code']. *)
Theorem cpc_code_checked_at_its_start (d : dict) (log : list call) :
  DefineCPC.__init__ (Some d) log
  = match d !! "cpc" with
    | Some (PStr s) =>
        if DefineCPC.cpc_match (strip s)
        then match int (default (PInt 0) (d !! "short")) with
             | inl e => (log, Raise e)
             | inr short =>
                 (log, Ret (DefineCPC.Build (Some d) (strip s)
                              (negb (short =? 0))))
             end
        else (log, Raise (BadRequestError "Invalid CPC code"))
    | _ => (log, Raise (BadRequestError "Invalid request"))
    end
  /\ (forall code rest,
        DefineCPC.cpc_match code = true ->
        DefineCPC.cpc_match (code +:+ rest) = true)
  /\ (forall code,
        DefineCPC.cpc_match code = true -> (7 <= String.length code)%nat).
Proof.
  split; [| split].
  - unfold DefineCPC.__init__, APIRequest.__init__, DefineCPC._validation_fn,
      py_get, py_getitem, bind, ret, lift.
    destruct (d !! "cpc") as [[| b | z | s] |]; simpl; try reflexivity.
    destruct (DefineCPC.cpc_match (strip s)); simpl; [| reflexivity].
    destruct (int (default (PInt 0) (d !! "short"))); reflexivity.
  - intros code rest.
    destruct code as [| a [| b [| c [| x [| e tail]]]]]; try discriminate.
    simpl.
    destruct (DefineCPC.is_section a && DefineCPC.is_digit b
              && DefineCPC.is_digit c && DefineCPC.is_upper x
              && DefineCPC.is_digit e); simpl; [| discriminate].
    destruct (DefineCPC.skip_digits tail) as [| slash [| f r]] eqn:Hskip;
      try discriminate.
    now rewrite (skip_digits_app tail rest slash (String f r) Hskip).
  - intros code.
    destruct code as [| a [| b [| c [| x [| e tail]]]]]; try discriminate.
    simpl. rewrite !andb_true_iff. intros [_ H].
    destruct (DefineCPC.skip_digits tail) as [| slash [| f r]] eqn:Hskip;
      try discriminate.
    assert (Hlen : forall u : string,
              (String.length (DefineCPC.skip_digits u) <= String.length u)%nat).
    { intros u. induction u as [| y u IH]; simpl; [lia |].
      destruct (DefineCPC.is_digit y); simpl; lia. }
    specialize (Hlen tail). rewrite Hskip in Hlen. simpl in Hlen. lia.
Qed.

(** X26. What [SuggestCPCs] answers with: the (at most ten) classes most
    common among the similar patents, one entry per class, in order of
    decreasing count, no class left out being more common than one
    listed; each with the segmented definition the retriever gives for
    the stripped code, and each a code that passed the check of
    [DefineCPC]. *)
Theorem suggested_cpcs_rank_the_similar_patents
    (W : World) (P : Plugins W) (fuel : nat) (self : TextBasedRequest.t)
    (log log' : list call) (output : list (string * Json W)) :
  SuggestCPCs._serving_fn P fuel self log = (log', Ret output) ->
  exists patents cpcs ranking l1,
    _similar_patents P fuel self log = (l1, Ret patents)
    /\ Forall2 (fun patent cs => patent_cpcs P patent = inr cs) patents cpcs
    /\ ranking = most_common 10 (Counter (List.concat cpcs))
    /\ List.map fst output = List.map fst ranking
    /\ Forall (fun cd =>
                 DefineCPC.cpc_match (strip (fst cd)) = true
                 /\ cpc_define P (strip (fst cd)) true = inr (snd cd)) output
    /\ (List.length output <= 10)%nat
    /\ NoDup (List.map fst output)
    /\ (forall c k, In (c, k) ranking ->
        In c (List.concat cpcs) /\ k = occurrences c (List.concat cpcs))
    /\ StronglySorted at_least_as_common ranking
    /\ (forall other c k,
          In other (List.concat cpcs) ->
          ~ In other (List.map fst output) ->
          In (c, k) ranking ->
          (occurrences other (List.concat cpcs) <= k)%nat).
Proof.
  intros Hserve. unfold SuggestCPCs._serving_fn in Hserve.
  unfold bind at 1 in Hserve.
  destruct (_similar_patents P fuel self log) as [l1 [patents | e |]];
    try discriminate.
  unfold bind at 1 in Hserve.
  destruct (mapM _ patents l1) as [l2 [cpcs | e |]] eqn:Hcpcs;
    try discriminate.
  set (ranking := most_common 10 (Counter (List.concat cpcs))) in *.
  exists patents, cpcs, ranking, l1.
  split; [reflexivity |].
  split.
  { eapply mapM_Forall2; [| exact Hcpcs].
    intros p lg lg' cs H. now apply called_Ret in H. }
  split; [reflexivity |].
  assert (Hout : Forall2 (fun cf cd =>
                   fst cd = fst cf
                   /\ DefineCPC.cpc_match (strip (fst cd)) = true
                   /\ cpc_define P (strip (fst cd)) true = inr (snd cd))
                   ranking output).
  { eapply mapM_Forall2; [| exact Hserve].
    intros [c k] lg lg' [c' definition]. simpl.
    unfold bind at 1. rewrite define_init_single.
    destruct (DefineCPC.cpc_match (strip c)) eqn:Hmatch; [| discriminate].
    unfold bind at 1.
    unfold DefineCPC.serve, APIRequest.serve, try_except_raise,
      DefineCPC._serving_fn, bind, called. simpl.
    destruct (cpc_define P (strip c) true) as [e | def] eqn:Hdef; simpl;
      [discriminate |].
    unfold ret. intros [= _ <- <-]. now repeat split. }
  assert (Hnames : List.map fst output = List.map fst ranking).
  { eapply Forall2_fst_eq; [| exact Hout]. now intros x y [H _]. }
  destruct (most_common_spec 10 (List.concat cpcs))
    as (Hlen & Hnd & Hin & Hsorted & Hrest).
  fold ranking in Hlen, Hnd, Hin, Hsorted, Hrest.
  split; [exact Hnames |].
  split.
  { eapply Forall2_right; [| exact Hout]. now intros x y [_ H]. }
  split.
  { rewrite <- (List.length_map fst), Hnames, List.length_map. exact Hlen. }
  split; [now rewrite Hnames |].
  split; [intros c k Hck; destruct (Hin c k Hck) as (H1 & H2 & _); now split |].
  split; [exact Hsorted |].
  intros other c k Hother Hnot Hck. rewrite Hnames in Hnot.
  now apply (Hrest other c k).
Qed.

Lemma suggested_cpcs_rank_the_similar_patents_witness :
  snd (SuggestCPCs._serving_fn demo_plugins 9 demo_text_request [])
  = Ret [("B60T8/17", 1); ("G06F3/01", 1)]
  /\ (List.length [("B60T8/17", 1); ("G06F3/01", 1)] <= 10)%nat
  /\ DefineCPC.cpc_match (strip "B60T8/17") = true.
Proof.
  assert (Hrun : SuggestCPCs._serving_fn demo_plugins 9 demo_text_request []
                 = (fst (SuggestCPCs._serving_fn demo_plugins 9
                           demo_text_request []),
                    Ret [("B60T8/17", 1); ("G06F3/01", 1)]))
    by (vm_compute; reflexivity).
  split; [now rewrite Hrun |].
  destruct (suggested_cpcs_rank_the_similar_patents (demo_world true)
              demo_plugins 9 demo_text_request [] _ _ Hrun)
    as (patents & cpcs & ranking & l1 & _ & _ & _ & _ & Hchecked & Hlen & _).
  split; [exact Hlen |].
  apply Forall_cons in Hchecked as [[H _] _]. exact H.
Defined.

(** X27. What [PredictGAUs] answers with: the (at most three) art units
    most common among the similar patents that have one, each listed
    once and each the art unit of one of these patents. *)
Theorem predicted_gaus_rank_the_similar_patents
    (W : World) (P : Plugins W) (fuel : nat) (self : TextBasedRequest.t)
    (log log' : list call) (gaus : list string) :
  PredictGAUs._serving_fn P fuel self log = (log', Ret gaus) ->
  exists patents units l1,
    _similar_patents P fuel self log = (l1, Ret patents)
    /\ Forall2 (fun patent u => patent_art_unit P patent = inr u) patents units
    /\ gaus = List.map fst (most_common 3 (Counter (omap id units)))
    /\ (List.length gaus <= 3)%nat
    /\ NoDup gaus
    /\ (forall g, In g gaus ->
        exists patent,
          In patent patents /\ patent_art_unit P patent = inr (Some g)).
Proof.
  intros Hserve. unfold PredictGAUs._serving_fn in Hserve.
  unfold bind at 1 in Hserve.
  destruct (_similar_patents P fuel self log) as [l1 [patents | e |]];
    try discriminate.
  unfold bind at 1 in Hserve.
  destruct (mapM (PredictGAUs._kind_test W) patents l1)
    as [l2 [pns | e |]]; try discriminate.
  unfold bind at 1 in Hserve.
  destruct (mapM _ patents l2) as [l3 [units | e |]] eqn:Hunits;
    try discriminate.
  injection Hserve as _ <-.
  assert (Hall : Forall2 (fun patent u => patent_art_unit P patent = inr u)
                   patents units).
  { eapply mapM_Forall2; [| exact Hunits].
    intros p lg lg' u. unfold bind, called.
    destruct (patent_art_unit P p) as [e | [g |]]; simpl;
      [discriminate | | ]; now intros [= _ <-]. }
  destruct (most_common_spec 3 (omap id units)) as (Hlen & Hnd & Hin & _).
  exists patents, units, l1.
  split; [reflexivity |]. split; [exact Hall |]. split; [reflexivity |].
  split; [now rewrite List.length_map |]. split; [exact Hnd |].
  intros g Hg. apply in_map_iff in Hg as [[g' k] [Hfst Hg]].
  simpl in Hfst. subst g'.
  destruct (Hin g k Hg) as [Hunit _].
  apply list_elem_of_In, list_elem_of_omap in Hunit as (u & Hu & Hsome).
  unfold id in Hsome. subst u.
  apply list_elem_of_lookup in Hu as [i Hi].
  destruct (Forall2_lookup_r _ _ _ _ _ Hall Hi) as (patent & Hp & Hunit).
  exists patent. split; [| exact Hunit].
  apply list_elem_of_In. eapply list_elem_of_lookup_2. exact Hp.
Qed.

Lemma predicted_gaus_rank_the_similar_patents_witness :
  snd (PredictGAUs._serving_fn demo_plugins 9 demo_text_request [])
  = Ret ["3661"]
  /\ (List.length ["3661"] <= 3)%nat.
Proof.
  assert (Hrun : PredictGAUs._serving_fn demo_plugins 9 demo_text_request []
                 = (fst (PredictGAUs._serving_fn demo_plugins 9
                           demo_text_request []), Ret ["3661"]))
    by (vm_compute; reflexivity).
  split; [now rewrite Hrun |].
  destruct (predicted_gaus_rank_the_similar_patents (demo_world true)
              demo_plugins 9 demo_text_request [] _ _ Hrun)
    as (patents & units & l1 & _ & _ & _ & Hlen & _).
  exact Hlen.
Defined.

End MiniappsRanking.

Section MoreWitnesses.

Lemma document_request_needs_id_witness :
  DocumentRequest.__init__ (Some (demo_data (PInt 5))) []
  = ([], Raise (BadRequestError "Request does not contain a document ID."))
  /\ DocumentRequest.serve (demo_world true)
       (DocumentRequest.Build (Some (<["id" := PStr "US1234567B2"]> ∅))
          (PStr "US1234567B2")) []
     = ([CallDocument (PStr "US1234567B2"); CallDocument (PStr "US1234567B2")],
        Ret 0).
Proof.
  split.
  - destruct (document_request_needs_id (demo_world true) (demo_data (PInt 5)) [])
      as [Hmissing _].
    apply Hmissing. vm_compute. reflexivity.
  - destruct (document_request_needs_id (demo_world true)
                (<["id" := PStr "US1234567B2"]> ∅) []) as [_ Hpresent].
    destruct (Hpresent (PStr "US1234567B2")) as [_ Hserve];
      [vm_compute; reflexivity |].
    rewrite Hserve. reflexivity.
Defined.

Lemma cpc_code_checked_at_its_start_witness :
  Miniapps.DefineCPC.cpc_match "H04W72/04" = true
  /\ Miniapps.DefineCPC.cpc_match ("H04W72/04" +:+ " and more") = true
  /\ Miniapps.DefineCPC.cpc_match "H04W72" = false
  /\ Miniapps.DefineCPC.cpc_match "h04W72/04" = false.
Proof.
  destruct (cpc_code_checked_at_its_start ∅ []) as (_ & Hprefix & _).
  split; [reflexivity |].
  split; [apply Hprefix; reflexivity |].
  split; reflexivity.
Defined.

End MoreWitnesses.

(** ** What the search kinds ask of the vector search and the combiner *)

Section Adds.







End Adds.

Section SearchKinds.
Import SearchRequest.
Context {W : World}.
Implicit Types (self : SearchRequest.t W) (log : list call).









(** Building a search request records no search and no combiner call. *)
Lemma silent_init P data :
  (forall idx, P (CallIndexGet idx) = false) ->
  P CallIndexAvailable = false ->
  (forall q k, P (CallSelectIndexes q k) = false) ->
  silent P (SearchRequest.__init__ W data).
Proof.
  intros Hget Havail Hsel.
  unfold SearchRequest.__init__, APIRequest.__init__,
    SearchRequest._validation_fn, SearchRequest._get_full_query,
    SearchRequest._get_indexes, SearchRequest._index_specified_in_request,
    SearchRequest._read_bool_value, FilterExtractor.extract,
    FilterExtractor._get_date_filter, FilterExtractor._get_doctype_filter,
    py_in, py_get, py_getitem.
  repeat first
    [ apply silent_ret | apply silent_raise | apply silent_lift
    | apply silent_called; first [apply Hget | exact Havail | apply Hsel]
    | apply silent_bind; [| intros ?]
    | match goal with
      | |- silent _ (if ?b then _ else _) => destruct b
      | |- silent _ (match ?x with _ => _ end) => destruct x
      end ].
Qed.

(** The pool request of a combination search, when it is built: 100
    results, and the ceiling of every request. *)
Lemma pool_request_built self log log' params l l' req :
  SearchRequest103._get_interim_request_params self log = (log', Ret params) ->
  SearchRequest102.__init__ W (Some params) l = (l', Ret req) ->
  _n_results req = 100 /\ MAX_RES_LIMIT req = 500.
Proof.
  intros Hparams Hreq.
  unfold SearchRequest103._get_interim_request_params, py_copy, bind in Hparams.
  destruct (_data self) as [d |]; [| discriminate].
  injection Hparams as _ <-.
  unfold SearchRequest102.__init__ in Hreq.
  apply init_Ret in Hreq
    as (d' & q & lq & n & ix & [= <-] & _ & _ & Hn & _ & ->).
  rewrite !lookup_insert_ne, lookup_insert_eq in Hn by discriminate.
  injection Hn as <-. now split.
Qed.


Lemma silent_combiner_docs fuel self :
  silent is_combiner (SearchRequest103._get_docs_to_combine fuel self).
Proof.
  unfold SearchRequest103._get_docs_to_combine,
    SearchRequest103._get_interim_request_params, py_copy.
  apply silent_bind; [silent_solve |]. intros params.
  apply silent_bind; [unfold SearchRequest102.__init__; now apply silent_init |].
  intros req. apply silent_bind; [| intros ?; silent_solve].
  unfold SearchRequest102.serve, APIRequest.serve,
    SearchRequest102._serving_fn, SearchRequest102._searching_fn,
    SearchRequest102._get_results, SearchRequest102._rerank,
    SearchRequest102._formatting_fn, _add_snippet_if_needed,
    SearchRequest102._add_mapping_if_needed,
    SearchRequest102._add_remote_results_to.
  apply silent_try. apply silent_bind; [| intros ?; silent_solve].
  apply silent_bind; [| intros ?; silent_solve].
  apply silent_bind; [silent_solve |]. intros qvec.
  now apply silent_loop.
Qed.



End SearchKinds.

Section SearchKindClaims.
Import SearchRequest.



End SearchKindClaims.

Section CombinationPairs.
Import SearchRequest.

(** X18. What a combination search returns.  The pool is what the pool
    request -- the single-reference request with [n] = 100 -- was served;
    with outgoing extension requests disabled it holds at most 100
    documents.  The combiner is asked exactly once, with the outer
    request's query and [n] and, document by document, the abstracts of
    the pool.  The pairs returned are, index pair by index pair, the pool
    documents at the two indexes the combiner answered. *)
Theorem combinations_are_pairs_of_pool_documents
    (W : World) (fuel : nat) (self : SearchRequest.t W)
    (log log' : list call) (combinations : list (Result W * Result W)) :
  SearchRequest103._searching_fn fuel self log = (log', Ret combinations) ->
  exists docs abstracts index_pairs l1,
    SearchRequest103._get_docs_to_combine fuel self log = (l1, Ret docs)
    /\ Forall2 (fun doc abstract => result_abstract W doc = inr abstract)
         docs abstracts
    /\ List.length abstracts = List.length docs
    /\ get_combinations W (_query self) abstracts (_n_results self)
       = inr index_pairs
    /\ List.filter is_combiner log'
       = List.filter is_combiner log ++ [CallCombiner (_n_results self)]
    /\ Forall2 (fun ij pair =>
                  Py.index docs (fst ij) = Some (fst pair)
                  /\ Py.index docs (snd ij) = Some (snd pair))
         index_pairs combinations
    /\ List.length combinations = List.length index_pairs
    /\ (forall a b, In (a, b) combinations -> In a docs /\ In b docs)
    /\ (allow_outgoing_extension_requests W = false ->
        (List.length docs <= 100)%nat).
Proof.
  intros Hsearch.
  unfold SearchRequest103._searching_fn in Hsearch. unfold bind at 1 in Hsearch.
  destruct (SearchRequest103._get_docs_to_combine fuel self log)
    as [l1 [docs | e |]] eqn:Hdocs; try discriminate.
  unfold bind at 1 in Hsearch.
  destruct (mapM _ docs l1) as [l2 [abstracts | e |]] eqn:Habs;
    try discriminate.
  destruct (get_combinations W (_query self) abstracts (_n_results self))
    as [e | index_pairs] eqn:Hcomb;
    [rewrite bind_called_inl in Hsearch; discriminate |].
  rewrite bind_called_inr in Hsearch.
  exists docs, abstracts, index_pairs, l1.
  split; [reflexivity |].
  split.
  { eapply (mapM_Forall2 _ (fun doc abstract =>
                              result_abstract W doc = inr abstract));
      [| exact Habs].
    intros doc l l' abstract Hcall. now apply called_Ret in Hcall. }
  split; [now apply mapM_length in Habs |].
  split; [exact Hcomb |].
  split.
  { assert (Hpairs : silent is_combiner
              (mapM (fun ij => di <- py_index docs (fst ij) ;;
                               dj <- py_index docs (snd ij) ;;
                               ret (di, dj)) index_pairs)) by silent_solve.
    specialize (Hpairs (l2 ++ [CallCombiner (_n_results self)])).
    rewrite Hsearch in Hpairs. simpl in Hpairs.
    rewrite Hpairs, List.filter_app. simpl. f_equal.
    assert (Habstracts : silent is_combiner
              (mapM (fun doc => called CallResult (result_abstract W doc)) docs))
      by silent_solve.
    specialize (Habstracts l1). rewrite Habs in Habstracts. simpl in Habstracts.
    rewrite Habstracts.
    pose proof (silent_combiner_docs fuel self log) as Hpool.
    now rewrite Hdocs in Hpool. }
  split.
  { eapply (mapM_Forall2 _ (fun ij pair =>
                              Py.index docs (fst ij) = Some (fst pair)
                              /\ Py.index docs (snd ij) = Some (snd pair)));
      [| exact Hsearch].
    intros [i j] l l' [a b]. simpl. unfold py_index, bind, ret, raise.
    destruct (Py.index docs i) as [di |]; [| discriminate].
    destruct (Py.index docs j) as [dj |]; [| discriminate].
    now intros [= _ <- <-]. }
  split; [now apply mapM_length in Hsearch |].
  split; [now apply (mapM_pairs_In docs index_pairs _ _ _ Hsearch) |].
  intros Hoff.
  unfold SearchRequest103._get_docs_to_combine in Hdocs.
  unfold bind at 1 in Hdocs.
  destruct (SearchRequest103._get_interim_request_params self log)
    as [l3 [params | e |]] eqn:Hparams; try discriminate.
  unfold bind at 1 in Hdocs.
  destruct (SearchRequest102.__init__ W (Some params) l3)
    as [l4 [interim | e |]] eqn:Hinterim; try discriminate.
  unfold bind at 1 in Hdocs.
  destruct (SearchRequest102.serve fuel interim l4)
    as [l5 [response | e |]] eqn:Hserve; try discriminate.
  apply mapM_length in Hdocs. rewrite Hdocs.
  pose proof (serve_local_count W fuel interim l4 l5 response Hoff Hserve)
    as Hcount.
  destruct (pool_request_built self log l3 params l3 l4 interim Hparams Hinterim)
    as [Hn _].
  rewrite Hn in Hcount. lia.
Qed.

Lemma combinations_are_pairs_of_pool_documents_witness :
  snd (SearchRequest103._searching_fn 9 demo_pairing_request [])
  = Ret [(0, 1); (2, 3)]
  /\ List.filter is_combiner
       (fst (SearchRequest103._searching_fn 9 demo_pairing_request []))
     = [CallCombiner 7]
  /\ exists docs l1,
       SearchRequest103._get_docs_to_combine 9 demo_pairing_request []
       = (l1, Ret docs)
       /\ Py.index docs 0 = Some 0 /\ Py.index docs 1 = Some 1
       /\ Py.index docs 2 = Some 2 /\ Py.index docs 3 = Some 3
       /\ (List.length docs <= 100)%nat.
Proof.
  assert (Hrun : SearchRequest103._searching_fn 9 demo_pairing_request []
                 = (fst (SearchRequest103._searching_fn 9
                           demo_pairing_request []),
                    Ret [(0, 1); (2, 3)]))
    by (vm_compute; reflexivity).
  split; [now rewrite Hrun |].
  destruct (combinations_are_pairs_of_pool_documents demo_world_pairing 9
              demo_pairing_request [] _ [(0, 1); (2, 3)] Hrun)
    as (docs & abstracts & index_pairs & l1 & Hdocs & _ & _ & Hcomb & Hlog
        & Hpairs & _ & _ & Hpool).
  split; [exact Hlog |].
  injection Hcomb as <-.
  apply Forall2_cons_1 in Hpairs as [[H0 H1] Hpairs].
  apply Forall2_cons_1 in Hpairs as [[H2 H3] _].
  exists docs, l1. repeat split; try assumption. now apply Hpool.
Defined.

End CombinationPairs.
